(** * The intercepting gRPC relay of the local test network

    A shallow embedding of [integration-testing/casperlabs_local_net/grpc_proxy.py]:
    the interceptor hooks ([Interceptor], [LoggingInterceptor],
    [KademliaInterceptor], [GossipInterceptor]) and the generic forwarding
    servicer ([ProxyServicer]).

    Python functions become functions into a writer/error monad ([Fn]: the
    lines handed to [logging.info], then a return value or an exception).
    Generator functions become functions into [Gen]: they additionally read
    the upstream response iterator and leave a trace of what they pulled,
    logged and yielded, in program order.

    The libraries the module imports (lz4, ed25519, base64, the blake2b
    helper, the protobuf generated classes, the text rendering of messages)
    are taken as type-class parameters; nothing is assumed about them except
    where a statement says so. *)

From Stdlib Require Import ZArith String Ascii List Lia.
From Stdlib.Strings Require Import Byte.
From Stdlib Require Import DecimalString.
From stdpp Require Import base option list gmap strings.
Import ListNotations.

Local Open Scope string_scope.
Local Open Scope list_scope.

(** ** Python builtins used by the module *)

Abbreviation bytes := (list byte).

Module Py.

(** [len(b)] *)
Definition len {A : Type} (l : list A) : Z := Z.of_nat (length l).

(** [str(n)] for an int *)
Definition str_int (n : Z) : string := NilZero.string_of_int (Z.to_int n).

Definition hex_digit (n : N) : ascii :=
  nth (N.to_nat n) (list_ascii_of_string "0123456789abcdef") "0"%char.

(** [b.hex()]: two lower-case hexadecimal digits per byte. *)
Fixpoint hex (b : bytes) : string :=
  match b with
  | [] => EmptyString
  | x :: rest =>
      String (hex_digit (Byte.to_N x / 16))
        (String (hex_digit (Byte.to_N x mod 16)) (hex rest))
  end.

(** [s.startswith(prefix)] *)
Definition startswith (s prefix : string) : bool := String.prefix prefix s.

(** [s.endswith(suffix)]: some tail of [s] is [suffix]. *)
Fixpoint endswith (s suffix : string) : bool :=
  String.eqb s suffix ||
  match s with
  | EmptyString => false
  | String _ s' => endswith s' suffix
  end.

(** Exceptions that can travel through the module.  None of them is caught
    anywhere in [grpc_proxy.py]. *)
Inductive exn : Type :=
| StopIteration
| RuntimeError (msg : string)
| IndexError
| AttributeError (attr : string)
| KeyError (key : string)          (* registry lookup of an unknown identity *)
| LZ4BlockError                    (* lz4.block.decompress *)
| DecodeError                      (* Message.ParseFromString *)
| BinasciiError                    (* base64.b64decode *)
| ValueError                       (* ed25519.SigningKey on a malformed key *)
| RpcError (status : string).      (* raised by the upstream stub *)

Inductive outcome (X : Type) : Type :=
| Return (x : X)
| Raise (e : exn).
Global Arguments Return {X} x.
Global Arguments Raise {X} e.

(** A library call that either gives a value or raises the given exception. *)
Definition or_raise {X : Type} (o : option X) (e : exn) : outcome X :=
  match o with Some x => Return x | None => Raise e end.

End Py.
Export Py.

(** ** Plain functions: log lines, then a value or an exception *)

Definition Fn (X : Type) : Type := list string * outcome X.

Definition fn_ret {X : Type} (x : X) : Fn X := ([], Return x).

Definition fn_bind {X Y : Type} (f : X -> Fn Y) (m : Fn X) : Fn Y :=
  match m with
  | (l1, Return x) => let '(l2, o) := f x in (l1 ++ l2, o)
  | (l1, Raise e) => (l1, Raise e)
  end.

#[global] Instance Fn_ret : MRet Fn := @fn_ret.
#[global] Instance Fn_bind : MBind Fn := @fn_bind.

(** [logging.info(line)] *)
Definition logging_info (line : string) : Fn unit := ([line], Return tt).

(** A pure library call, possibly raising. *)
Definition call {X : Type} (o : outcome X) : Fn X := ([], o).

Definition log_of {X : Type} (m : Fn X) : list string := fst m.
Definition value_of {X : Type} (m : Fn X) : outcome X := snd m.

(** ** Generators: a trace over an upstream iterator *)

(** The upstream response iterator: the elements still to come, then either
    exhaustion ([None], i.e. [StopIteration]) or an error of the call. *)
Record Stream (A : Type) : Type := mkStream {
  items : list A;
  ending : option exn
}.
Arguments mkStream {A} items ending.
Arguments items {A} s.
Arguments ending {A} s.

Inductive event (A : Type) : Type :=
| Logged (line : string)
| Pulled (x : A)
| Yielded (x : A).
Arguments Logged {A} line.
Arguments Pulled {A} x.
Arguments Yielded {A} x.

Record Run (A X : Type) : Type := mkRun {
  trace : list (event A);
  upstream : Stream A;
  result : outcome X
}.
Arguments mkRun {A X} trace upstream result.
Arguments trace {A X} r.
Arguments upstream {A X} r.
Arguments result {A X} r.

Definition Gen (A X : Type) : Type := Stream A -> Run A X.

Definition gen_ret {A X : Type} (x : X) : Gen A X :=
  fun s => mkRun [] s (Return x).

Definition gen_bind {A X Y : Type} (f : X -> Gen A Y) (m : Gen A X) : Gen A Y :=
  fun s =>
    match m s with
    | mkRun t1 s1 (Return x) =>
        match f x s1 with
        | mkRun t2 s2 o => mkRun (t1 ++ t2) s2 o
        end
    | mkRun t1 s1 (Raise e) => mkRun t1 s1 (Raise e)
    end.

#[global] Instance Gen_ret {A} : MRet (Gen A) := @gen_ret A.
#[global] Instance Gen_bind {A} : MBind (Gen A) := @gen_bind A.

(** Running a plain function inside a generator body. *)
Definition lift {A X : Type} (m : Fn X) : Gen A X :=
  fun s => mkRun (map Logged (log_of m)) s (value_of m).

(** [next(response)] *)
Definition next {A : Type} : Gen A A :=
  fun s =>
    match items s with
    | x :: rest => mkRun [Pulled x] (mkStream rest (ending s)) (Return x)
    | [] =>
        match ending s with
        | None => mkRun [] s (Raise StopIteration)
        | Some e => mkRun [] s (Raise e)
        end
    end.

(** [yield x] *)
Definition yield {A : Type} (x : A) : Gen A unit :=
  fun s => mkRun [Yielded x] s (Return tt).

(** [for r in response: <body>; yield <value of body>].  Every loop of the
    module has this shape; the body never touches [response] itself.  The
    loop ends normally when the iterator is exhausted and lets any other
    exception through. *)
Definition exhausted (e : option exn) : outcome unit :=
  match e with
  | None | Some StopIteration => Return tt
  | Some ex => Raise ex
  end.

Fixpoint for_yield_items {A : Type} (body : A -> Fn A)
    (xs : list A) (e : option exn) : Run A unit :=
  match xs with
  | [] => mkRun [] (mkStream [] e) (exhausted e)
  | x :: rest =>
      match body x with
      | (l, Return y) =>
          let r := for_yield_items body rest e in
          mkRun (Pulled x :: map Logged l ++ Yielded y :: trace r)
                (upstream r) (result r)
      | (l, Raise ex) =>
          mkRun (Pulled x :: map Logged l) (mkStream rest e) (Raise ex)
      end
  end.

Definition for_yield {A : Type} (body : A -> Fn A) : Gen A unit :=
  fun s => for_yield_items body (items s) (ending s).

(** [yield from response] *)
Definition yield_from {A : Type} : Gen A unit := for_yield (fun r => mret r).

(** A generator function.  A [StopIteration] that escapes the body of a
    generator is replaced by [RuntimeError] (PEP 479, the behaviour of every
    interpreter that accepts this module's syntax from 3.7 on). *)
Definition pep479 (o : outcome unit) : outcome unit :=
  match o with
  | Raise StopIteration => Raise (RuntimeError "generator raised StopIteration")
  | _ => o
  end.

Definition generator {A : Type} (body : Gen A unit) : Gen A unit :=
  fun s =>
    match body s with
    | mkRun t s' o => mkRun t s' (pep479 o)
    end.

(** What a finished run shows from outside. *)
Fixpoint emitted {A : Type} (t : list (event A)) : list A :=
  match t with
  | [] => []
  | Yielded x :: t' => x :: emitted t'
  | _ :: t' => emitted t'
  end.

Fixpoint consumed {A : Type} (t : list (event A)) : list A :=
  match t with
  | [] => []
  | Pulled x :: t' => x :: consumed t'
  | _ :: t' => consumed t'
  end.

Fixpoint logged {A : Type} (t : list (event A)) : list string :=
  match t with
  | [] => []
  | Logged l :: t' => l :: logged t'
  | _ :: t' => logged t'
  end.

(** The trace without its log lines: the interleaving of pulls and yields. *)
Fixpoint traffic {A : Type} (t : list (event A)) : list (event A) :=
  match t with
  | [] => []
  | Logged _ :: t' => traffic t'
  | ev :: t' => ev :: traffic t'
  end.

(** Pull one, yield its image, pull the next, ... *)
Fixpoint one_at_a_time {A : Type} (f : A -> A) (xs : list A) : list (event A) :=
  match xs with
  | [] => []
  | x :: rest => Pulled x :: Yielded (f x) :: one_at_a_time f rest
  end.

(** ** Imported libraries, as interfaces *)

(** [lz4.block]: [decompress(data, uncompressed_size=n)] raises on corrupt
    input; [compress(data, store_size=False)]. *)
Class Lz4Block : Type := {
  lz4_block_decompress : bytes -> Z -> option bytes;
  lz4_block_compress : bytes -> bytes
}.

(** The contract of the codec: a compressed buffer decompresses to the
    original when the original length is supplied. *)
Class Lz4BlockLaws (L : Lz4Block) : Prop := {
  decompress_compress :
    forall x : bytes,
      lz4_block_decompress (lz4_block_compress x) (len x) = Some x
}.

(** [casperlabs_client.blake2b_hash], [base64.b64decode] and the [ed25519]
    package. *)
Class Crypto : Type := {
  blake2b_hash : bytes -> bytes;
  b64decode : string -> option bytes;
  SigningKey : Type;
  ed25519_SigningKey : bytes -> option SigningKey;
  sign : SigningKey -> bytes -> bytes
}.

(** [casperlabs_client.hexify] and [str] as used in the log lines. *)
Class Hexify (A : Type) : Type := hexify : A -> string.
Class Str (A : Type) : Type := str : A -> string.

(** The parts of the protocol messages that the proxy never reads or writes. *)
Class Proto : Type := {
  Approval : Type;
  Other : Type
}.

(** ** Protocol messages

    Only the fields the hooks touch are spelled out; the others travel in a
    slot of type [Other].  Integer fields hold plain integers.  The two port
    fields of a peer are unsigned 32-bit fields: assigning a value outside
    [0, 2^32) raises [ValueError] and leaves the field as it was.  The length
    fields of a chunk header only ever receive the lengths of buffers the
    codec has taken and produced. *)

Module kademlia.

(** The peer record shown in the docstrings of the hooks. *)
Record Node : Type := mkNode {
  id : bytes;
  host : string;
  protocol_port : Z;
  discovery_port : Z
}.

(** The values an unsigned 32-bit field accepts. *)
Definition uint32 (v : Z) : bool := (0 <=? v)%Z && (v <? 2 ^ 32)%Z.

(** [n.host = v] *)
Definition set_host (v : string) (n : Node) : Node :=
  mkNode (id n) v (protocol_port n) (discovery_port n).

(** [n.protocol_port = v] *)
Definition set_protocol_port (v : Z) (n : Node) : outcome Node :=
  if uint32 v then Return (mkNode (id n) (host n) v (discovery_port n))
  else Raise ValueError.

(** [n.discovery_port = v] *)
Definition set_discovery_port (v : Z) (n : Node) : outcome Node :=
  if uint32 v then Return (mkNode (id n) (host n) (protocol_port n) v)
  else Raise ValueError.

Section Request.
Context `{Proto}.

(** Every request of the discovery service carries its [sender]. *)
Record Request : Type := mkRequest {
  sender : Node;
  others : Other
}.
End Request.

End kademlia.

Module consensus.
Section Messages.
Context `{Proto}.

Record Signature : Type := mkSignature {
  sig_algorithm : string;
  sig : bytes
}.

Record Deploy : Type := mkDeploy {
  approvals : list Approval;
  deploy_others : Other
}.

Record ProcessedDeploy : Type := mkProcessedDeploy {
  deploy : Deploy;
  processed_others : Other
}.

Record Body : Type := mkBody {
  deploys : list ProcessedDeploy
}.

Record Header : Type := mkHeader {
  body_hash : bytes;
  header_others : Other
}.

Record Block : Type := mkBlock {
  block_hash : bytes;
  header : Header;
  body : Body;
  signature : Signature
}.
End Messages.

(** The generated (de)serialisers of [consensus_pb2]. *)
Class Wire `{Proto} : Type := {
  Body_SerializeToString : Body -> bytes;
  Header_SerializeToString : Header -> bytes;
  Block_SerializeToString : Block -> bytes;
  Block_ParseFromString : bytes -> option Block
}.

End consensus.

Module gossiping.
Section Messages.
Context `{Proto}.

Inductive Request : Type :=
| NewBlocksRequest (sender : kademlia.Node) (block_hashes : list bytes)
| OtherRequest (fields : Other).

Record ChunkHeader : Type := mkChunkHeader {
  content_length : Z;
  original_content_length : Z;
  chunk_header_others : Other
}.

Record Chunk : Type := mkChunk {
  header : ChunkHeader;
  data : bytes
}.
End Messages.
End gossiping.

(** ** The test network, as far as the hooks read it *)

(** Modelled from the spec: the NodeEndpoint a registry lookup returns (the
    class of the looked-up node is defined outside this module); the hooks
    read its [proxy_host], [server_proxy_port] and [kademlia_proxy_port]. *)
Record NodeEndpoint : Type := mkNodeEndpoint {
  proxy_host : string;
  server_proxy_port : Z;
  kademlia_proxy_port : Z
}.

(** Modelled from the spec: the Node Registry behind [self.node.cl_network]
    (its class is defined outside this module), an address book from node
    identity to NodeEndpoint. *)
Record CasperLabsNetwork : Type := mkNetwork {
  registry : gmap string NodeEndpoint
}.

(** Modelled from the spec: [cl_network.lookup_node(node_id)], defined
    outside this module: "Node Registry lookup(identity) -> NodeEndpoint;
    fails on unknown identity, aborting the call". *)
Definition lookup_node (net : CasperLabsNetwork) (node_id : string)
    : outcome NodeEndpoint :=
  or_raise (registry net !! node_id) (KeyError node_id).

Record NodeConfig : Type := mkNodeConfig {
  node_private_key : string
}.

(** [self.node] of an interceptor. *)
Record DockerNode : Type := mkDockerNode {
  cl_network : CasperLabsNetwork;
  config : NodeConfig
}.

(** The three assignments [x.host = node.proxy_host],
    [x.protocol_port = node.server_proxy_port] and
    [x.discovery_port = node.kademlia_proxy_port] shared by the
    address-rewriting hooks. *)
Definition patch_address (x : kademlia.Node) (node : NodeEndpoint)
    : outcome kademlia.Node :=
  let x := kademlia.set_host (proxy_host node) x in
  match kademlia.set_protocol_port (server_proxy_port node) x with
  | Raise e => Raise e
  | Return x => kademlia.set_discovery_port (kademlia_proxy_port node) x
  end.

(** ** Interceptors *)

(** The capability set every interceptor offers to the servicer. *)
Record Hooks (Req Resp Item : Type) : Type := mkHooks {
  pre_request : string -> Req -> Fn Req;
  post_request : string -> Req -> Resp -> Fn Resp;
  post_request_stream : string -> Req -> Gen Item unit
}.
Arguments mkHooks {Req Resp Item}.
Arguments pre_request {Req Resp Item} h name request.
Arguments post_request {Req Resp Item} h name request response.
Arguments post_request_stream {Req Resp Item} h name request.

(** [class Interceptor] *)
Module Interceptor.
Section Methods.
Context {Req Resp Item : Type}.

Definition pre_request (name : string) (request : Req) : Fn Req :=
  mret request.

Definition post_request (name : string) (request : Req) (response : Resp)
    : Fn Resp :=
  mret response.

Definition post_request_stream (name : string) (request : Req)
    : Gen Item unit :=
  generator yield_from.

Definition hooks : Hooks Req Resp Item :=
  mkHooks pre_request post_request post_request_stream.
End Methods.
End Interceptor.

(** [class LoggingInterceptor(Interceptor)] *)
Module LoggingInterceptor.
Section Methods.
Context {Req Resp Item : Type}.
Context `{Hexify Req, Hexify Resp, Str (Stream Item)}.

Definition pre_request (name : string) (request : Req) : Fn Req :=
  logging_info ("PRE REQUEST: " +:+ name +:+ "(" +:+ hexify request +:+ ")");;
  mret request.

Definition post_request (name : string) (request : Req) (response : Resp)
    : Fn Resp :=
  logging_info ("POST REQUEST: " +:+ name +:+ "(" +:+ hexify request
                +:+ ") => (" +:+ hexify response +:+ ")");;
  mret response.

Definition post_request_stream (name : string) (request : Req)
    : Gen Item unit :=
  fun response =>
    generator
      (lift (logging_info ("POST REQUEST STREAM: " +:+ name +:+ "("
                           +:+ hexify request +:+ ") => " +:+ str response));;
       yield_from) response.

Definition hooks : Hooks Req Resp Item :=
  mkHooks pre_request post_request post_request_stream.
End Methods.
End LoggingInterceptor.

(** [class KademliaInterceptor(Interceptor)] *)
Module KademliaInterceptor.
Section Methods.
Context `{Proto} {Resp : Type}.
Context `{Hexify kademlia.Request, Hexify Resp,
          Str kademlia.Node, Str (Stream kademlia.Node)}.
Variable self : DockerNode.

Definition set_sender (n : kademlia.Node) (request : kademlia.Request)
    : kademlia.Request :=
  kademlia.mkRequest n (kademlia.others request).

Definition pre_request (name : string) (request : kademlia.Request)
    : Fn kademlia.Request :=
  logging_info ("KADEMLIA PRE REQUEST: <= " +:+ name +:+ "("
                +:+ hexify request +:+ ")");;
  node ← call (lookup_node (cl_network self)
                 (hex (kademlia.id (kademlia.sender request))));
  sender ← call (patch_address (kademlia.sender request) node);
  let request := set_sender sender request in
  logging_info ("KADEMLIA PRE REQUEST: => " +:+ name +:+ "("
                +:+ hexify request +:+ ")");;
  mret request.

Definition post_request (name : string) (request : kademlia.Request)
    (response : Resp) : Fn Resp :=
  logging_info ("KADEMLIA POST REQUEST: " +:+ name +:+ "(" +:+ hexify request
                +:+ ") => (" +:+ hexify response +:+ ")");;
  mret response.

(** The body of [for r in response] up to its [yield r]. *)
Definition patch_peer (name : string) (r : kademlia.Node) : Fn kademlia.Node :=
  node ← call (lookup_node (cl_network self) (hex (kademlia.id r)));
  r ← call (patch_address r node);
  logging_info ("KADEMLIA POST REQUEST STREAM: " +:+ name +:+ " => " +:+ str r);;
  mret r.

Definition post_request_stream (name : string) (request : kademlia.Request)
    : Gen kademlia.Node unit :=
  fun response =>
    generator
      (lift (logging_info ("KADEMLIA POST REQUEST STREAM: " +:+ name +:+ "("
                           +:+ hexify request +:+ ") => " +:+ str response));;
       for_yield (patch_peer name)) response.

Definition hooks : Hooks kademlia.Request Resp kademlia.Node :=
  mkHooks pre_request post_request post_request_stream.
End Methods.
End KademliaInterceptor.

(** [class GossipInterceptor(Interceptor)] *)
Module GossipInterceptor.
Import consensus.
Section Methods.
Context `{Proto} `{!consensus.Wire} `{!Lz4Block} `{!Crypto} {Resp : Type}.
Context `{Hexify gossiping.Request, Hexify Resp,
          Hexify gossiping.ChunkHeader, Hexify gossiping.Chunk}.
Variable self : DockerNode.

Definition pre_request (name : string) (request : gossiping.Request)
    : Fn gossiping.Request :=
  logging_info ("GOSSIP PRE REQUEST: <= " +:+ name +:+ "("
                +:+ hexify request +:+ ")");;
  if String.eqb name "NewBlocks" then
    match request with
    | gossiping.NewBlocksRequest request_sender block_hashes =>
        sender ← call (lookup_node (cl_network self)
                         (hex (kademlia.id request_sender)));
        request_sender ← call (patch_address request_sender sender);
        let request := gossiping.NewBlocksRequest request_sender block_hashes in
        logging_info ("GOSSIP PRE REQUEST: => " +:+ name +:+ "("
                      +:+ hexify request +:+ ")");;
        mret request
    | gossiping.OtherRequest _ => call (Raise (AttributeError "sender"))
    end
  else mret request.

Definition post_request (name : string) (request : gossiping.Request)
    (response : Resp) : Fn Resp :=
  logging_info ("GOSSIP POST REQUEST: " +:+ name +:+ "(" +:+ hexify request
                +:+ ") => (" +:+ hexify response +:+ ")");;
  mret response.

(** *** In-place updates of the parsed block *)

Definition set_approvals (v : list Approval) (d : ProcessedDeploy)
    : ProcessedDeploy :=
  mkProcessedDeploy (mkDeploy v (deploy_others (deploy d))) (processed_others d).

Definition set_deploys (v : list ProcessedDeploy) (b : Block) : Block :=
  mkBlock (block_hash b) (header b) (mkBody v) (signature b).

Definition set_body_hash (v : bytes) (b : Block) : Block :=
  mkBlock (block_hash b) (mkHeader v (header_others (header b)))
    (body b) (signature b).

Definition set_block_hash (v : bytes) (b : Block) : Block :=
  mkBlock v (header b) (body b) (signature b).

Definition set_sig_algorithm (v : string) (b : Block) : Block :=
  mkBlock (block_hash b) (header b) (body b)
    (mkSignature v (sig (signature b))).

Definition set_sig (v : bytes) (b : Block) : Block :=
  mkBlock (block_hash b) (header b) (body b)
    (mkSignature (sig_algorithm (signature b)) v).

(** [del block.body.deploys[0].deploy.approvals[:]] *)
Definition del_first_approvals (block : Block) : outcome Block :=
  match deploys (body block) with
  | [] => Raise IndexError
  | first :: rest => Return (set_deploys (set_approvals [] first :: rest) block)
  end.

(** The statements between parsing and re-serialising the block: drop the
    approvals of the first deploy, then recompute [body_hash],
    [block_hash] and the signature. *)
Definition strip_and_resign (block : Block) : Fn Block :=
  block ← call (del_first_approvals block);
  let block :=
    set_body_hash (blake2b_hash (Body_SerializeToString (body block))) block in
  let block_hash := blake2b_hash (Header_SerializeToString (header block)) in
  let block := set_block_hash block_hash block in
  let block := set_sig_algorithm "ed25519" block in
  key_bytes ← call (or_raise (b64decode (node_private_key (config self)))
                      BinasciiError);
  signing_key ← call (or_raise (ed25519_SigningKey key_bytes) ValueError);
  let block := set_sig (sign signing_key block_hash) block in
  mret block.

Definition set_lengths (original compressed : Z) (c : gossiping.Chunk)
    : gossiping.Chunk :=
  let h1 := gossiping.mkChunkHeader
              (gossiping.content_length (gossiping.header c)) original
              (gossiping.chunk_header_others (gossiping.header c)) in
  let h2 := gossiping.mkChunkHeader compressed
              (gossiping.original_content_length h1)
              (gossiping.chunk_header_others h1) in
  gossiping.mkChunk h2 (gossiping.data c).

Definition set_data (v : bytes) (c : gossiping.Chunk) : gossiping.Chunk :=
  gossiping.mkChunk (gossiping.header c) v.

(** The branch [if name == "GetBlockChunked"]. *)
Definition get_block_chunked : Gen gossiping.Chunk unit :=
  chunk1 ← next;
  lift (logging_info ("GOSSIP POST GetBlockChunked:: => "
                      +:+ hexify (gossiping.header chunk1)));;
  chunk2 ← next;
  lift (logging_info ("GOSSIP POST GetBlockChunked:: => "
                      +:+ str_int (len (gossiping.data chunk2))));;
  uncompressed_block_data ←
    lift (call (or_raise
                  (lz4_block_decompress (gossiping.data chunk2)
                     (gossiping.original_content_length (gossiping.header chunk1)))
                  LZ4BlockError));
  block ← lift (call (or_raise (Block_ParseFromString uncompressed_block_data)
                        DecodeError));
  block ← lift (strip_and_resign block);
  let new_data := Block_SerializeToString block in
  let compressed_new_data := lz4_block_compress new_data in
  let chunk1 := set_lengths (len new_data) (len compressed_new_data) chunk1 in
  let chunk2 := set_data compressed_new_data chunk2 in
  yield chunk1;;
  yield chunk2.

(** The body of the [else] branch's loop up to its [yield r]. *)
Definition log_chunk (name : string) (r : gossiping.Chunk) : Fn gossiping.Chunk :=
  logging_info ("GOSSIP POST REQUEST STREAM: " +:+ name +:+ " => " +:+ hexify r);;
  mret r.

Definition post_request_stream (name : string) (request : gossiping.Request)
    : Gen gossiping.Chunk unit :=
  generator
    (lift (logging_info ("GOSSIP POST REQUEST STREAM: " +:+ name +:+ "("
                         +:+ hexify request +:+ ")"));;
     if String.eqb name "GetBlockChunked" then get_block_chunked
     else for_yield (log_chunk name)).

Definition hooks : Hooks gossiping.Request Resp gossiping.Chunk :=
  mkHooks pre_request post_request post_request_stream.
End Methods.
End GossipInterceptor.

(** [class ProxyServicer] *)
Module ProxyServicer.
Section Methods.
Context {Req Resp Item : Type} `{Hexify Req}.

(** The servicer with its bound interceptor; [invoke] and [invoke_stream]
    stand for [getattr(self.service_stub(channel), name)] applied to the
    preprocessed request, for a unary and for a server-streaming method. *)
Record t : Type := mk {
  log_prefix : string;
  interceptor : Hooks Req Resp Item;
  invoke : string -> Req -> outcome Resp;
  invoke_stream : string -> Req -> outcome (Stream Item)
}.

Definition is_unary_stream (method_name : string) : bool :=
  startswith method_name "Stream" || endswith method_name "Chunked".

Definition unary_unary (self : t) (name : string) (request : Req) : Fn Resp :=
  logging_info (log_prefix self +:+ ": (" +:+ hexify request +:+ ")");;
  preprocessed_request ← pre_request (interceptor self) name request;
  response ← call (invoke self name preprocessed_request);
  post_request (interceptor self) name preprocessed_request response.

(** The generator [unary_stream]: what it logs and yields to the caller,
    and how it ends.  Its upstream is the iterator the stub returns; when
    [pre_request] or the stub raises there is none, and the run shows an
    empty one. *)
Definition unary_stream (self : t) (name : string) (request : Req)
    : Run Item unit :=
  let opened :=
    logging_info (log_prefix self +:+ ": (" +:+ hexify request +:+ ")");;
    preprocessed_request ← pre_request (interceptor self) name request;
    response_stream ← call (invoke_stream self name preprocessed_request);
    mret (preprocessed_request, response_stream) in
  match value_of opened with
  | Raise e =>
      mkRun (map Logged (log_of opened)) (mkStream [] None) (pep479 (Raise e))
  | Return (preprocessed_request, response_stream) =>
      generator
        (lift (log_of opened, Return tt);;
         post_request_stream (interceptor self) name preprocessed_request)
        response_stream
  end.

Inductive handler : Type :=
| UnaryStream (h : Req -> Run Item unit)
| UnaryUnary (h : Req -> Fn Resp).

Definition __getattr__ (self : t) (name : string) : handler :=
  if is_unary_stream name then UnaryStream (unary_stream self name)
  else UnaryUnary (unary_unary self name).
End Methods.
Arguments t Req Resp Item : clear implicits.
End ProxyServicer.

(** ** Vocabulary of the statements *)

(** The loop body returns [f x] on [x]. *)
Definition returns {A : Type} (body : A -> Fn A) (f : A -> A) (x : A) : Prop :=
  value_of (body x) = Return (f x).

(** The registry entry of a peer, found under the hexadecimal rendering of
    its identity. *)
Definition endpoint_of (self : DockerNode) (n : kademlia.Node) : option NodeEndpoint :=
  registry (cl_network self) !! hex (kademlia.id n).

(** The peer advertises the proxy-facing coordinates of the registry entry. *)
Definition points_to_proxy (node : NodeEndpoint) (n : kademlia.Node) : Prop :=
  kademlia.host n = proxy_host node /\
  kademlia.protocol_port n = server_proxy_port node /\
  kademlia.discovery_port n = kademlia_proxy_port node.

(** Both proxy ports of the entry are values the port fields accept. *)
Definition fits (node : NodeEndpoint) : bool :=
  kademlia.uint32 (server_proxy_port node) &&
  kademlia.uint32 (kademlia_proxy_port node).

(** The peer after the three assignments, when all three succeed. *)
Definition patched (n : kademlia.Node) (node : NodeEndpoint) : kademlia.Node :=
  kademlia.mkNode (kademlia.id n) (proxy_host node)
    (server_proxy_port node) (kademlia_proxy_port node).

(** The peer is registered under an entry whose ports fit. *)
Definition rewritable (self : DockerNode) (n : kademlia.Node) : Prop :=
  exists node, endpoint_of self n = Some node /\ fits node = true.

(** The peer with its address replaced by its registry entry, when it has one
    and the assignments succeed. *)
Definition rewritten (self : DockerNode) (n : kademlia.Node) : kademlia.Node :=
  match endpoint_of self n with
  | Some node =>
      match patch_address n node with
      | Return n' => n'
      | Raise _ => n
      end
  | None => n
  end.

Section BlockFetchVocabulary.
Import consensus.
Context `{Proto} `{!consensus.Wire} `{!Lz4Block} `{!Crypto}.
Context `{Hexify gossiping.ChunkHeader}.

(** The two pulls and the two log lines every run over two or more chunks
    starts with. *)
Definition fetch_prefix (c1 c2 : gossiping.Chunk) : list (event gossiping.Chunk) :=
  [Pulled c1;
   Logged ("GOSSIP POST GetBlockChunked:: => " +:+ hexify (gossiping.header c1));
   Pulled c2;
   Logged ("GOSSIP POST GetBlockChunked:: => "
           +:+ str_int (len (gossiping.data c2)))].

(** The block after the four updates, given the block without the approvals
    and the loaded key. *)
Definition resigned (stripped : Block) (signing_key : SigningKey) : Block :=
  let with_body_hash :=
    GossipInterceptor.set_body_hash
      (blake2b_hash (Body_SerializeToString (body stripped))) stripped in
  let with_block_hash :=
    GossipInterceptor.set_block_hash
      (blake2b_hash (Header_SerializeToString (header with_body_hash)))
      with_body_hash in
  GossipInterceptor.set_sig
    (sign signing_key (block_hash with_block_hash))
    (GossipInterceptor.set_sig_algorithm "ed25519" with_block_hash).

(** Everything the block-fetch branch needs in order to reach its two
    [yield]s: the data chunk decompresses under the length the header chunk
    declares, the result parses into a block, the block has a first deploy,
    and the node's configured private key decodes and loads. *)
Definition fetch_succeeds (self : DockerNode) (c1 c2 : gossiping.Chunk) : Prop :=
  exists raw block key_bytes signing_key,
    lz4_block_decompress (gossiping.data c2)
      (gossiping.original_content_length (gossiping.header c1)) = Some raw /\
    Block_ParseFromString raw = Some block /\
    deploys (body block) <> [] /\
    b64decode (node_private_key (config self)) = Some key_bytes /\
    ed25519_SigningKey key_bytes = Some signing_key.

(** What the branch has in hand once both chunks are pulled and logged:
    the re-signed block, or the exception that ends the call. *)
Definition decode_and_resign (self : DockerNode) (c1 c2 : gossiping.Chunk)
    : outcome Block :=
  match lz4_block_decompress (gossiping.data c2)
          (gossiping.original_content_length (gossiping.header c1)) with
  | None => Raise LZ4BlockError
  | Some raw =>
      match Block_ParseFromString raw with
      | None => Raise DecodeError
      | Some block => value_of (GossipInterceptor.strip_and_resign self block)
      end
  end.

(** The header chunk and the data chunk as emitted for a re-signed block. *)
Definition new_header_chunk (block' : Block) (c1 : gossiping.Chunk) : gossiping.Chunk :=
  GossipInterceptor.set_lengths
    (len (Block_SerializeToString block'))
    (len (lz4_block_compress (Block_SerializeToString block'))) c1.

Definition new_data_chunk (block' : Block) (c2 : gossiping.Chunk) : gossiping.Chunk :=
  GossipInterceptor.set_data
    (lz4_block_compress (Block_SerializeToString block')) c2.

End BlockFetchVocabulary.

(** ** A small concrete network and stand-in libraries

    Executable instances of the interfaces above, on which the hooks can be
    run: a codec that stores its input behind one token byte and, like the
    real one, rejects an empty buffer; a length checksum for the digest; a
    signing key that must be 32 bytes long. *)
Module Demo.

Definition proto : Proto := {| Approval := string; Other := string |}.
#[local] Existing Instance proto.

Definition lz4 : Lz4Block := {|
  lz4_block_decompress d n :=
    match d with
    | [] => None
    | _ :: literals => if (len literals <=? n)%Z then Some literals else None
    end;
  lz4_block_compress x := x00 :: x
|}.

Definition byte_of_nat (n : nat) : byte :=
  match Byte.of_N (N.of_nat n mod 256) with Some b => b | None => x00 end.

Definition crypto : Crypto := {|
  blake2b_hash x := [byte_of_nat (length x)];
  b64decode s := match s with EmptyString => None | _ => Some (list_byte_of_string s) end;
  SigningKey := bytes;
  ed25519_SigningKey k := if Nat.eqb (length k) 32 then Some k else None;
  sign k msg := k ++ msg
|}.

Definition sample_deploy : @consensus.ProcessedDeploy proto :=
  consensus.mkProcessedDeploy
    (consensus.mkDeploy ["alice"; "bob"] "deploy") "processed".

Definition sample_block (raw : bytes) : @consensus.Block proto :=
  consensus.mkBlock raw
    (consensus.mkHeader [] "header")
    (consensus.mkBody [sample_deploy])
    (consensus.mkSignature "" []).

Definition wire : @consensus.Wire proto := {|
  consensus.Body_SerializeToString b :=
    map (fun d => byte_of_nat (length (consensus.approvals (consensus.deploy d))))
      (consensus.deploys b);
  consensus.Header_SerializeToString h := consensus.body_hash h;
  consensus.Block_SerializeToString b :=
    consensus.block_hash b ++ consensus.sig (consensus.signature b);
  consensus.Block_ParseFromString raw :=
    match raw with
    | xff :: _ => None
    | _ => Some (sample_block raw)
    end
|}.

Definition render {A : Type} : Hexify A := fun _ => "<message>".
Definition show {A : Type} : Str A := fun _ => "<object>".

Definition node1_id : bytes := [x4c; x19].

Definition net : CasperLabsNetwork :=
  mkNetwork {[ "4c19" := mkNodeEndpoint "proxy-1" 40400 40404 ]}.

Definition node : DockerNode :=
  mkDockerNode net (mkNodeConfig "0123456789abcdef0123456789abcdef").

Definition key : bytes := list_byte_of_string "0123456789abcdef0123456789abcdef".

(** The sample block as the interceptor re-signs it. *)
Definition resigned_sample : @consensus.Block proto :=
  @resigned proto wire crypto
    (@GossipInterceptor.set_deploys proto
       [@GossipInterceptor.set_approvals proto [] sample_deploy]
       (sample_block [x01; x02; x03]))
    key.

Definition peer1 : kademlia.Node := kademlia.mkNode node1_id "node-1-eiaqe-test" 50400 50404.
Definition stranger : kademlia.Node := kademlia.mkNode [xab] "node-9" 50400 50404.

Definition header_chunk : @gossiping.Chunk proto :=
  gossiping.mkChunk (gossiping.mkChunkHeader 4 3 "lz4") [].
Definition data_chunk : @gossiping.Chunk proto :=
  gossiping.mkChunk (gossiping.mkChunkHeader 0 0 "") [x00; x01; x02; x03].
Definition empty_data_chunk : @gossiping.Chunk proto :=
  gossiping.mkChunk (gossiping.mkChunkHeader 0 0 "") [].
Definition trailing_chunk : @gossiping.Chunk proto :=
  gossiping.mkChunk (gossiping.mkChunkHeader 0 0 "") [x07].

Definition fetch_request : @gossiping.Request proto :=
  gossiping.OtherRequest "block_hash: 0f449d2a".

Definition gossip_stream (name : string) (s : Stream (@gossiping.Chunk proto))
    : Run (@gossiping.Chunk proto) unit :=
  @GossipInterceptor.post_request_stream proto wire lz4 crypto
    render render render node name fetch_request s.

Definition ping : @kademlia.Request proto := kademlia.mkRequest peer1 "ping".
Definition ping_from_stranger : @kademlia.Request proto :=
  kademlia.mkRequest stranger "ping".
Definition announcement : @gossiping.Request proto :=
  gossiping.NewBlocksRequest peer1 [[x0f; x44]].

End Demo.

(** ** The text helpers at the head of the module

    Characters are code points below 256. *)

Module Text.

Definition between (lo hi : nat) (c : ascii) : bool :=
  Nat.leb lo (nat_of_ascii c) && Nat.leb (nat_of_ascii c) hi.

(** [c.isspace()] *)
Definition isspace (c : ascii) : bool :=
  between 9 13 c || between 28 32 c || between 133 133 c || between 160 160 c.

(** A character matched by [\w] in a [str] pattern of [re]. *)
Definition is_word (c : ascii) : bool :=
  between 48 57 c || between 65 90 c || between 95 95 c || between 97 122 c ||
  between 170 170 c || between 178 179 c || between 181 181 c ||
  between 185 186 c || between 188 190 c || between 192 214 c ||
  between 216 246 c || between 248 255 c.

Definition is_nonword (c : ascii) : bool := negb (is_word c).

(** Cutting a string at every maximal run of separators.  [piece] is the
    piece being read, or [None] right after a run of separators. *)
Fixpoint split_runs (sep : ascii -> bool) (s : string) (piece : option string)
    : list string :=
  match s with
  | EmptyString => [default EmptyString piece]
  | String c s' =>
      if sep c then
        match piece with
        | Some p => p :: split_runs sep s' None
        | None => split_runs sep s' None
        end
      else
        split_runs sep s' (Some (default EmptyString piece +:+ String c EmptyString))
  end.

(** [re.split(r"\W+", s)] *)
Definition re_split_nonword (s : string) : list string :=
  split_runs is_nonword s (Some EmptyString).

(** The test of [filter(None, ...)] on a string. *)
Definition nonempty (s : string) : bool :=
  match s with EmptyString => false | String _ _ => true end.

(** [s.split()] *)
Definition split (s : string) : list string :=
  List.filter nonempty (split_runs isspace s (Some EmptyString)).

(** [s[:-n]] for a positive [n] *)
Definition drop_right (n : nat) (s : string) : string :=
  substring 0 (String.length s - n) s.

(** Every character of the string passes the test. *)
Fixpoint all_chars (f : ascii -> bool) (s : string) : bool :=
  match s with
  | EmptyString => true
  | String c s' => f c && all_chars f s'
  end.

(** The string is empty or begins with a separator. *)
Definition at_boundary (sep : ascii -> bool) (s : string) : bool :=
  match s with
  | EmptyString => true
  | String c _ => sep c
  end.

(** [f"{x}"] for a string or an int that may be [None] *)
Definition format_str (x : option string) : string := default "None" x.
Definition format_int (x : option Z) : string := from_option str_int "None" x.

End Text.

(** The truth value of an object, as tested by [not o]. *)
Class Truthy (A : Type) : Type := truthy : A -> bool.

(** [def fun_name(o)] *)
Definition fun_name {A : Type} `{Truthy A, Str A} (o : A) : outcome string :=
  if negb (truthy o) then Return (str o)
  else or_raise (Text.split (str o) !! 1%nat) IndexError.

(** [def stub_name(o)] *)
Definition stub_name {A : Type} `{Str A} (o : A) : outcome string :=
  match last (List.filter Text.nonempty (Text.re_split_nonword (str o))) with
  | None => Raise IndexError
  | Some s => Return (Text.drop_right (String.length "ServiceStub") s)
  end.

(** ** Construction of the proxy runtime *)

Module Runtime.

(** What can end a construction: the two ways [open] fails, or an exception
    of the kind the hooks know. *)
Inductive failure : Type :=
| TypeError                                (* [open(None, "rb")] *)
| FileNotFoundError (file_name : string)
| Uncaught (e : exn).

(** The files of the host, by path. *)
Abbreviation FileSystem := (gmap string bytes).

(** [def read_binary(file_name)] *)
Definition read_binary (fs : FileSystem) (file_name : option string)
    : failure + bytes :=
  match file_name with
  | None => inl TypeError
  | Some path =>
      match fs !! path with
      | Some content => inr content
      | None => inl (FileNotFoundError path)
      end
  end.

(** The argument of [grpc.ssl_channel_credentials]. *)
Record ChannelCredentials : Type := mkChannelCredentials {
  root_certificates : bytes;
  private_key : bytes;
  certificate_chain : bytes
}.

(** The value of [self.node_id and [...]]: the falsy [node_id] itself, or the
    two overrides. *)
Inductive ChannelOptions : Type :=
| Falsy (node_id : option string)
| Overrides (options : list (string * string)).

Definition secure_channel_options_of (node_id : option string) : ChannelOptions :=
  match node_id with
  | None => Falsy None
  | Some EmptyString => Falsy (Some EmptyString)
  | Some name =>
      Overrides [("grpc.ssl_target_name_override", name);
                 ("grpc.default_authority", name)]
  end.

(** What [channel()] opens. *)
Inductive Channel : Type :=
| secure_channel (target : string) (credentials : ChannelCredentials)
    (options : ChannelOptions)
| insecure_channel (target : string).

(** The classes bound as [interceptor_class] and their [__str__]. *)
Inductive InterceptorClass : Type :=
| BaseInterceptor
| Logging
| Kademlia
| Gossip.

Definition interceptor_str (c : InterceptorClass) : string :=
  match c with
  | BaseInterceptor => "interceptor"
  | Logging => "logging_interceptor"
  | Kademlia => "kademlia_interceptor"
  | Gossip => "gossip_interceptor"
  end.

(** [interceptor_class(node)] *)
Record InterceptorObject : Type := mkInterceptorObject {
  interceptor_class : InterceptorClass;
  interceptor_node : DockerNode
}.

#[global] Instance InterceptorObject_str : Str InterceptorObject :=
  fun i => interceptor_str (interceptor_class i).

(** The stub classes imported from the generated [*_pb2_grpc] modules of the
    [casperlabs_client] package; [str] of a class is
    [<class 'package.module.Name'>]. *)
Inductive ServiceStub : Type :=
| CasperServiceStub
| GossipServiceStub
| KademliaServiceStub.

#[global] Instance ServiceStub_str : Str ServiceStub :=
  fun stub =>
    match stub with
    | CasperServiceStub =>
        "<class 'casperlabs_client.casper_pb2_grpc.CasperServiceStub'>"
    | GossipServiceStub =>
        "<class 'casperlabs_client.gossiping_pb2_grpc.GossipServiceStub'>"
    | KademliaServiceStub =>
        "<class 'casperlabs_client.kademlia_pb2_grpc.KademliaServiceStub'>"
    end.

Section Servicer.
Context {Stub Icpt : Type} `{Str Stub, Str Icpt}.

(** The attributes [ProxyServicer.__init__] sets.  [credentials] and
    [secure_channel_options] exist exactly when [encrypted_connection] is
    true: they are the content of [tls]. *)
Record Servicer : Type := mkServicer {
  node_host : option string;
  node_port : option Z;
  proxy_port : option Z;
  certificate_file : option string;
  key_file : option string;
  node_id : option string;
  service_stub : Stub;
  interceptor : Icpt;
  node_address : string;
  tls : option (ChannelCredentials * ChannelOptions);
  log_prefix : string
}.

Definition encrypted_connection (self : Servicer) : bool :=
  match tls self with Some _ => true | None => false end.

(** [ProxyServicer.__init__]: the log it writes and the object, or the
    failure that ends it. *)
Definition init (fs : FileSystem)
    (node_host : option string) (node_port proxy_port : option Z)
    (encrypted_connection : bool)
    (certificate_file key_file node_id : option string)
    (service_stub : Stub) (interceptor : Icpt)
    : list string * (failure + Servicer) :=
  let node_address :=
    Text.format_str node_host +:+ ":" +:+ Text.format_int node_port in
  let tls :=
    if encrypted_connection then
      match read_binary fs certificate_file with
      | inl e => inl e
      | inr root =>
          match read_binary fs key_file with
          | inl e => inl e
          | inr key =>
              match read_binary fs certificate_file with
              | inl e => inl e
              | inr chain =>
                  inr (Some (mkChannelCredentials root key chain,
                             secure_channel_options_of node_id))
              end
          end
      end
    else inr None in
  match tls with
  | inl e => ([], inl e)
  | inr tls =>
      match stub_name service_stub with
      | Raise e => ([], inl (Uncaught e))
      | Return short_name =>
          let log_prefix :=
            "PROXY" +:+ " " +:+ Text.format_str node_host +:+ ":"
            +:+ Text.format_int node_port +:+ " on "
            +:+ Text.format_int proxy_port +:+ " " +:+ short_name in
          ([log_prefix +:+ ", interceptor: " +:+ str interceptor],
           inr (mkServicer node_host node_port proxy_port certificate_file
                  key_file node_id service_stub interceptor node_address tls
                  log_prefix))
      end
  end.

(** [ProxyServicer.channel] *)
Definition channel (self : Servicer) : Channel :=
  match tls self with
  | Some (credentials, options) =>
      secure_channel (node_address self) credentials options
  | None => insecure_channel (node_address self)
  end.

(** The attributes [ProxyThread.__init__] sets. *)
Record ProxyThread : Type := mkProxyThread {
  thread_service_stub : Stub;
  thread_node_host : string;
  thread_node_port : Z;
  thread_proxy_port : Z;
  server_certificate_file : option string;
  server_key_file : option string;
  client_certificate_file : option string;
  client_key_file : option string;
  thread_encrypted_connection : bool;
  thread_interceptor : Icpt;
  thread_node_id : option string;
  servicer : Servicer
}.

(** [casperlabs_client.extract_common_name], defined outside this module:
    the common name of the certificate in a file, or a failure. *)
Variable extract_common_name : FileSystem -> option string -> failure + string.

(** [ProxyThread.__init__] *)
Definition thread_init (fs : FileSystem) (service_stub : Stub)
    (node_host : string) (node_port proxy_port : Z)
    (encrypted_connection : bool)
    (server_certificate_file server_key_file : option string)
    (client_certificate_file client_key_file : option string)
    (interceptor : Icpt)
    : list string * (failure + ProxyThread) :=
  let node_id :=
    if encrypted_connection then
      match extract_common_name fs client_certificate_file with
      | inl e => inl e
      | inr common_name => inr (Some common_name)
      end
    else inr None in
  match node_id with
  | inl e => ([], inl e)
  | inr node_id =>
      match init fs (Some node_host) (Some node_port) (Some proxy_port)
              encrypted_connection client_certificate_file client_key_file
              node_id service_stub interceptor with
      | (log, inl e) => (log, inl e)
      | (log, inr servicer) =>
          (log,
           inr (mkProxyThread service_stub node_host node_port proxy_port
                  server_certificate_file server_key_file
                  client_certificate_file client_key_file
                  encrypted_connection interceptor node_id servicer))
      end
  end.

(** The server [ProxyThread.run] starts: its pool size, the address it
    listens on and, for a secure port, the key and the certificate. *)
Record Listener : Type := mkListener {
  max_workers : nat;
  port : string;
  server_credentials : option (bytes * bytes)
}.

(** [grpc.Server.add_insecure_port], and [grpc.Server.add_secure_port] on
    [grpc.ssl_server_credentials] of one key and certificate pair, on the
    fresh server of [run]: the exception they raise when the address cannot
    be bound or the pair is not usable, if they raise. *)
Variable add_insecure_port : string -> option exn.
Variable add_secure_port : string -> bytes -> bytes -> option exn.

(** [ProxyThread.run]: the credential files are read before the port is
    added, and the line is logged after. *)
Definition run (fs : FileSystem) (self : ProxyThread)
    : list string * (failure + Listener) :=
  let port := "[::]:" +:+ str_int (thread_proxy_port self) in
  let credentials :=
    if negb (thread_encrypted_connection self) then
      match add_insecure_port port with
      | Some e => inl (Uncaught e)
      | None => inr None
      end
    else
      match read_binary fs (server_key_file self) with
      | inl e => inl e
      | inr key =>
          match read_binary fs (server_certificate_file self) with
          | inl e => inl e
          | inr certificate =>
              match add_secure_port port key certificate with
              | Some e => inl (Uncaught e)
              | None => inr (Some (key, certificate))
              end
          end
      end in
  match credentials with
  | inl e => ([], inl e)
  | inr credentials =>
      (["STARTING PROXY: node=" +:+ thread_node_host self +:+ ":"
        +:+ str_int (thread_node_port self) +:+ " proxy_port="
        +:+ str_int (thread_proxy_port self)],
       inr (mkListener 1 port credentials))
  end.

End Servicer.

Section Factories.
Variable extract_common_name : FileSystem -> option string -> failure + string.

(** The [ProxyThread] a factory constructs before it starts it; [run] then
    executes on the thread itself. *)
Definition proxy_client (fs : FileSystem) (node : DockerNode)
    (node_port : Z) (node_host : string) (proxy_port : Z)
    (server_certificate_file server_key_file : option string)
    (client_certificate_file client_key_file : option string)
    (interceptor_class : InterceptorClass)
    : list string * (failure + ProxyThread) :=
  thread_init extract_common_name fs CasperServiceStub
    node_host node_port proxy_port true
    server_certificate_file server_key_file
    client_certificate_file client_key_file
    (mkInterceptorObject interceptor_class node).

Definition proxy_server (fs : FileSystem) (node : DockerNode)
    (node_port : Z) (node_host : string) (proxy_port : Z)
    (server_certificate_file server_key_file : option string)
    (client_certificate_file client_key_file : option string)
    (interceptor_class : InterceptorClass)
    : list string * (failure + ProxyThread) :=
  thread_init extract_common_name fs GossipServiceStub
    node_host node_port proxy_port true
    server_certificate_file server_key_file
    client_certificate_file client_key_file
    (mkInterceptorObject interceptor_class node).

(** [proxy_kademlia] has no credential parameters and passes
    [encrypted_connection=False]. *)
Definition proxy_kademlia (fs : FileSystem) (node : DockerNode)
    (node_port : Z) (node_host : string) (proxy_port : Z)
    (interceptor_class : InterceptorClass)
    : list string * (failure + ProxyThread) :=
  thread_init extract_common_name fs KademliaServiceStub
    node_host node_port proxy_port false
    None None None None
    (mkInterceptorObject interceptor_class node).

(** The calls [proxy_client(node)], [proxy_server(node)] and
    [proxy_kademlia(node)], with every keyword argument at its default. *)
Definition proxy_client_by_default (fs : FileSystem) (node : DockerNode)
    : list string * (failure + ProxyThread) :=
  proxy_client fs node 40401 "casperlabs" 50401 None None None None Logging.

Definition proxy_server_by_default (fs : FileSystem) (node : DockerNode)
    : list string * (failure + ProxyThread) :=
  proxy_server fs node 50400 "localhost" 40400 None None None None Gossip.

Definition proxy_kademlia_by_default (fs : FileSystem) (node : DockerNode)
    : list string * (failure + ProxyThread) :=
  proxy_kademlia fs node 50404 "127.0.0.1" 40404 Kademlia.

End Factories.

End Runtime.

(** ** More fixtures: a block without deploys, a node with a short key *)

Module Fixtures.

#[local] Existing Instance Demo.proto.

Definition block_without_deploys (raw : bytes) : @consensus.Block Demo.proto :=
  consensus.mkBlock raw (consensus.mkHeader [] "header")
    (consensus.mkBody []) (consensus.mkSignature "" []).

(** The serialisers of the demo; every buffer parses as a block that has no
    deploy. *)
Definition wire_without_deploys : @consensus.Wire Demo.proto := {|
  consensus.Body_SerializeToString := @consensus.Body_SerializeToString _ Demo.wire;
  consensus.Header_SerializeToString := @consensus.Header_SerializeToString _ Demo.wire;
  consensus.Block_SerializeToString := @consensus.Block_SerializeToString _ Demo.wire;
  consensus.Block_ParseFromString raw := Some (block_without_deploys raw)
|}.

(** A node whose configured key decodes to fewer than 32 bytes. *)
Definition node_with_short_key : DockerNode :=
  mkDockerNode Demo.net (mkNodeConfig "c2hvcnQ=").

Definition two_chunks : Stream (@gossiping.Chunk Demo.proto) :=
  mkStream [Demo.header_chunk; Demo.data_chunk] None.

(** Upstream nodes that answer a unary call with the host they were given as
    the sender's, and a streaming call with a fixed stream. *)
Definition sender_host_seen (request : @gossiping.Request Demo.proto) : string :=
  match request with
  | gossiping.NewBlocksRequest sender _ => kademlia.host sender
  | gossiping.OtherRequest _ => "no sender"
  end.

Definition kademlia_servicer
    : ProxyServicer.t (@kademlia.Request Demo.proto) string kademlia.Node :=
  ProxyServicer.mk "PROXY 127.0.0.1:50404 on 40404 Kademlia"
    (@KademliaInterceptor.hooks Demo.proto string Demo.render Demo.render
       Demo.show Demo.show Demo.node)
    (fun _ request => Return (kademlia.host (kademlia.sender request)))
    (fun _ _ => Return (mkStream [Demo.peer1] None)).

Definition gossip_servicer
    : ProxyServicer.t (@gossiping.Request Demo.proto) string
        (@gossiping.Chunk Demo.proto) :=
  ProxyServicer.mk "PROXY localhost:50400 on 40400 Gossip"
    (@GossipInterceptor.hooks Demo.proto Demo.wire Demo.lz4 Demo.crypto string
       Demo.render Demo.render Demo.render Demo.render Demo.node)
    (fun _ request => Return (sender_host_seen request))
    (fun _ _ => Return two_chunks).

Definition logging_servicer : ProxyServicer.t string string string :=
  ProxyServicer.mk "PROXY casperlabs:40401 on 50401 Casper"
    (@LoggingInterceptor.hooks string string string Demo.render Demo.render
       Demo.show)
    (fun name request => Return (name +:+ " answered " +:+ request))
    (fun _ _ => Return (mkStream ["a"; "b"] None)).

(** An object as the text helpers see it: its truth value and its [str]. *)
Record PyObject : Type := mkPyObject {
  object_truthy : bool;
  object_str : string
}.
Definition PyObject_truthy : Truthy PyObject := object_truthy.
Definition PyObject_str : Str PyObject := object_str.

Definition function_object : PyObject :=
  mkPyObject true "<function fun_name at 0x7f1323c72a20>".
Definition none_object : PyObject := mkPyObject false "None".
Definition one_word_object : PyObject := mkPyObject true " interceptor ".
Definition punctuation_object : PyObject := mkPyObject true "<'...'>".

(** A host with the credential files of node 1, and a reader of common
    names that answers with the node's identity for every readable file. *)
Definition files : Runtime.FileSystem :=
  {[ "node.certificate.pem" := [x2d; x43]; "node.key.pem" := [x2d; x4b] ]}.

Definition common_name (fs : Runtime.FileSystem) (file_name : option string)
    : Runtime.failure + string :=
  match Runtime.read_binary fs file_name with
  | inl e => inl e
  | inr _ => inr "4c19"
  end.

(** An upstream that refuses every call: a unary method raises, a streaming
    method hands out an iterator that raises when it is first pulled. *)
Definition unreachable_servicer : ProxyServicer.t string string string :=
  ProxyServicer.mk "PROXY casperlabs:40401 on 50401 Casper"
    (@LoggingInterceptor.hooks string string string Demo.render Demo.render
       Demo.show)
    (fun _ _ => Raise (RpcError "UNAVAILABLE"))
    (fun _ _ => Return (mkStream [] (Some (RpcError "UNAVAILABLE")))).


(** A host on which the three default proxy ports are free and every other
    address is refused, and whose TLS library takes a key and a certificate
    that begin with a dash, as PEM files do. *)
Definition add_insecure_port (port : string) : option exn :=
  if bool_decide (port ∈ ["[::]:40400"; "[::]:40404"; "[::]:50401"]) then None
  else Some (RuntimeError ("Failed to bind to address " +:+ port)).

Definition add_secure_port (port : string) (key certificate : bytes)
    : option exn :=
  match key, certificate with
  | x2d :: _, x2d :: _ => add_insecure_port port
  | _, _ => Some (RuntimeError "Invalid cert chain file.")
  end.





End Fixtures.

(** * Properties *)

(** ** Strings *)

Lemma append_String (c : ascii) (p rest : string) :
  String c p +:+ rest = String c (p +:+ rest).
Proof. reflexivity. Qed.

Lemma startswith_spec (s p : string) :
  startswith s p = true <-> exists rest, s = p +:+ rest.
Proof.
  unfold startswith. revert s.
  induction p as [|c p IH]; intros s; destruct s as [|d s]; simpl.
  - split; [intros _; exists EmptyString; reflexivity | reflexivity].
  - split; [intros _; exists (String d s); reflexivity | reflexivity].
  - split; [discriminate | intros [rest Hr]; discriminate].
  - {
    destruct (Ascii.ascii_dec c d) as [->|Hne].
    + rewrite IH.
      split; intros [rest Hr]; exists rest; rewrite ?append_String in *; congruence.
    + split; [discriminate | intros [rest Hr]; rewrite append_String in Hr; congruence].
  }
Qed.

Lemma endswith_spec (s x : string) :
  endswith s x = true <-> exists front, s = front +:+ x.
Proof.
  split.
  - induction s as [|c s IH]; intros Hs.
    + change (String.eqb EmptyString x || false = true) in Hs.
      rewrite orb_false_r in Hs. apply String.eqb_eq in Hs.
      exists EmptyString. exact Hs.
    + change (String.eqb (String c s) x || endswith s x = true) in Hs.
      apply orb_true_iff in Hs. destruct Hs as [Hs|Hs].
      * apply String.eqb_eq in Hs. exists EmptyString. exact Hs.
      * destruct (IH Hs) as [front Hf]. exists (String c front).
        rewrite append_String. congruence.
  - intros [front ->]. induction front as [|c front IH].
    + change (EmptyString +:+ x) with x.
      destruct x as [|d x].
      * reflexivity.
      * change (String.eqb (String d x) (String d x) || endswith x (String d x) = true).
        rewrite String.eqb_refl. reflexivity.
    + rewrite append_String.
      change (String.eqb (String c (front +:+ x)) x || endswith (front +:+ x) x = true).
      rewrite IH. apply orb_true_r.
Qed.

(** ** The builtins on the names and identities of the protocol *)

Example hex_of_node_id :
  hex [x4c; x19; x10; x22; xc2; x36] = "4c191022c236".
Proof. reflexivity. Qed.

Example str_int_of_length : str_int (len [x00; x01; x02]) = "3".
Proof. reflexivity. Qed.

Example get_block_chunked_is_streaming :
  endswith "GetBlockChunked" "Chunked" = true /\
  startswith "GetBlockChunked" "Stream" = false.
Proof. split; reflexivity. Qed.

Example stream_block_summaries_is_streaming :
  startswith "StreamBlockSummaries" "Stream" = true /\
  endswith "StreamBlockSummaries" "Chunked" = false.
Proof. split; reflexivity. Qed.

Example new_blocks_is_unary :
  startswith "NewBlocks" "Stream" = false /\
  endswith "NewBlocks" "Chunked" = false.
Proof. split; reflexivity. Qed.

(** ** Loops that yield once per element *)

Section ForYield.
Context {A : Type}.
Variables (body : A -> Fn A) (f : A -> A).

Lemma for_yield_items_traffic (xs : list A) (e : option exn) :
  Forall (returns body f) xs ->
  traffic (trace (for_yield_items body xs e)) = one_at_a_time f xs.
Proof.
  induction 1 as [|x xs Hx Hxs IH]; simpl; [reflexivity|].
  unfold returns in Hx. destruct (body x) as [l o].
  simpl in Hx. subst o. simpl. f_equal.
  induction l as [|line l IHl]; simpl; [f_equal; exact IH | exact IHl].
Qed.

Lemma for_yield_items_result (xs : list A) (e : option exn) :
  Forall (returns body f) xs ->
  result (for_yield_items body xs e) = exhausted e /\
  upstream (for_yield_items body xs e) = mkStream [] e.
Proof.
  induction 1 as [|x xs Hx Hxs IH]; simpl; [split; reflexivity|].
  unfold returns in Hx. destruct (body x) as [l o].
  simpl in Hx. subst o. simpl. exact IH.
Qed.


End ForYield.

Lemma emitted_traffic {A : Type} (t : list (event A)) :
  emitted (traffic t) = emitted t.
Proof. induction t as [|[l|x|x] t IH]; simpl; congruence. Qed.

Lemma consumed_traffic {A : Type} (t : list (event A)) :
  consumed (traffic t) = consumed t.
Proof. induction t as [|[l|x|x] t IH]; simpl; congruence. Qed.

Lemma emitted_one_at_a_time {A : Type} (f : A -> A) (xs : list A) :
  emitted (one_at_a_time f xs) = map f xs.
Proof. induction xs as [|x xs IH]; simpl; congruence. Qed.

Lemma consumed_one_at_a_time {A : Type} (f : A -> A) (xs : list A) :
  consumed (one_at_a_time f xs) = xs.
Proof. induction xs as [|x xs IH]; simpl; congruence. Qed.

Lemma traffic_logged_app {A : Type} (l : list string) (t : list (event A)) :
  traffic (map Logged l ++ t) = traffic t.
Proof. induction l as [|line l IH]; simpl; [reflexivity | exact IH]. Qed.

Lemma emitted_logged_app {A : Type} (l : list string) (t : list (event A)) :
  emitted (map Logged l ++ t) = emitted t.
Proof. induction l as [|line l IH]; simpl; [reflexivity | exact IH]. Qed.


Lemma pep479_exhausted (e : option exn) : pep479 (exhausted e) = exhausted e.
Proof. destruct e as [[]|]; reflexivity. Qed.

(** ** Running generators *)

Lemma generator_run {A : Type} (body : Gen A unit) (s : Stream A) :
  generator body s
  = mkRun (trace (body s)) (upstream (body s)) (pep479 (result (body s))).
Proof. unfold generator. destruct (body s). reflexivity. Qed.

Lemma lift_then_run {A X : Type} (l : list string) (k : Gen A X) (s : Stream A) :
  (lift (l, Return tt) ≫= fun _ => k) s
  = mkRun (map Logged l ++ trace (k s)) (upstream (k s)) (result (k s)).
Proof.
  unfold mbind, Gen_bind, gen_bind, lift, log_of, value_of. cbn [fst snd].
  destruct (k s). reflexivity.
Qed.

Lemma log_then_run {A X : Type} (line : string) (k : Gen A X) (s : Stream A) :
  (lift (logging_info line) ≫= fun _ => k) s
  = mkRun (Logged line :: trace (k s)) (upstream (k s)) (result (k s)).
Proof. apply (lift_then_run [line]). Qed.

(** ** Pass-through hooks *)

Lemma yield_from_run {A : Type} (s : Stream A) :
  traffic (trace (yield_from s)) = one_at_a_time (fun x => x) (items s) /\
  result (yield_from s) = exhausted (ending s) /\
  upstream (yield_from s) = mkStream [] (ending s).
Proof.
  unfold yield_from, for_yield. split.
  - apply for_yield_items_traffic. apply Forall_forall. reflexivity.
  - apply for_yield_items_result with (f := fun x => x).
    apply Forall_forall. reflexivity.
Qed.

Lemma emitted_of_traffic {A : Type} (t : list (event A)) (f : A -> A) (xs : list A) :
  traffic t = one_at_a_time f xs -> emitted t = map f xs /\ consumed t = xs.
Proof.
  intros Ht. rewrite <- emitted_traffic, <- consumed_traffic, Ht.
  split; [apply emitted_one_at_a_time | apply consumed_one_at_a_time].
Qed.

(** C6: for every method name, request and response, the base interceptor's
    [pre_request] returns the request and its [post_request] the response,
    both without logging, and its [post_request_stream] yields exactly the
    elements of the upstream sequence, each right after it was pulled, ending
    as the upstream ends; the logging interceptor's three hooks return and
    yield the same values and differ only by one log line each. *)
Theorem passthrough_hooks_are_identities {Req Resp Item : Type}
    `{Hexify Req, Hexify Resp, Str (Stream Item)}
    (name : string) (request : Req) (response : Resp) (stream : Stream Item) :
  Interceptor.pre_request name request = ([], Return request) /\
  Interceptor.post_request name request response = ([], Return response) /\
  ( emitted (trace (Interceptor.post_request_stream name request stream))
      = items stream /\
    trace (Interceptor.post_request_stream name request stream)
      = one_at_a_time (fun x => x) (items stream) /\
    result (Interceptor.post_request_stream name request stream)
      = exhausted (ending stream) ) /\
  value_of (LoggingInterceptor.pre_request name request) = Return request /\
  length (log_of (LoggingInterceptor.pre_request name request)) = 1%nat /\
  value_of (LoggingInterceptor.post_request name request response)
    = Return response /\
  length (log_of (LoggingInterceptor.post_request name request response)) = 1%nat /\
  ( emitted (trace (LoggingInterceptor.post_request_stream name request stream))
      = items stream /\
    traffic (trace (LoggingInterceptor.post_request_stream name request stream))
      = one_at_a_time (fun x => x) (items stream) /\
    length (logged (trace (LoggingInterceptor.post_request_stream name request stream)))
      = 1%nat /\
    result (LoggingInterceptor.post_request_stream name request stream)
      = exhausted (ending stream) ).
Proof.
  destruct (yield_from_run stream) as (Ht & Hr & Hu).
  assert (Hnolog : trace (yield_from stream) = traffic (trace (yield_from stream))).
  { unfold yield_from, for_yield. generalize (items stream) as xs.
    induction xs as [|x xs IH]; simpl; [reflexivity | congruence]. }
  repeat split; try reflexivity.
  - unfold Interceptor.post_request_stream. rewrite generator_run. cbn [trace].
    apply (emitted_of_traffic _ (fun x => x)) in Ht. rewrite (proj1 Ht).
    apply map_id.
  - unfold Interceptor.post_request_stream. rewrite generator_run. cbn [trace].
    congruence.
  - unfold Interceptor.post_request_stream. rewrite generator_run. cbn [result].
    rewrite Hr. apply pep479_exhausted.
  - unfold LoggingInterceptor.post_request_stream.
    rewrite generator_run, log_then_run. cbn [trace emitted].
    apply (emitted_of_traffic _ (fun x => x)) in Ht. rewrite (proj1 Ht).
    apply map_id.
  - unfold LoggingInterceptor.post_request_stream.
    rewrite generator_run, log_then_run. cbn [trace traffic]. exact Ht.
  - unfold LoggingInterceptor.post_request_stream.
    rewrite generator_run, log_then_run. cbn [trace logged length]. f_equal.
    rewrite Hnolog, Ht. generalize (items stream) as xs.
    induction xs as [|x xs IH]; simpl; [reflexivity | exact IH].
  - unfold LoggingInterceptor.post_request_stream.
    rewrite generator_run, log_then_run. cbn [result].
    rewrite Hr. apply pep479_exhausted.
Qed.

(** ** Dispatch in the forwarding servicer *)

Lemma unary_stream_run {Req Resp Item : Type} `{Hexify Req}
    (self : ProxyServicer.t Req Resp Item) (name : string) (request : Req)
    (l : list string) (preprocessed : Req) (response_stream : Stream Item) :
  pre_request (ProxyServicer.interceptor self) name request
    = (l, Return preprocessed) ->
  ProxyServicer.invoke_stream self name preprocessed = Return response_stream ->
  ProxyServicer.unary_stream self name request
  = mkRun
      (map Logged
         ((ProxyServicer.log_prefix self +:+ ": (" +:+ hexify request +:+ ")") :: l)
       ++ trace (post_request_stream (ProxyServicer.interceptor self)
                   name preprocessed response_stream))
      (upstream (post_request_stream (ProxyServicer.interceptor self)
                   name preprocessed response_stream))
      (pep479 (result (post_request_stream (ProxyServicer.interceptor self)
                         name preprocessed response_stream))).
Proof.
  intros Hpre Hinv. unfold ProxyServicer.unary_stream.
  cbn [mbind Fn_bind fn_bind logging_info value_of log_of fst snd].
  rewrite Hpre. cbn [mbind Fn_bind fn_bind call mret Fn_ret fn_ret snd fst].
  rewrite Hinv. unfold value_of, log_of. cbn [snd fst].
  rewrite generator_run, lift_then_run. cbn [result trace upstream].
  rewrite !app_nil_r. reflexivity.
Qed.

(** C7: a method name is classified as server-streaming exactly when it
    starts with "Stream" or ends with "Chunked"; such a name is answered by
    the streaming handler, which runs [pre_request], invokes the upstream
    method and relays [post_request_stream]; every other name is answered by
    the unary handler, which runs [pre_request], invokes the upstream method
    and returns [post_request]. *)
Theorem dispatch_by_method_name {Req Resp Item : Type} `{Hexify Req}
    (self : ProxyServicer.t Req Resp Item) (name : string) :
  ( ProxyServicer.is_unary_stream name = true <->
    (exists rest, name = "Stream" +:+ rest) \/
    (exists front, name = front +:+ "Chunked") ) /\
  ( (exists rest, name = "Stream" +:+ rest) \/
    (exists front, name = front +:+ "Chunked") ->
    ProxyServicer.__getattr__ self name
      = ProxyServicer.UnaryStream (ProxyServicer.unary_stream self name) ) /\
  ( ~ ((exists rest, name = "Stream" +:+ rest) \/
       (exists front, name = front +:+ "Chunked")) ->
    ProxyServicer.__getattr__ self name
      = ProxyServicer.UnaryUnary (ProxyServicer.unary_unary self name) ) /\
  ( forall request l preprocessed response_stream,
      pre_request (ProxyServicer.interceptor self) name request
        = (l, Return preprocessed) ->
      ProxyServicer.invoke_stream self name preprocessed = Return response_stream ->
      traffic (trace (ProxyServicer.unary_stream self name request))
        = traffic (trace (post_request_stream (ProxyServicer.interceptor self)
                            name preprocessed response_stream)) /\
      result (ProxyServicer.unary_stream self name request)
        = pep479 (result (post_request_stream (ProxyServicer.interceptor self)
                            name preprocessed response_stream)) ) /\
  ( forall request l preprocessed response,
      pre_request (ProxyServicer.interceptor self) name request
        = (l, Return preprocessed) ->
      ProxyServicer.invoke self name preprocessed = Return response ->
      value_of (ProxyServicer.unary_unary self name request)
        = value_of (post_request (ProxyServicer.interceptor self)
                      name preprocessed response) ).
Proof.
  assert (Hclass : ProxyServicer.is_unary_stream name = true <->
    (exists rest, name = "Stream" +:+ rest) \/
    (exists front, name = front +:+ "Chunked")).
  { unfold ProxyServicer.is_unary_stream.
    rewrite orb_true_iff, startswith_spec, endswith_spec. reflexivity. }
  split; [exact Hclass|].
  split; [|split; [|split]].
  - intros Hn. apply Hclass in Hn.
    unfold ProxyServicer.__getattr__. rewrite Hn. reflexivity.
  - intros Hn. unfold ProxyServicer.__getattr__.
    destruct (ProxyServicer.is_unary_stream name) eqn:E; [|reflexivity].
    exfalso. apply Hn, Hclass. reflexivity.
  - intros request l preprocessed response_stream Hpre Hinv.
    rewrite (unary_stream_run self name request l preprocessed response_stream
               Hpre Hinv).
    cbn [result trace]. split; [|reflexivity]. apply traffic_logged_app.
  - intros request l preprocessed response Hpre Hinv.
    unfold ProxyServicer.unary_unary.
    cbn [mbind Fn_bind fn_bind logging_info value_of log_of fst snd].
    rewrite Hpre. cbn [mbind Fn_bind fn_bind call mret Fn_ret fn_ret snd fst].
    rewrite Hinv.
    destruct (post_request (ProxyServicer.interceptor self) name preprocessed response).
    reflexivity.
Qed.

(** ** The gossip interceptor on streams other than the block fetch *)

(** C8: for every gossip streaming operation whose name is not
    "GetBlockChunked", [GossipInterceptor.post_request_stream] yields every
    element of the upstream response unchanged, each one right after it was
    pulled and before the next is pulled, so that the output sequence is the
    input sequence; the stream then ends as the upstream ends. *)
Theorem gossip_other_streams_pass_through
    `{Proto} `{!consensus.Wire} `{!Lz4Block} `{!Crypto}
    `{Hexify gossiping.Request, Hexify gossiping.ChunkHeader, Hexify gossiping.Chunk}
    (self : DockerNode) (name : string) (request : gossiping.Request)
    (response : Stream gossiping.Chunk) :
  name <> "GetBlockChunked" ->
  emitted (trace (GossipInterceptor.post_request_stream self name request response))
    = items response /\
  traffic (trace (GossipInterceptor.post_request_stream self name request response))
    = one_at_a_time (fun r => r) (items response) /\
  consumed (trace (GossipInterceptor.post_request_stream self name request response))
    = items response /\
  result (GossipInterceptor.post_request_stream self name request response)
    = exhausted (ending response).
Proof.
  intros Hname. apply String.eqb_neq in Hname.
  unfold GossipInterceptor.post_request_stream.
  rewrite generator_run, log_then_run. cbn [result trace upstream].
  rewrite Hname. unfold for_yield.
  assert (Hbody : Forall (returns (GossipInterceptor.log_chunk name) (fun r => r))
                         (items response))
    by (apply Forall_forall; reflexivity).
  pose proof (for_yield_items_traffic _ _ _ (ending response) Hbody) as Ht.
  pose proof (for_yield_items_result _ _ _ (ending response) Hbody) as [Hr _].
  cbn [traffic emitted consumed].
  destruct (emitted_of_traffic _ _ _ Ht) as [He Hc].
  rewrite He, Hc, Ht, Hr, map_id, pep479_exhausted.
  repeat split; reflexivity.
Qed.

(** C8 on a stream of block summaries relayed through the demo network. *)
Lemma gossip_other_streams_pass_through_witness :
  emitted (trace (Demo.gossip_stream "StreamBlockSummaries"
                    (mkStream [Demo.header_chunk; Demo.data_chunk] None)))
    = [Demo.header_chunk; Demo.data_chunk] /\
  traffic (trace (Demo.gossip_stream "StreamBlockSummaries"
                    (mkStream [Demo.header_chunk; Demo.data_chunk] None)))
    = [Pulled Demo.header_chunk; Yielded Demo.header_chunk;
       Pulled Demo.data_chunk; Yielded Demo.data_chunk] /\
  consumed (trace (Demo.gossip_stream "StreamBlockSummaries"
                    (mkStream [Demo.header_chunk; Demo.data_chunk] None)))
    = [Demo.header_chunk; Demo.data_chunk] /\
  result (Demo.gossip_stream "StreamBlockSummaries"
            (mkStream [Demo.header_chunk; Demo.data_chunk] None))
    = Return tt.
Proof.
  apply (@gossip_other_streams_pass_through Demo.proto Demo.wire Demo.lz4 Demo.crypto
           Demo.render Demo.render Demo.render Demo.node "StreamBlockSummaries"
           Demo.fetch_request
           (mkStream [Demo.header_chunk; Demo.data_chunk] None)).
  discriminate.
Defined.

(** ** Address rewriting *)

Section AddressRewrite.
Context `{Proto}.
Context `{Hexify kademlia.Request, Str kademlia.Node, Str (Stream kademlia.Node)}.
Variable self : DockerNode.

Lemma patch_address_fits (n : kademlia.Node) (node : NodeEndpoint) :
  fits node = true -> patch_address n node = Return (patched n node).
Proof.
  unfold fits, patch_address, kademlia.set_protocol_port,
    kademlia.set_discovery_port, kademlia.set_host.
  intros Hfits. apply andb_true_iff in Hfits as [Hs Hk].
  cbn [kademlia.id kademlia.host kademlia.protocol_port kademlia.discovery_port].
  rewrite Hs, Hk. reflexivity.
Qed.

Lemma patch_address_unfit (n : kademlia.Node) (node : NodeEndpoint) :
  fits node = false -> patch_address n node = Raise ValueError.
Proof.
  unfold fits, patch_address, kademlia.set_protocol_port,
    kademlia.set_discovery_port, kademlia.set_host.
  intros Hfits.
  destruct (kademlia.uint32 (server_proxy_port node)); [|reflexivity].
  cbn [andb] in Hfits. rewrite Hfits. reflexivity.
Qed.

Lemma patch_address_returns (n n' : kademlia.Node) (node : NodeEndpoint) :
  patch_address n node = Return n' -> fits node = true /\ n' = patched n node.
Proof.
  intros Hrun. destruct (fits node) eqn:Hfits.
  - rewrite (patch_address_fits n node Hfits) in Hrun.
    injection Hrun as <-. split; reflexivity.
  - rewrite (patch_address_unfit n node Hfits) in Hrun. discriminate.
Qed.

Lemma patched_points_to_proxy (n : kademlia.Node) (node : NodeEndpoint) :
  points_to_proxy node (patched n node) /\
  kademlia.id (patched n node) = kademlia.id n.
Proof. repeat split. Qed.

Lemma endpoint_of_patched (n : kademlia.Node) (node : NodeEndpoint) :
  endpoint_of self (patched n node) = endpoint_of self n.
Proof. reflexivity. Qed.

Lemma patched_patched (n : kademlia.Node) (node : NodeEndpoint) :
  patched (patched n node) node = patched n node.
Proof. reflexivity. Qed.

Lemma rewritten_fits (n : kademlia.Node) (node : NodeEndpoint) :
  endpoint_of self n = Some node -> fits node = true ->
  rewritten self n = patched n node.
Proof.
  intros Hnode Hfits. unfold rewritten.
  rewrite Hnode, (patch_address_fits n node Hfits). reflexivity.
Qed.

Lemma rewritten_unfit (n : kademlia.Node) (node : NodeEndpoint) :
  endpoint_of self n = Some node -> fits node = false -> rewritten self n = n.
Proof.
  intros Hnode Hfits. unfold rewritten.
  rewrite Hnode, (patch_address_unfit n node Hfits). reflexivity.
Qed.

Lemma rewritten_unresolved (n : kademlia.Node) :
  endpoint_of self n = None -> rewritten self n = n.
Proof. intros Hnode. unfold rewritten. rewrite Hnode. reflexivity. Qed.

Lemma kademlia_pre_request_resolved (name : string) (request : kademlia.Request)
    (node : NodeEndpoint) :
  endpoint_of self (kademlia.sender request) = Some node ->
  fits node = true ->
  value_of (KademliaInterceptor.pre_request self name request)
    = Return (kademlia.mkRequest
                (patched (kademlia.sender request) node)
                (kademlia.others request)).
Proof.
  unfold endpoint_of. intros Hnode Hfits.
  unfold KademliaInterceptor.pre_request, lookup_node. rewrite Hnode.
  cbn [mbind Fn_bind fn_bind logging_info call or_raise value_of snd fst].
  rewrite (patch_address_fits _ node Hfits). reflexivity.
Qed.

Lemma kademlia_pre_request_unfit (name : string) (request : kademlia.Request)
    (node : NodeEndpoint) :
  endpoint_of self (kademlia.sender request) = Some node ->
  fits node = false ->
  value_of (KademliaInterceptor.pre_request self name request) = Raise ValueError.
Proof.
  unfold endpoint_of. intros Hnode Hfits.
  unfold KademliaInterceptor.pre_request, lookup_node. rewrite Hnode.
  cbn [mbind Fn_bind fn_bind logging_info call or_raise value_of snd fst].
  rewrite (patch_address_unfit _ node Hfits). reflexivity.
Qed.

Lemma kademlia_pre_request_unresolved (name : string) (request : kademlia.Request) :
  endpoint_of self (kademlia.sender request) = None ->
  value_of (KademliaInterceptor.pre_request self name request)
    = Raise (KeyError (hex (kademlia.id (kademlia.sender request)))).
Proof.
  unfold endpoint_of. intros Hnode.
  unfold KademliaInterceptor.pre_request, lookup_node. rewrite Hnode. reflexivity.
Qed.

Lemma kademlia_pre_request_returns (name : string)
    (request request' : kademlia.Request) :
  value_of (KademliaInterceptor.pre_request self name request) = Return request' ->
  exists node,
    endpoint_of self (kademlia.sender request) = Some node /\
    fits node = true /\
    request' = kademlia.mkRequest (patched (kademlia.sender request) node)
                 (kademlia.others request).
Proof.
  intros Hrun.
  destruct (endpoint_of self (kademlia.sender request)) as [node|] eqn:Hnode.
  - destruct (fits node) eqn:Hfits.
    + rewrite (kademlia_pre_request_resolved name request node Hnode Hfits) in Hrun.
      injection Hrun as <-. exists node. split; [reflexivity|]. split; [exact Hfits|reflexivity].
    + rewrite (kademlia_pre_request_unfit name request node Hnode Hfits) in Hrun.
      discriminate.
  - rewrite (kademlia_pre_request_unresolved name request Hnode) in Hrun.
    discriminate.
Qed.

Lemma patch_peer_resolved (name : string) (r : kademlia.Node) :
  rewritable self r ->
  returns (KademliaInterceptor.patch_peer self name) (rewritten self) r.
Proof.
  intros (node & Hnode & Hfits). unfold returns.
  rewrite (rewritten_fits r node Hnode Hfits).
  unfold endpoint_of in Hnode.
  unfold KademliaInterceptor.patch_peer, lookup_node. rewrite Hnode.
  cbn [mbind Fn_bind fn_bind logging_info call or_raise value_of snd fst].
  rewrite (patch_address_fits r node Hfits). reflexivity.
Qed.

Lemma patch_peer_unfit (name : string) (r : kademlia.Node) (node : NodeEndpoint) :
  endpoint_of self r = Some node -> fits node = false ->
  value_of (KademliaInterceptor.patch_peer self name r) = Raise ValueError.
Proof.
  unfold endpoint_of. intros Hnode Hfits.
  unfold KademliaInterceptor.patch_peer, lookup_node. rewrite Hnode.
  cbn [mbind Fn_bind fn_bind logging_info call or_raise value_of snd fst].
  rewrite (patch_address_unfit r node Hfits). reflexivity.
Qed.

Lemma patch_peer_unresolved (name : string) (r : kademlia.Node) :
  endpoint_of self r = None ->
  value_of (KademliaInterceptor.patch_peer self name r)
    = Raise (KeyError (hex (kademlia.id r))).
Proof.
  unfold endpoint_of. intros Hnode.
  unfold KademliaInterceptor.patch_peer, lookup_node. rewrite Hnode. reflexivity.
Qed.

Lemma kademlia_stream_run (name : string) (request : kademlia.Request)
    (response : Stream kademlia.Node) :
  KademliaInterceptor.post_request_stream self name request response
  = let r := for_yield_items (KademliaInterceptor.patch_peer self name)
               (items response) (ending response) in
    mkRun (Logged ("KADEMLIA POST REQUEST STREAM: " +:+ name +:+ "("
                   +:+ hexify request +:+ ") => " +:+ str response) :: trace r)
          (upstream r) (pep479 (result r)).
Proof.
  unfold KademliaInterceptor.post_request_stream.
  rewrite generator_run, log_then_run. reflexivity.
Qed.

Section Announcement.
Context `{Hexify gossiping.Request}.

Lemma gossip_new_blocks_resolved (sender : kademlia.Node)
    (block_hashes : list bytes) (node : NodeEndpoint) :
  endpoint_of self sender = Some node ->
  fits node = true ->
  value_of (GossipInterceptor.pre_request self "NewBlocks"
              (gossiping.NewBlocksRequest sender block_hashes))
    = Return (gossiping.NewBlocksRequest (patched sender node) block_hashes).
Proof.
  unfold endpoint_of. intros Hnode Hfits.
  unfold GossipInterceptor.pre_request, lookup_node.
  cbn [String.eqb Ascii.eqb Bool.eqb]. rewrite Hnode.
  cbn [mbind Fn_bind fn_bind logging_info call or_raise value_of snd fst].
  rewrite (patch_address_fits sender node Hfits). reflexivity.
Qed.

Lemma gossip_new_blocks_unfit (sender : kademlia.Node)
    (block_hashes : list bytes) (node : NodeEndpoint) :
  endpoint_of self sender = Some node ->
  fits node = false ->
  value_of (GossipInterceptor.pre_request self "NewBlocks"
              (gossiping.NewBlocksRequest sender block_hashes))
    = Raise ValueError.
Proof.
  unfold endpoint_of. intros Hnode Hfits.
  unfold GossipInterceptor.pre_request, lookup_node.
  cbn [String.eqb Ascii.eqb Bool.eqb]. rewrite Hnode.
  cbn [mbind Fn_bind fn_bind logging_info call or_raise value_of snd fst].
  rewrite (patch_address_unfit sender node Hfits). reflexivity.
Qed.

Lemma gossip_new_blocks_unresolved (sender : kademlia.Node)
    (block_hashes : list bytes) :
  endpoint_of self sender = None ->
  value_of (GossipInterceptor.pre_request self "NewBlocks"
              (gossiping.NewBlocksRequest sender block_hashes))
    = Raise (KeyError (hex (kademlia.id sender))).
Proof.
  unfold endpoint_of. intros Hnode.
  unfold GossipInterceptor.pre_request, lookup_node.
  cbn [String.eqb Ascii.eqb Bool.eqb]. rewrite Hnode. reflexivity.
Qed.

Lemma gossip_new_blocks_returns (sender : kademlia.Node)
    (block_hashes : list bytes) (request' : gossiping.Request) :
  value_of (GossipInterceptor.pre_request self "NewBlocks"
              (gossiping.NewBlocksRequest sender block_hashes))
    = Return request' ->
  exists node,
    endpoint_of self sender = Some node /\
    fits node = true /\
    request' = gossiping.NewBlocksRequest (patched sender node) block_hashes.
Proof.
  intros Hrun.
  destruct (endpoint_of self sender) as [node|] eqn:Hnode.
  - destruct (fits node) eqn:Hfits.
    + rewrite (gossip_new_blocks_resolved sender block_hashes node Hnode Hfits)
        in Hrun.
      injection Hrun as <-. exists node.
      split; [reflexivity|]. split; [exact Hfits | reflexivity].
    + rewrite (gossip_new_blocks_unfit sender block_hashes node Hnode Hfits)
        in Hrun.
      discriminate.
  - rewrite (gossip_new_blocks_unresolved sender block_hashes Hnode) in Hrun.
    discriminate.
Qed.

End Announcement.

End AddressRewrite.




(** C10: the address rewrites touch only host, protocol port and discovery
    port.  A request that [KademliaInterceptor.pre_request] returns has the
    sender's identity and every field outside the sender as they were
    received; an announcement that [GossipInterceptor.pre_request] returns on
    "NewBlocks" has the sender's identity and the block hashes as they were
    received; on every other method name the hook returns the very request it
    was given.  Both hooks do return when the sender is registered under an
    entry whose ports fit the port fields. *)
Theorem address_rewrite_frame `{Proto}
    `{Hexify kademlia.Request, Hexify gossiping.Request}
    (self : DockerNode) (name : string) :
  ( forall request request' : kademlia.Request,
      value_of (KademliaInterceptor.pre_request self name request)
        = Return request' ->
      kademlia.id (kademlia.sender request')
        = kademlia.id (kademlia.sender request) /\
      kademlia.others request' = kademlia.others request ) /\
  ( forall (sender : kademlia.Node) (block_hashes : list bytes)
           (request' : gossiping.Request),
      value_of (GossipInterceptor.pre_request self "NewBlocks"
                  (gossiping.NewBlocksRequest sender block_hashes))
        = Return request' ->
      exists sender',
        request' = gossiping.NewBlocksRequest sender' block_hashes /\
        kademlia.id sender' = kademlia.id sender ) /\
  ( forall request : gossiping.Request,
      name <> "NewBlocks" ->
      value_of (GossipInterceptor.pre_request self name request) = Return request ) /\
  ( forall (request : kademlia.Request) node,
      endpoint_of self (kademlia.sender request) = Some node ->
      fits node = true ->
      exists request',
        value_of (KademliaInterceptor.pre_request self name request)
          = Return request' ) /\
  ( forall (sender : kademlia.Node) (block_hashes : list bytes) node,
      endpoint_of self sender = Some node ->
      fits node = true ->
      exists sender',
        value_of (GossipInterceptor.pre_request self "NewBlocks"
                    (gossiping.NewBlocksRequest sender block_hashes))
          = Return (gossiping.NewBlocksRequest sender' block_hashes) /\
        points_to_proxy node sender' ).
Proof.
  split; [|split; [|split; [|split]]].
  - intros request request' Hrun.
    destruct (kademlia_pre_request_returns self name request request' Hrun)
      as (node & _ & _ & ->).
    split; reflexivity.
  - intros sender block_hashes request' Hrun.
    destruct (gossip_new_blocks_returns self sender block_hashes request' Hrun)
      as (node & _ & _ & ->).
    exists (patched sender node). split; reflexivity.
  - intros request Hname. apply String.eqb_neq in Hname.
    unfold GossipInterceptor.pre_request.
    cbn [mbind Fn_bind fn_bind logging_info]. rewrite Hname. reflexivity.
  - intros request node Hnode Hfits. eexists.
    apply kademlia_pre_request_resolved; [exact Hnode | exact Hfits].
  - intros sender block_hashes node Hnode Hfits.
    exists (patched sender node). split.
    + apply gossip_new_blocks_resolved; [exact Hnode | exact Hfits].
    + apply patched_points_to_proxy.
Qed.

(** C10 on the demo network: a ping and a block announcement from node 1, and
    a block fetch request. *)
Lemma address_rewrite_frame_witness :
  ( kademlia.id (kademlia.sender
                   (@kademlia.mkRequest Demo.proto
                      (rewritten Demo.node Demo.peer1) "ping"))
      = kademlia.id (kademlia.sender Demo.ping) /\
    kademlia.others (@kademlia.mkRequest Demo.proto
                       (rewritten Demo.node Demo.peer1) "ping")
      = kademlia.others Demo.ping ) /\
  ( exists sender',
      @gossiping.NewBlocksRequest Demo.proto (rewritten Demo.node Demo.peer1)
        [[x0f; x44]]
        = gossiping.NewBlocksRequest sender' [[x0f; x44]] /\
      kademlia.id sender' = kademlia.id Demo.peer1 ) /\
  value_of (@GossipInterceptor.pre_request Demo.proto Demo.render
              Demo.node "GetBlockChunked" Demo.fetch_request)
    = Return Demo.fetch_request /\
  ( exists request',
      value_of (@KademliaInterceptor.pre_request Demo.proto Demo.render
                  Demo.node "Ping" Demo.ping) = Return request' ) /\
  ( exists sender',
      value_of (@GossipInterceptor.pre_request Demo.proto Demo.render
                  Demo.node "NewBlocks" Demo.announcement)
        = Return (gossiping.NewBlocksRequest sender' [[x0f; x44]]) /\
      points_to_proxy (mkNodeEndpoint "proxy-1" 40400 40404) sender' ).
Proof.
  split; [|split; [|split; [|split]]].
  - apply (proj1 (@address_rewrite_frame Demo.proto Demo.render Demo.render
                    Demo.node "Ping") Demo.ping).
    vm_compute. reflexivity.
  - apply (proj1 (proj2 (@address_rewrite_frame Demo.proto Demo.render Demo.render
                    Demo.node "NewBlocks")) Demo.peer1).
    vm_compute. reflexivity.
  - apply (proj1 (proj2 (proj2 (@address_rewrite_frame Demo.proto Demo.render
                    Demo.render Demo.node "GetBlockChunked")))).
    discriminate.
  - apply (proj1 (proj2 (proj2 (proj2 (@address_rewrite_frame Demo.proto
                    Demo.render Demo.render Demo.node "Ping"))))
             Demo.ping (mkNodeEndpoint "proxy-1" 40400 40404));
      vm_compute; reflexivity.
  - apply (proj2 (proj2 (proj2 (proj2 (@address_rewrite_frame Demo.proto
                    Demo.render Demo.render Demo.node "NewBlocks"))))
             Demo.peer1 [[x0f; x44]] (mkNodeEndpoint "proxy-1" 40400 40404));
      vm_compute; reflexivity.
Defined.

(** ** The block fetch: strip, re-sign, re-chunk *)

Section BlockFetch.
Import consensus.
Context `{Proto} `{!consensus.Wire} `{!Lz4Block} `{!Crypto}.
Context `{Hexify gossiping.Request, Hexify gossiping.ChunkHeader, Hexify gossiping.Chunk}.
Variable self : DockerNode.

Lemma strip_and_resign_logs_nothing (block : Block) :
  log_of (GossipInterceptor.strip_and_resign self block) = [].
Proof.
  unfold GossipInterceptor.strip_and_resign.
  destruct (GossipInterceptor.del_first_approvals block) as [b1|ex]; [|reflexivity].
  cbn [mbind Fn_bind fn_bind call].
  destruct (b64decode (node_private_key (config self))) as [kb|]; [|reflexivity].
  cbn [or_raise].
  destruct (ed25519_SigningKey kb) as [sk|]; reflexivity.
Qed.

Lemma get_block_chunked_run (c1 c2 : gossiping.Chunk) (rest : list gossiping.Chunk)
    (e : option exn) :
  GossipInterceptor.get_block_chunked self (mkStream (c1 :: c2 :: rest) e)
  = match lz4_block_decompress (gossiping.data c2)
            (gossiping.original_content_length (gossiping.header c1)) with
    | None => mkRun (fetch_prefix c1 c2) (mkStream rest e) (Raise LZ4BlockError)
    | Some raw =>
        match Block_ParseFromString raw with
        | None => mkRun (fetch_prefix c1 c2) (mkStream rest e) (Raise DecodeError)
        | Some block =>
            match value_of (GossipInterceptor.strip_and_resign self block) with
            | Raise ex => mkRun (fetch_prefix c1 c2) (mkStream rest e) (Raise ex)
            | Return block' =>
                let new_data := Block_SerializeToString block' in
                let compressed_new_data := lz4_block_compress new_data in
                mkRun (fetch_prefix c1 c2 ++
                       [Yielded (GossipInterceptor.set_lengths (len new_data)
                                   (len compressed_new_data) c1);
                        Yielded (GossipInterceptor.set_data compressed_new_data c2)])
                      (mkStream rest e) (Return tt)
            end
        end
    end.
Proof.
  unfold GossipInterceptor.get_block_chunked.
  unfold mbind, Gen_bind, gen_bind, next, lift, yield, call, logging_info.
  unfold value_of, log_of.
  cbn [items ending result trace upstream fst snd map app].
  destruct (lz4_block_decompress _ _) as [raw|]; cbn [or_raise result trace upstream app]; [|reflexivity].
  destruct (Block_ParseFromString raw) as [block|]; cbn [or_raise result trace upstream app]; [|reflexivity].
  pose proof (strip_and_resign_logs_nothing block) as Hlog.
  destruct (GossipInterceptor.strip_and_resign self block) as [l [block'|ex]];
    unfold log_of in Hlog; cbn [fst] in Hlog; subst l;
    cbn [items ending result trace upstream value_of log_of fst snd map app].
  all: reflexivity.
Qed.

Lemma get_block_chunked_outcome (c1 c2 : gossiping.Chunk)
    (rest : list gossiping.Chunk) (e : option exn) :
  GossipInterceptor.get_block_chunked self (mkStream (c1 :: c2 :: rest) e)
  = match decode_and_resign self c1 c2 with
    | Raise ex => mkRun (fetch_prefix c1 c2) (mkStream rest e) (Raise ex)
    | Return block' =>
        mkRun (fetch_prefix c1 c2 ++
               [Yielded (new_header_chunk block' c1);
                Yielded (new_data_chunk block' c2)])
              (mkStream rest e) (Return tt)
    end.
Proof.
  rewrite get_block_chunked_run. unfold decode_and_resign.
  destruct (lz4_block_decompress _ _) as [raw|]; [|reflexivity].
  destruct (Block_ParseFromString raw) as [block|]; reflexivity.
Qed.

(** With fewer than two chunks upstream the branch ends in the exception of
    the failing [next]. *)
Lemma get_block_chunked_short (response : Stream gossiping.Chunk) :
  (length (items response) < 2)%nat ->
  emitted (trace (GossipInterceptor.get_block_chunked self response)) = [] /\
  result (GossipInterceptor.get_block_chunked self response)
  = Raise (match ending response with None => StopIteration | Some ex => ex end).
Proof.
  destruct response as [[|c1 [|c2 rest]] e]; cbn [items ending length]; intros Hlen;
    [| |lia];
    unfold GossipInterceptor.get_block_chunked, mbind, Gen_bind, gen_bind, next,
      lift, logging_info, value_of, log_of;
    cbn [items ending fst snd map app];
    destruct e as [ex|]; split; reflexivity.
Qed.

Lemma fetch_run (request : gossiping.Request) (response : Stream gossiping.Chunk) :
  GossipInterceptor.post_request_stream self "GetBlockChunked" request response
  = mkRun (Logged ("GOSSIP POST REQUEST STREAM: " +:+ "GetBlockChunked" +:+ "("
                   +:+ hexify request +:+ ")")
             :: trace (GossipInterceptor.get_block_chunked self response))
          (upstream (GossipInterceptor.get_block_chunked self response))
          (pep479 (result (GossipInterceptor.get_block_chunked self response))).
Proof.
  unfold GossipInterceptor.post_request_stream.
  rewrite generator_run, log_then_run. reflexivity.
Qed.

Lemma strip_and_resign_ok (block : Block) (first : ProcessedDeploy)
    (others : list ProcessedDeploy) (key_bytes : bytes) (signing_key : SigningKey) :
  deploys (body block) = first :: others ->
  b64decode (node_private_key (config self)) = Some key_bytes ->
  ed25519_SigningKey key_bytes = Some signing_key ->
  GossipInterceptor.strip_and_resign self block
  = ([], Return (resigned
                   (GossipInterceptor.set_deploys
                      (GossipInterceptor.set_approvals [] first :: others) block)
                   signing_key)).
Proof.
  intros Hd Hk Hs. unfold GossipInterceptor.strip_and_resign,
    GossipInterceptor.del_first_approvals.
  rewrite Hd. cbn [mbind Fn_bind fn_bind call]. rewrite Hk. cbn [or_raise].
  rewrite Hs. reflexivity.
Qed.

Lemma strip_and_resign_no_deploy (block : Block) :
  deploys (body block) = [] ->
  value_of (GossipInterceptor.strip_and_resign self block) = Raise IndexError.
Proof.
  intros Hd. unfold GossipInterceptor.strip_and_resign,
    GossipInterceptor.del_first_approvals.
  rewrite Hd. reflexivity.
Qed.

Lemma strip_and_resign_no_key (block : Block) :
  deploys (body block) <> [] ->
  (b64decode (node_private_key (config self)) = None \/
   exists key_bytes,
     b64decode (node_private_key (config self)) = Some key_bytes /\
     ed25519_SigningKey key_bytes = None) ->
  exists ex,
    value_of (GossipInterceptor.strip_and_resign self block) = Raise ex /\
    ex <> StopIteration.
Proof.
  intros Hd Hkey. unfold GossipInterceptor.strip_and_resign,
    GossipInterceptor.del_first_approvals.
  destruct (deploys (body block)) as [|first others]; [congruence|].
  cbn [mbind Fn_bind fn_bind call].
  destruct Hkey as [Hk|(kb & Hk & Hs)]; rewrite Hk; cbn [or_raise].
  - exists BinasciiError. split; [reflexivity | discriminate].
  - rewrite Hs. exists ValueError. split; [reflexivity | discriminate].
Qed.

Lemma decode_and_resign_succeeds (c1 c2 : gossiping.Chunk) :
  fetch_succeeds self c1 c2 ->
  exists block', decode_and_resign self c1 c2 = Return block'.
Proof.
  intros (raw & block & kb & sk & Hraw & Hparse & Hd & Hk & Hs).
  unfold decode_and_resign. rewrite Hraw, Hparse.
  destruct (deploys (body block)) as [|first others] eqn:Hdeploys; [congruence|].
  rewrite (strip_and_resign_ok block first others kb sk Hdeploys Hk Hs).
  eexists. reflexivity.
Qed.

Lemma decode_and_resign_fails (c1 c2 : gossiping.Chunk) :
  ~ fetch_succeeds self c1 c2 ->
  exists ex, decode_and_resign self c1 c2 = Raise ex /\ ex <> StopIteration.
Proof.
  intros Hno. unfold decode_and_resign.
  destruct (lz4_block_decompress _ _) as [raw|] eqn:Hraw;
    [|exists LZ4BlockError; split; [reflexivity | discriminate]].
  destruct (Block_ParseFromString raw) as [block|] eqn:Hparse;
    [|exists DecodeError; split; [reflexivity | discriminate]].
  destruct (deploys (body block)) as [|first others] eqn:Hdeploys.
  { rewrite (strip_and_resign_no_deploy block Hdeploys).
    exists IndexError. split; [reflexivity | discriminate]. }
  apply strip_and_resign_no_key; [congruence|].
  destruct (b64decode (node_private_key (config self))) as [kb|] eqn:Hk;
    [|left; reflexivity].
  right. exists kb. split; [reflexivity|].
  destruct (ed25519_SigningKey kb) as [sk|] eqn:Hs; [|reflexivity].
  exfalso. apply Hno. exists raw, block, kb, sk.
  repeat split; try assumption. congruence.
Qed.

End BlockFetch.

(** C1: for every block whose body has at least one deploy, with the node's
    configured private key loaded, the statements between parsing and
    re-serialising produce a block whose first deploy has no approvals (the
    other deploys, and the rest of the first, are as before), whose
    [header.body_hash] is the digest of the serialised body, whose
    [block_hash] is the digest of the serialised header, and whose signature
    is tagged "ed25519" and signs [block_hash] with that key.  The three
    derived fields are written in this order: [body_hash] from the body
    without the approvals, [block_hash] from the header that already holds
    the new [body_hash], the signature over the new [block_hash].  This block
    is the one whose compressed serialisation the hook emits. *)
Theorem resigning_correctness `{Proto} `{!consensus.Wire} `{!Lz4Block} `{!Crypto}
    `{Hexify gossiping.Request, Hexify gossiping.ChunkHeader, Hexify gossiping.Chunk}
    (self : DockerNode) (block : consensus.Block)
    (key_bytes : bytes) (signing_key : SigningKey) :
  consensus.deploys (consensus.body block) <> [] ->
  b64decode (node_private_key (config self)) = Some key_bytes ->
  ed25519_SigningKey key_bytes = Some signing_key ->
  exists block' : consensus.Block,
    value_of (GossipInterceptor.strip_and_resign self block) = Return block' /\
    ( exists first first' others,
        consensus.deploys (consensus.body block) = first :: others /\
        consensus.deploys (consensus.body block') = first' :: others /\
        consensus.approvals (consensus.deploy first') = [] /\
        consensus.deploy_others (consensus.deploy first')
          = consensus.deploy_others (consensus.deploy first) /\
        consensus.processed_others first' = consensus.processed_others first ) /\
    consensus.body_hash (consensus.header block')
      = blake2b_hash (consensus.Body_SerializeToString (consensus.body block')) /\
    consensus.block_hash block'
      = blake2b_hash (consensus.Header_SerializeToString (consensus.header block')) /\
    consensus.signature block'
      = consensus.mkSignature "ed25519" (sign signing_key (consensus.block_hash block')) /\
    consensus.header_others (consensus.header block')
      = consensus.header_others (consensus.header block) /\
    ( exists stripped with_body_hash with_block_hash,
        GossipInterceptor.del_first_approvals block = Return stripped /\
        with_body_hash
          = GossipInterceptor.set_body_hash
              (blake2b_hash (consensus.Body_SerializeToString (consensus.body stripped)))
              stripped /\
        with_block_hash
          = GossipInterceptor.set_block_hash
              (blake2b_hash (consensus.Header_SerializeToString
                               (consensus.header with_body_hash)))
              with_body_hash /\
        block'
          = GossipInterceptor.set_sig
              (sign signing_key (consensus.block_hash with_block_hash))
              (GossipInterceptor.set_sig_algorithm "ed25519" with_block_hash) ) /\
    ( forall request c1 c2 rest e raw,
        lz4_block_decompress (gossiping.data c2)
          (gossiping.original_content_length (gossiping.header c1)) = Some raw ->
        consensus.Block_ParseFromString raw = Some block ->
        emitted (trace (GossipInterceptor.post_request_stream self "GetBlockChunked"
                          request (mkStream (c1 :: c2 :: rest) e)))
          = [GossipInterceptor.set_lengths
               (len (consensus.Block_SerializeToString block'))
               (len (lz4_block_compress (consensus.Block_SerializeToString block')))
               c1;
             GossipInterceptor.set_data
               (lz4_block_compress (consensus.Block_SerializeToString block')) c2] ).
Proof.
  intros Hd Hk Hs.
  destruct (consensus.deploys (consensus.body block)) as [|first others] eqn:Hdeploys;
    [congruence|]. clear Hd.
  pose proof (strip_and_resign_ok self block first others key_bytes signing_key
                Hdeploys Hk Hs) as Hrun.
  eexists. split; [rewrite Hrun; reflexivity|].
  split; [eexists first, _, others; repeat split; reflexivity|].
  do 4 (split; [reflexivity|]).
  split.
  - eexists _, _, _. split; [|split; [|split]]; try reflexivity.
    unfold GossipInterceptor.del_first_approvals. rewrite Hdeploys. reflexivity.
  - intros request c1 c2 rest e raw Hraw Hparse.
    rewrite fetch_run, get_block_chunked_run, Hraw, Hparse, Hrun. reflexivity.
Qed.

(** C1 on the demo network: the sample block with two approvals on its only
    deploy, re-signed with the 32-byte demo key. *)
Lemma resigning_correctness_witness :
  exists block' : @consensus.Block Demo.proto,
    value_of (@GossipInterceptor.strip_and_resign Demo.proto Demo.wire Demo.crypto
                Demo.node (Demo.sample_block [x01; x02; x03])) = Return block' /\
    consensus.body_hash (consensus.header block')
      = @blake2b_hash Demo.crypto
          (@consensus.Body_SerializeToString Demo.proto Demo.wire (consensus.body block')) /\
    consensus.block_hash block'
      = @blake2b_hash Demo.crypto
          (@consensus.Header_SerializeToString Demo.proto Demo.wire
             (consensus.header block')) /\
    consensus.sig_algorithm (consensus.signature block') = "ed25519".
Proof.
  destruct (@resigning_correctness Demo.proto Demo.wire Demo.lz4 Demo.crypto
              Demo.render Demo.render Demo.render Demo.node
              (Demo.sample_block [x01; x02; x03])
              Demo.key Demo.key)
    as (block' & Hrun & _ & Hbody & Hblock & Hsig & _).
  - discriminate.
  - reflexivity.
  - reflexivity.
  - exists block'. repeat split; try assumption. rewrite Hsig. reflexivity.
Defined.

(** ** The chunk framing of the block fetch *)

(** C2, as stated, fails: a stream of three chunks whose data chunk is empty
    is rejected by the decompressor; two chunks have been pulled, none is
    emitted and the call ends in the decompressor's exception. *)
Lemma block_fetch_may_emit_nothing :
  (2 <= length (items (mkStream [Demo.header_chunk; Demo.empty_data_chunk;
                                 Demo.trailing_chunk] None)))%nat /\
  consumed (trace (Demo.gossip_stream "GetBlockChunked"
                     (mkStream [Demo.header_chunk; Demo.empty_data_chunk;
                                Demo.trailing_chunk] None)))
    = [Demo.header_chunk; Demo.empty_data_chunk] /\
  emitted (trace (Demo.gossip_stream "GetBlockChunked"
                    (mkStream [Demo.header_chunk; Demo.empty_data_chunk;
                               Demo.trailing_chunk] None)))
    = [] /\
  result (Demo.gossip_stream "GetBlockChunked"
            (mkStream [Demo.header_chunk; Demo.empty_data_chunk;
                       Demo.trailing_chunk] None))
    = Raise LZ4BlockError.
Proof. split; [simpl; lia|]. vm_compute. repeat split. Qed.

(** C2, amended: for every upstream response stream with at least two
    elements, the block-fetch branch pulls exactly the first two and leaves
    the rest unpulled.  When the data chunk decompresses and parses into a
    block with a first deploy and the node's private key loads, it emits
    exactly two elements, after both pulls: the first chunk with its length
    fields overwritten, then the second chunk with its payload replaced.  In
    every other case it raises having emitted nothing. *)
Theorem block_fetch_chunk_invariant
    `{Proto} `{!consensus.Wire} `{!Lz4Block} `{!Crypto}
    `{Hexify gossiping.Request, Hexify gossiping.ChunkHeader, Hexify gossiping.Chunk}
    (self : DockerNode) (request : gossiping.Request)
    (response : Stream gossiping.Chunk)
    (c1 c2 : gossiping.Chunk) (rest : list gossiping.Chunk) :
  items response = c1 :: c2 :: rest ->
  consumed (trace (GossipInterceptor.post_request_stream self "GetBlockChunked"
                     request response)) = [c1; c2] /\
  upstream (GossipInterceptor.post_request_stream self "GetBlockChunked"
              request response) = mkStream rest (ending response) /\
  ( fetch_succeeds self c1 c2 ->
    exists block',
      decode_and_resign self c1 c2 = Return block' /\
      emitted (trace (GossipInterceptor.post_request_stream self "GetBlockChunked"
                        request response))
        = [new_header_chunk block' c1; new_data_chunk block' c2] /\
      traffic (trace (GossipInterceptor.post_request_stream self "GetBlockChunked"
                        request response))
        = [Pulled c1; Pulled c2;
           Yielded (new_header_chunk block' c1); Yielded (new_data_chunk block' c2)] /\
      gossiping.data (new_header_chunk block' c1) = gossiping.data c1 /\
      gossiping.header (new_data_chunk block' c2) = gossiping.header c2 /\
      result (GossipInterceptor.post_request_stream self "GetBlockChunked"
                request response) = Return tt ) /\
  ( ~ fetch_succeeds self c1 c2 ->
    emitted (trace (GossipInterceptor.post_request_stream self "GetBlockChunked"
                      request response)) = [] /\
    exists ex,
      result (GossipInterceptor.post_request_stream self "GetBlockChunked"
                request response) = Raise ex ).
Proof.
  destruct response as [xs e]. cbn [items ending]. intros ->.
  rewrite fetch_run, get_block_chunked_outcome. cbn [trace upstream result].
  split; [|split; [|split]].
  - destruct (decode_and_resign self c1 c2); reflexivity.
  - destruct (decode_and_resign self c1 c2); reflexivity.
  - intros Hok. destruct (decode_and_resign_succeeds self c1 c2 Hok) as [block' Hb].
    exists block'. rewrite Hb. repeat split; reflexivity.
  - intros Hno. destruct (decode_and_resign_fails self c1 c2 Hno) as (ex & Hb & Hex).
    rewrite Hb. split; [reflexivity|]. exists ex.
    cbn [result]. destruct ex; try reflexivity. congruence.
Qed.

(** C2 (amended) on the demo network: three chunks upstream, the third is
    left unpulled and two chunks are emitted. *)
Lemma block_fetch_chunk_invariant_witness :
  consumed (trace (Demo.gossip_stream "GetBlockChunked"
                     (mkStream [Demo.header_chunk; Demo.data_chunk;
                                Demo.trailing_chunk] None)))
    = [Demo.header_chunk; Demo.data_chunk] /\
  upstream (Demo.gossip_stream "GetBlockChunked"
              (mkStream [Demo.header_chunk; Demo.data_chunk;
                         Demo.trailing_chunk] None))
    = mkStream [Demo.trailing_chunk] None /\
  length (emitted (trace (Demo.gossip_stream "GetBlockChunked"
                            (mkStream [Demo.header_chunk; Demo.data_chunk;
                                       Demo.trailing_chunk] None)))) = 2%nat.
Proof.
  destruct (@block_fetch_chunk_invariant Demo.proto Demo.wire Demo.lz4 Demo.crypto
              Demo.render Demo.render Demo.render Demo.node Demo.fetch_request
              (mkStream [Demo.header_chunk; Demo.data_chunk; Demo.trailing_chunk] None)
              Demo.header_chunk Demo.data_chunk [Demo.trailing_chunk] eq_refl)
    as (Hpulled & Hrest & Hok & _).
  split; [exact Hpulled|]. split; [exact Hrest|].
  destruct Hok as (block' & _ & Hemitted & _).
  - exists [x01; x02; x03], (Demo.sample_block [x01; x02; x03]),
      Demo.key, Demo.key.
    repeat split; try reflexivity. discriminate.
  - unfold Demo.gossip_stream. rewrite Hemitted. reflexivity.
Defined.

(** ** Failures of the block fetch *)




(** C9: when the upstream response of a block fetch holds fewer than two
    elements, the hook emits nothing and ends in an exception: the error the
    upstream ended with, or, when the upstream is simply exhausted, the
    [RuntimeError] that replaces the [StopIteration] escaping the generator. *)
Theorem block_fetch_short_stream_fails
    `{Proto} `{!consensus.Wire} `{!Lz4Block} `{!Crypto}
    `{Hexify gossiping.Request, Hexify gossiping.ChunkHeader, Hexify gossiping.Chunk}
    (self : DockerNode) (request : gossiping.Request)
    (response : Stream gossiping.Chunk) :
  (length (items response) < 2)%nat ->
  emitted (trace (GossipInterceptor.post_request_stream self "GetBlockChunked"
                    request response)) = [] /\
  exists ex,
    result (GossipInterceptor.post_request_stream self "GetBlockChunked"
              request response) = Raise ex /\
    ex <> StopIteration /\
    ( ending response = None ->
      ex = RuntimeError "generator raised StopIteration" ).
Proof.
  intros Hlen. rewrite fetch_run. cbn [trace result emitted].
  destruct (get_block_chunked_short self response Hlen) as [Hemitted Hresult].
  split; [exact Hemitted|]. rewrite Hresult.
  destruct (ending response) as [ex|].
  - destruct ex; eexists; (split; [reflexivity|]); split; discriminate.
  - eexists. split; [reflexivity|]. split; [discriminate | reflexivity].
Qed.

(** C9 on the demo network: the upstream ends after the header chunk. *)
Lemma block_fetch_short_stream_fails_witness :
  emitted (trace (Demo.gossip_stream "GetBlockChunked"
                    (mkStream [Demo.header_chunk] None))) = [] /\
  exists ex,
    result (Demo.gossip_stream "GetBlockChunked"
              (mkStream [Demo.header_chunk] None)) = Raise ex /\
    ex <> StopIteration /\
    ( ending (mkStream [Demo.header_chunk] None) = None ->
      ex = RuntimeError "generator raised StopIteration" ).
Proof.
  apply (@block_fetch_short_stream_fails Demo.proto Demo.wire Demo.lz4 Demo.crypto
           Demo.render Demo.render Demo.render Demo.node Demo.fetch_request
           (mkStream [Demo.header_chunk] None)).
  simpl. lia.
Defined.

(** ** Compression round trip *)

Lemma demo_lz4_laws : Lz4BlockLaws Demo.lz4.
Proof.
  constructor. intros x. cbn [lz4_block_decompress lz4_block_compress Demo.lz4].
  rewrite Z.leb_refl. reflexivity.
Qed.

(** C5: after the mutation of a block fetch, the emitted header chunk
    declares as [original_content_length] the length of the serialised
    re-signed block and as [content_length] the length of the emitted
    payload, the emitted data chunk carries the compressed serialisation,
    and, for a codec that honours its round-trip contract, decompressing the
    emitted payload under the emitted [original_content_length] gives back
    exactly the serialised re-signed block. *)
Theorem compression_round_trip
    `{Proto} `{!consensus.Wire} {L : Lz4Block} `{!Lz4BlockLaws L} `{!Crypto}
    `{Hexify gossiping.Request, Hexify gossiping.ChunkHeader, Hexify gossiping.Chunk}
    (self : DockerNode) (request : gossiping.Request)
    (response : Stream gossiping.Chunk)
    (c1 c2 : gossiping.Chunk) (rest : list gossiping.Chunk)
    (raw : bytes) (block block' : consensus.Block) :
  items response = c1 :: c2 :: rest ->
  lz4_block_decompress (gossiping.data c2)
    (gossiping.original_content_length (gossiping.header c1)) = Some raw ->
  consensus.Block_ParseFromString raw = Some block ->
  value_of (GossipInterceptor.strip_and_resign self block) = Return block' ->
  exists c1' c2',
    emitted (trace (GossipInterceptor.post_request_stream self "GetBlockChunked"
                      request response)) = [c1'; c2'] /\
    gossiping.original_content_length (gossiping.header c1')
      = len (consensus.Block_SerializeToString block') /\
    gossiping.content_length (gossiping.header c1') = len (gossiping.data c2') /\
    gossiping.data c2'
      = lz4_block_compress (consensus.Block_SerializeToString block') /\
    lz4_block_decompress (gossiping.data c2')
      (gossiping.original_content_length (gossiping.header c1'))
      = Some (consensus.Block_SerializeToString block').
Proof.
  destruct response as [xs e]. cbn [items]. intros -> Hraw Hparse Hresign.
  exists (new_header_chunk block' c1), (new_data_chunk block' c2).
  rewrite fetch_run, get_block_chunked_outcome.
  unfold decode_and_resign. rewrite Hraw, Hparse, Hresign.
  cbn [trace emitted fetch_prefix app].
  repeat split. apply decompress_compress.
Qed.

(** C5 on the demo network, with the stored-block codec. *)
Lemma compression_round_trip_witness :
  exists c1' c2' payload,
    emitted (trace (Demo.gossip_stream "GetBlockChunked"
                      (mkStream [Demo.header_chunk; Demo.data_chunk] None)))
      = [c1'; c2'] /\
    @lz4_block_decompress Demo.lz4 (gossiping.data c2')
      (gossiping.original_content_length (gossiping.header c1')) = Some payload /\
    gossiping.original_content_length (gossiping.header c1') = len payload.
Proof.
  destruct (@compression_round_trip Demo.proto Demo.wire Demo.lz4 demo_lz4_laws
              Demo.crypto Demo.render Demo.render Demo.render Demo.node
              Demo.fetch_request
              (mkStream [Demo.header_chunk; Demo.data_chunk] None)
              Demo.header_chunk Demo.data_chunk [] [x01; x02; x03]
              (Demo.sample_block [x01; x02; x03])
              Demo.resigned_sample
              eq_refl eq_refl eq_refl eq_refl)
    as (c1' & c2' & Hemitted & Hlen & _ & _ & Hround).
  exists c1', c2',
    (@consensus.Block_SerializeToString Demo.proto Demo.wire Demo.resigned_sample).
  split; [exact Hemitted|]. split; [exact Hround | exact Hlen].
Defined.

(** * Further properties of the hooks *)

(** ** Re-signing *)

Section Resigning.
Import consensus.
Context `{Proto} `{!consensus.Wire} `{!Crypto}.
Variable self : DockerNode.

(** Whenever the statements return, the block had a first deploy and the key
    loaded. *)
Lemma strip_and_resign_returns (block block' : Block) :
  value_of (GossipInterceptor.strip_and_resign self block) = Return block' ->
  exists first others key_bytes signing_key,
    deploys (body block) = first :: others /\
    b64decode (node_private_key (config self)) = Some key_bytes /\
    ed25519_SigningKey key_bytes = Some signing_key /\
    block' = resigned
               (GossipInterceptor.set_deploys
                  (GossipInterceptor.set_approvals [] first :: others) block)
               signing_key.
Proof.
  unfold GossipInterceptor.strip_and_resign, GossipInterceptor.del_first_approvals.
  destruct (deploys (body block)) as [|first others] eqn:Hd; [discriminate|].
  cbn [mbind Fn_bind fn_bind call].
  destruct (b64decode (node_private_key (config self))) as [kb|] eqn:Hk;
    [|discriminate]. cbn [or_raise].
  destruct (ed25519_SigningKey kb) as [sk|] eqn:Hs; [|discriminate].
  cbn [or_raise mret Fn_ret fn_ret value_of snd]. intros Heq.
  injection Heq as <-. exists first, others, kb, sk. repeat split; assumption.
Qed.

End Resigning.

(** X1: re-signing is idempotent.  A block that came out of the mutation
    statements goes through them unchanged: its first deploy has no approvals
    left and its three derived fields are already the ones the statements
    compute. *)
Theorem resigning_is_idempotent `{Proto} `{!consensus.Wire} `{!Crypto}
    (self : DockerNode) (block block' : consensus.Block) :
  value_of (GossipInterceptor.strip_and_resign self block) = Return block' ->
  value_of (GossipInterceptor.strip_and_resign self block') = Return block'.
Proof.
  intros Hrun.
  destruct (strip_and_resign_returns self block block' Hrun)
    as (first & others & kb & sk & Hd & Hk & Hs & ->).
  set (block' := resigned _ sk).
  assert (Hd' : consensus.deploys (consensus.body block')
                = GossipInterceptor.set_approvals [] first :: others)
    by reflexivity.
  rewrite (strip_and_resign_ok self block' _ others kb sk Hd' Hk Hs).
  reflexivity.
Qed.

(** X1 on the demo network: the re-signed sample block is a fixed point. *)
Lemma resigning_is_idempotent_witness :
  value_of (@GossipInterceptor.strip_and_resign Demo.proto Demo.wire Demo.crypto
              Demo.node Demo.resigned_sample) = Return Demo.resigned_sample.
Proof.
  apply (@resigning_is_idempotent Demo.proto Demo.wire Demo.crypto Demo.node
           (Demo.sample_block [x01; x02; x03]) Demo.resigned_sample).
  reflexivity.
Defined.

(** X2: what the upstream sent as [block_hash], [header.body_hash],
    signature algorithm, signature bytes and approvals of the first deploy
    has no influence on the outcome of the mutation statements. *)
Theorem resigning_ignores_stale_fields `{Proto} `{!consensus.Wire} `{!Crypto}
    (self : DockerNode) (block : consensus.Block)
    (stale_block_hash stale_body_hash stale_sig : bytes)
    (stale_algorithm : string) (stale_approvals : list Approval) :
  GossipInterceptor.strip_and_resign self
    (GossipInterceptor.set_block_hash stale_block_hash
       (GossipInterceptor.set_body_hash stale_body_hash
          (GossipInterceptor.set_sig stale_sig
             (GossipInterceptor.set_sig_algorithm stale_algorithm block))))
  = GossipInterceptor.strip_and_resign self block /\
  ( forall first others,
      consensus.deploys (consensus.body block) = first :: others ->
      GossipInterceptor.strip_and_resign self
        (GossipInterceptor.set_deploys
           (GossipInterceptor.set_approvals stale_approvals first :: others) block)
      = GossipInterceptor.strip_and_resign self block ).
Proof.
  split.
  - unfold GossipInterceptor.strip_and_resign, GossipInterceptor.del_first_approvals.
    cbn [consensus.body GossipInterceptor.set_block_hash
           GossipInterceptor.set_body_hash GossipInterceptor.set_sig
           GossipInterceptor.set_sig_algorithm].
    destruct (consensus.deploys (consensus.body block)) as [|first others];
      reflexivity.
  - intros first others Hd.
    unfold GossipInterceptor.strip_and_resign, GossipInterceptor.del_first_approvals.
    rewrite Hd. reflexivity.
Qed.

(** ** Which failure ends a block fetch *)

(** X3: a fetched block that has no deploy ends the call in [IndexError]:
    both chunks have been pulled, nothing is emitted, and the node's key is
    never looked at (the outcome is the same whatever the key is). *)
Theorem block_without_deploys_aborts
    `{Proto} `{!consensus.Wire} `{!Lz4Block} `{!Crypto}
    `{Hexify gossiping.Request, Hexify gossiping.ChunkHeader, Hexify gossiping.Chunk}
    (self : DockerNode) (request : gossiping.Request)
    (response : Stream gossiping.Chunk)
    (c1 c2 : gossiping.Chunk) (rest : list gossiping.Chunk)
    (raw : bytes) (block : consensus.Block) :
  items response = c1 :: c2 :: rest ->
  lz4_block_decompress (gossiping.data c2)
    (gossiping.original_content_length (gossiping.header c1)) = Some raw ->
  consensus.Block_ParseFromString raw = Some block ->
  consensus.deploys (consensus.body block) = [] ->
  result (GossipInterceptor.post_request_stream self "GetBlockChunked"
            request response) = Raise IndexError /\
  emitted (trace (GossipInterceptor.post_request_stream self "GetBlockChunked"
                    request response)) = [] /\
  consumed (trace (GossipInterceptor.post_request_stream self "GetBlockChunked"
                     request response)) = [c1; c2].
Proof.
  destruct response as [xs e]. cbn [items]. intros -> Hraw Hparse Hdeploys.
  rewrite fetch_run, get_block_chunked_outcome.
  unfold decode_and_resign.
  rewrite Hraw, Hparse, (strip_and_resign_no_deploy self block Hdeploys).
  repeat split.
Qed.

(** X3 on the demo network with a parser that yields a block without
    deploys. *)
Lemma block_without_deploys_aborts_witness :
  result (@GossipInterceptor.post_request_stream Demo.proto
            Fixtures.wire_without_deploys Demo.lz4 Demo.crypto
            Demo.render Demo.render Demo.render Demo.node "GetBlockChunked"
            Demo.fetch_request Fixtures.two_chunks) = Raise IndexError /\
  emitted (trace (@GossipInterceptor.post_request_stream Demo.proto
            Fixtures.wire_without_deploys Demo.lz4 Demo.crypto
            Demo.render Demo.render Demo.render Demo.node "GetBlockChunked"
            Demo.fetch_request Fixtures.two_chunks)) = [] /\
  consumed (trace (@GossipInterceptor.post_request_stream Demo.proto
            Fixtures.wire_without_deploys Demo.lz4 Demo.crypto
            Demo.render Demo.render Demo.render Demo.node "GetBlockChunked"
            Demo.fetch_request Fixtures.two_chunks))
    = [Demo.header_chunk; Demo.data_chunk].
Proof.
  apply (@block_without_deploys_aborts Demo.proto Fixtures.wire_without_deploys
           Demo.lz4 Demo.crypto Demo.render Demo.render Demo.render Demo.node
           Demo.fetch_request Fixtures.two_chunks Demo.header_chunk Demo.data_chunk
           [] [x01; x02; x03] (Fixtures.block_without_deploys [x01; x02; x03]));
    reflexivity.
Defined.

(** X4: with a block that has a deploy, a configured key that does not
    base64-decode ends the call in the decoder's error, and one that decodes
    but is not an ed25519 signing key ends it in [ValueError]; in both cases
    nothing is emitted, although the approvals are already stripped and both
    hashes recomputed by then. *)
Theorem unusable_key_aborts
    `{Proto} `{!consensus.Wire} `{!Lz4Block} `{!Crypto}
    `{Hexify gossiping.Request, Hexify gossiping.ChunkHeader, Hexify gossiping.Chunk}
    (self : DockerNode) (request : gossiping.Request)
    (response : Stream gossiping.Chunk)
    (c1 c2 : gossiping.Chunk) (rest : list gossiping.Chunk)
    (raw : bytes) (block : consensus.Block) :
  items response = c1 :: c2 :: rest ->
  lz4_block_decompress (gossiping.data c2)
    (gossiping.original_content_length (gossiping.header c1)) = Some raw ->
  consensus.Block_ParseFromString raw = Some block ->
  consensus.deploys (consensus.body block) <> [] ->
  ( b64decode (node_private_key (config self)) = None ->
    result (GossipInterceptor.post_request_stream self "GetBlockChunked"
              request response) = Raise BinasciiError /\
    emitted (trace (GossipInterceptor.post_request_stream self "GetBlockChunked"
                      request response)) = [] ) /\
  ( forall key_bytes,
      b64decode (node_private_key (config self)) = Some key_bytes ->
      ed25519_SigningKey key_bytes = None ->
      result (GossipInterceptor.post_request_stream self "GetBlockChunked"
                request response) = Raise ValueError /\
      emitted (trace (GossipInterceptor.post_request_stream self "GetBlockChunked"
                        request response)) = [] ).
Proof.
  destruct response as [xs e]. cbn [items]. intros -> Hraw Hparse Hdeploys.
  rewrite fetch_run, get_block_chunked_outcome.
  unfold decode_and_resign. rewrite Hraw, Hparse.
  unfold GossipInterceptor.strip_and_resign, GossipInterceptor.del_first_approvals.
  destruct (consensus.deploys (consensus.body block)) as [|first others];
    [congruence|].
  cbn [mbind Fn_bind fn_bind call].
  split.
  - intros Hk. rewrite Hk. repeat split.
  - intros kb Hk Hs. rewrite Hk. cbn [or_raise]. rewrite Hs. repeat split.
Qed.

(** X4 on the demo network, for a node whose key decodes to eight bytes. *)
Lemma unusable_key_aborts_witness :
  result (@GossipInterceptor.post_request_stream Demo.proto Demo.wire Demo.lz4
            Demo.crypto Demo.render Demo.render Demo.render
            Fixtures.node_with_short_key "GetBlockChunked"
            Demo.fetch_request Fixtures.two_chunks) = Raise ValueError /\
  emitted (trace (@GossipInterceptor.post_request_stream Demo.proto Demo.wire
            Demo.lz4 Demo.crypto Demo.render Demo.render Demo.render
            Fixtures.node_with_short_key "GetBlockChunked"
            Demo.fetch_request Fixtures.two_chunks)) = [].
Proof.
  apply (proj2 (@unusable_key_aborts Demo.proto Demo.wire Demo.lz4 Demo.crypto
           Demo.render Demo.render Demo.render Fixtures.node_with_short_key
           Demo.fetch_request Fixtures.two_chunks Demo.header_chunk Demo.data_chunk
           [] [x01; x02; x03] (Demo.sample_block [x01; x02; x03])
           eq_refl eq_refl eq_refl ltac:(discriminate))
           (list_byte_of_string "c2hvcnQ="));
    reflexivity.
Defined.

(** ** What a block fetch takes from the upstream *)

Lemma get_block_chunked_short_pulls
    `{Proto} `{!consensus.Wire} `{!Lz4Block} `{!Crypto}
    `{Hexify gossiping.ChunkHeader}
    (self : DockerNode) (response : Stream gossiping.Chunk) :
  (length (items response) < 2)%nat ->
  consumed (trace (GossipInterceptor.get_block_chunked self response))
    = items response /\
  upstream (GossipInterceptor.get_block_chunked self response)
    = mkStream [] (ending response).
Proof.
  destruct response as [[|c1 [|c2 rest]] e]; cbn [items ending length]; intros Hlen;
    [| |lia];
    unfold GossipInterceptor.get_block_chunked, mbind, Gen_bind, gen_bind, next,
      lift, logging_info, value_of, log_of;
    cbn [items ending fst snd map app];
    destruct e as [ex|]; split; reflexivity.
Qed.

(** X5: whatever the upstream response holds and however the call ends, a
    block fetch pulls the first two elements at most: what it consumed is the
    response cut after two elements, and everything behind them is still
    upstream, together with the way the response ends. *)
Theorem block_fetch_never_pulls_a_third
    `{Proto} `{!consensus.Wire} `{!Lz4Block} `{!Crypto}
    `{Hexify gossiping.Request, Hexify gossiping.ChunkHeader, Hexify gossiping.Chunk}
    (self : DockerNode) (request : gossiping.Request)
    (response : Stream gossiping.Chunk) :
  consumed (trace (GossipInterceptor.post_request_stream self "GetBlockChunked"
                     request response)) = take 2 (items response) /\
  upstream (GossipInterceptor.post_request_stream self "GetBlockChunked"
              request response)
    = mkStream (drop 2 (items response)) (ending response) /\
  (length (emitted (trace (GossipInterceptor.post_request_stream self
                             "GetBlockChunked" request response)))
   <= length (consumed (trace (GossipInterceptor.post_request_stream self
                                 "GetBlockChunked" request response))))%nat.
Proof.
  rewrite fetch_run. cbn [trace upstream consumed emitted].
  destruct (Nat.lt_ge_cases (length (items response)) 2) as [Hshort|Hlong].
  - destruct (get_block_chunked_short_pulls self response Hshort) as [Hc Hu].
    destruct (get_block_chunked_short self response Hshort) as [He _].
    rewrite Hc, Hu, He.
    destruct response as [[|c1 [|c2 rest]] e]; cbn [items length] in *;
      [| |lia]; repeat split; cbn; lia.
  - destruct response as [[|c1 [|c2 rest]] e]; cbn [items length ending] in *;
      [lia|lia|].
    rewrite get_block_chunked_outcome.
    destruct (decode_and_resign self c1 c2); repeat split; cbn; lia.
Qed.

(** ** The block announcement *)



(** ** Rewriting twice *)

(** X7: the address rewrite is idempotent.  A discovery request that
    [KademliaInterceptor.pre_request] returned is returned unchanged when it
    is passed through the hook again (of the same network, under any method
    name), and so is a block announcement through
    [GossipInterceptor.pre_request]; a peer rewritten by the stream hook is
    its own rewriting. *)
Theorem address_rewrite_is_idempotent `{Proto}
    `{Hexify kademlia.Request, Hexify gossiping.Request}
    (self : DockerNode) (name name' : string) :
  ( forall request request' : kademlia.Request,
      value_of (KademliaInterceptor.pre_request self name request) = Return request' ->
      value_of (KademliaInterceptor.pre_request self name' request') = Return request' ) /\
  ( forall request request' : gossiping.Request,
      value_of (GossipInterceptor.pre_request self "NewBlocks" request)
        = Return request' ->
      value_of (GossipInterceptor.pre_request self "NewBlocks" request')
        = Return request' ) /\
  ( forall r : kademlia.Node, rewritten self (rewritten self r) = rewritten self r ).
Proof.
  split; [|split].
  - intros request request' Hrun.
    destruct (kademlia_pre_request_returns self name request request' Hrun)
      as (node & Hnode & Hfits & ->).
    rewrite (kademlia_pre_request_resolved self name' _ node);
      [reflexivity | exact Hnode | exact Hfits].
  - intros request request'.
    destruct request as [sender hashes|fields].
    + intros Hrun.
      destruct (gossip_new_blocks_returns self sender hashes request' Hrun)
        as (node & Hnode & Hfits & ->).
      rewrite (gossip_new_blocks_resolved self _ hashes node);
        [reflexivity | exact Hnode | exact Hfits].
    + unfold GossipInterceptor.pre_request. cbn [String.eqb Ascii.eqb Bool.eqb].
      discriminate.
  - intros r.
    destruct (endpoint_of self r) as [node|] eqn:Hnode.
    + destruct (fits node) eqn:Hfits.
      * rewrite (rewritten_fits self r node Hnode Hfits).
        apply (rewritten_fits self (patched r node) node); [exact Hnode | exact Hfits].
      * rewrite (rewritten_unfit self r node Hnode Hfits).
        apply (rewritten_unfit self r node Hnode Hfits).
    + rewrite (rewritten_unresolved self r Hnode).
      apply (rewritten_unresolved self r Hnode).
Qed.

(** X7 on the demo network: the ping of node 1, rewritten, goes through
    unchanged. *)
Lemma address_rewrite_is_idempotent_witness :
  value_of (@KademliaInterceptor.pre_request Demo.proto Demo.render Demo.node
              "Lookup"
              (@kademlia.mkRequest Demo.proto (rewritten Demo.node Demo.peer1) "ping"))
    = Return (@kademlia.mkRequest Demo.proto (rewritten Demo.node Demo.peer1) "ping").
Proof.
  apply (proj1 (@address_rewrite_is_idempotent Demo.proto Demo.render Demo.render
                  Demo.node "Ping" "Lookup") Demo.ping).
  vm_compute. reflexivity.
Defined.

(** ** What the peer-list hook can emit *)

Lemma kademlia_loop_emits_prefix `{Proto} `{Str kademlia.Node}
    (self : DockerNode) (name : string) (xs : list kademlia.Node)
    (e : option exn) :
  exists n,
    emitted (trace (for_yield_items (KademliaInterceptor.patch_peer self name) xs e))
      = map (rewritten self) (take n xs) /\
    Forall (rewritable self) (take n xs).
Proof.
  induction xs as [|x xs (n & IHe & IHr)].
  - exists 0%nat. split; [reflexivity | constructor].
  - cbn [for_yield_items].
    assert (Hcases : rewritable self x \/
                     exists ex, value_of (KademliaInterceptor.patch_peer self name x)
                                = Raise ex).
    { destruct (endpoint_of self x) as [node|] eqn:Hnode.
      - destruct (fits node) eqn:Hfits.
        + left. exists node. split; [exact Hnode | exact Hfits].
        + right. exists ValueError.
          apply (patch_peer_unfit self name x node Hnode Hfits).
      - right. eexists. apply (patch_peer_unresolved self name x Hnode). }
    destruct Hcases as [Hx|(ex & Hraise)].
    + pose proof (patch_peer_resolved self name x Hx) as Hret.
      unfold returns in Hret.
      destruct (KademliaInterceptor.patch_peer self name x) as [l o].
      cbn [value_of snd] in Hret. subst o. cbn [trace emitted].
      exists (S n). rewrite emitted_logged_app. cbn [emitted take map].
      split; [f_equal; exact IHe|].
      constructor; [exact Hx | exact IHr].
    + destruct (KademliaInterceptor.patch_peer self name x) as [l o].
      cbn [value_of snd] in Hraise. subst o. cbn [trace emitted].
      exists 0%nat. rewrite <- (app_nil_r (map Logged l)), emitted_logged_app.
      split; [reflexivity | constructor].
Qed.

(** X8: whatever peer list the upstream streams, and whether or not the call
    ends in an error, every peer that [KademliaInterceptor.post_request_stream]
    emits is registered and advertises the proxy coordinates of its registry
    entry; the emitted peers are the rewritten images of an initial segment
    of the upstream list, so a real address never leaves the hook. *)
Theorem peer_list_only_emits_proxy_addresses `{Proto}
    `{Hexify kademlia.Request, Str kademlia.Node, Str (Stream kademlia.Node)}
    (self : DockerNode) (name : string) (request : kademlia.Request)
    (response : Stream kademlia.Node) :
  ( exists n,
      emitted (trace (KademliaInterceptor.post_request_stream self name request
                        response))
        = map (rewritten self) (take n (items response)) ) /\
  Forall (fun r' => exists node,
            endpoint_of self r' = Some node /\ points_to_proxy node r')
    (emitted (trace (KademliaInterceptor.post_request_stream self name request
                       response))).
Proof.
  rewrite kademlia_stream_run. cbn zeta. cbn [trace emitted].
  destruct (kademlia_loop_emits_prefix self name (items response) (ending response))
    as (n & He & Hr).
  split; [exists n; exact He|].
  rewrite He. clear He.
  induction Hr as [|r rs (node & Hnode & Hfits) Hrs IH]; cbn [map].
  - constructor.
  - constructor; [|exact IH]. exists node.
    rewrite (rewritten_fits self r node Hnode Hfits).
    split; [exact Hnode | apply patched_points_to_proxy].
Qed.

(** ** Calls through the servicer *)

Section Handlers.
Context {Req Resp Item : Type} `{Hexify Req}.
Variable self : ProxyServicer.t Req Resp Item.

Lemma unary_unary_run (name : string) (request preprocessed : Req)
    (l : list string) (response : Resp) :
  pre_request (ProxyServicer.interceptor self) name request
    = (l, Return preprocessed) ->
  ProxyServicer.invoke self name preprocessed = Return response ->
  ProxyServicer.unary_unary self name request
  = ((ProxyServicer.log_prefix self +:+ ": (" +:+ hexify request +:+ ")")
       :: l ++ log_of (post_request (ProxyServicer.interceptor self) name
                         preprocessed response),
     value_of (post_request (ProxyServicer.interceptor self) name
                 preprocessed response)).
Proof.
  intros Hpre Hinv. unfold ProxyServicer.unary_unary.
  cbn [mbind Fn_bind fn_bind logging_info].
  rewrite Hpre. cbn [mbind Fn_bind fn_bind call]. rewrite Hinv.
  destruct (post_request (ProxyServicer.interceptor self) name preprocessed response).
  reflexivity.
Qed.

Lemma unary_unary_pre_raises (name : string) (request : Req)
    (l : list string) (e : exn) :
  pre_request (ProxyServicer.interceptor self) name request = (l, Raise e) ->
  ProxyServicer.unary_unary self name request
  = ((ProxyServicer.log_prefix self +:+ ": (" +:+ hexify request +:+ ")") :: l,
     Raise e).
Proof.
  intros Hpre. unfold ProxyServicer.unary_unary.
  cbn [mbind Fn_bind fn_bind logging_info]. rewrite Hpre. reflexivity.
Qed.

Lemma unary_unary_invoke_raises (name : string) (request preprocessed : Req)
    (l : list string) (e : exn) :
  pre_request (ProxyServicer.interceptor self) name request
    = (l, Return preprocessed) ->
  ProxyServicer.invoke self name preprocessed = Raise e ->
  ProxyServicer.unary_unary self name request
  = ((ProxyServicer.log_prefix self +:+ ": (" +:+ hexify request +:+ ")") :: l,
     Raise e).
Proof.
  intros Hpre Hinv. unfold ProxyServicer.unary_unary.
  cbn [mbind Fn_bind fn_bind logging_info].
  rewrite Hpre. cbn [mbind Fn_bind fn_bind call]. rewrite Hinv.
  rewrite app_nil_r. reflexivity.
Qed.

Lemma unary_stream_not_opened (name : string) (request : Req)
    (l : list string) (e : exn) :
  ( pre_request (ProxyServicer.interceptor self) name request = (l, Raise e) \/
    exists preprocessed,
      pre_request (ProxyServicer.interceptor self) name request
        = (l, Return preprocessed) /\
      ProxyServicer.invoke_stream self name preprocessed = Raise e ) ->
  ProxyServicer.unary_stream self name request
  = mkRun (map Logged
             ((ProxyServicer.log_prefix self +:+ ": (" +:+ hexify request +:+ ")")
                :: l))
          (mkStream [] None) (pep479 (Raise e)).
Proof.
  intros [Hpre|(preprocessed & Hpre & Hinv)]; unfold ProxyServicer.unary_stream;
    cbn [mbind Fn_bind fn_bind logging_info value_of log_of fst snd];
    rewrite Hpre; cbn [mbind Fn_bind fn_bind call mret Fn_ret fn_ret snd fst];
    [|rewrite Hinv; cbn [fst snd]; rewrite !app_nil_r]; reflexivity.
Qed.

End Handlers.

(** X9: through a servicer bound to the discovery interceptor, when the
    sender is registered under an entry whose ports fit the port fields, the
    upstream node is invoked with the request whose sender carries the proxy
    coordinates of that entry (the identity and the other fields as
    received), and what the upstream answers, a response or an error, is
    what the unary handler returns.  When the sender is not registered the
    handler ends in the lookup's error, and when a port of its entry does not
    fit it ends in [ValueError], whatever the upstream would answer. *)
Theorem discovery_call_reaches_upstream_rewritten `{Proto} {Resp : Type}
    `{Hexify kademlia.Request, Hexify Resp,
      Str kademlia.Node, Str (Stream kademlia.Node)}
    (self : DockerNode)
    (servicer : ProxyServicer.t kademlia.Request Resp kademlia.Node)
    (name : string) (request : kademlia.Request) :
  ProxyServicer.interceptor servicer = KademliaInterceptor.hooks self ->
  ( forall node,
      endpoint_of self (kademlia.sender request) = Some node ->
      fits node = true ->
      value_of (ProxyServicer.unary_unary servicer name request)
      = ProxyServicer.invoke servicer name
          (kademlia.mkRequest (patched (kademlia.sender request) node)
             (kademlia.others request)) ) /\
  ( endpoint_of self (kademlia.sender request) = None ->
    value_of (ProxyServicer.unary_unary servicer name request)
    = Raise (KeyError (hex (kademlia.id (kademlia.sender request)))) ) /\
  ( forall node,
      endpoint_of self (kademlia.sender request) = Some node ->
      fits node = false ->
      value_of (ProxyServicer.unary_unary servicer name request)
      = Raise ValueError ).
Proof.
  intros Hhooks. split; [|split].
  - intros node Hnode Hfits.
    pose proof (kademlia_pre_request_resolved self name request node Hnode Hfits)
      as Hpre.
    destruct (KademliaInterceptor.pre_request self name request) as [l o] eqn:Hrun.
    cbn [value_of snd] in Hpre. subst o.
    destruct (ProxyServicer.invoke servicer name
                (kademlia.mkRequest (patched (kademlia.sender request) node)
                   (kademlia.others request))) as [response|e] eqn:Hinv.
    + rewrite (unary_unary_run servicer name request
                 (kademlia.mkRequest (patched (kademlia.sender request) node)
                    (kademlia.others request)) l response);
        [| rewrite Hhooks; exact Hrun | exact Hinv].
      rewrite Hhooks. reflexivity.
    + rewrite (unary_unary_invoke_raises servicer name request
                 (kademlia.mkRequest (patched (kademlia.sender request) node)
                    (kademlia.others request)) l e);
        [reflexivity | rewrite Hhooks; exact Hrun | exact Hinv].
  - intros Hnode.
    pose proof (kademlia_pre_request_unresolved self name request Hnode) as Hpre.
    destruct (KademliaInterceptor.pre_request self name request) as [l o] eqn:Hrun.
    cbn [value_of snd] in Hpre. subst o.
    rewrite (unary_unary_pre_raises servicer name request l
               (KeyError (hex (kademlia.id (kademlia.sender request)))));
      [reflexivity | rewrite Hhooks; exact Hrun].
  - intros node Hnode Hfits.
    pose proof (kademlia_pre_request_unfit self name request node Hnode Hfits)
      as Hpre.
    destruct (KademliaInterceptor.pre_request self name request) as [l o] eqn:Hrun.
    cbn [value_of snd] in Hpre. subst o.
    rewrite (unary_unary_pre_raises servicer name request l ValueError);
      [reflexivity | rewrite Hhooks; exact Hrun].
Qed.

(** X9 on the demo network: the upstream, which answers with the sender host
    it was given, sees the proxy host of node 1. *)
Lemma discovery_call_reaches_upstream_rewritten_witness :
  value_of (@ProxyServicer.unary_unary _ _ _ Demo.render
              Fixtures.kademlia_servicer "Ping" Demo.ping) = Return "proxy-1".
Proof.
  rewrite (proj1 (@discovery_call_reaches_upstream_rewritten Demo.proto string
                    Demo.render Demo.render Demo.show Demo.show Demo.node
                    Fixtures.kademlia_servicer "Ping" Demo.ping eq_refl)
             (mkNodeEndpoint "proxy-1" 40400 40404));
    vm_compute; reflexivity.
Defined.

(** X10: an error before the upstream has answered aborts the call in either
    handler, for every interceptor.  When [pre_request] raises, or when it
    returns and the upstream method raises, the unary handler ends in that
    exception with no line of [post_request] in its log, and the streaming
    handler, having pulled and yielded nothing, ends in it too, unless the
    exception is [StopIteration], which leaves the generator as the
    [RuntimeError] that replaces it. *)
Theorem errors_before_the_answer_abort_the_call
    {Req Resp Item : Type} `{Hexify Req}
    (self : ProxyServicer.t Req Resp Item) (name : string) (request : Req)
    (l : list string) (e : exn) :
  ( pre_request (ProxyServicer.interceptor self) name request = (l, Raise e) ->
    ProxyServicer.unary_unary self name request
    = ((ProxyServicer.log_prefix self +:+ ": (" +:+ hexify request +:+ ")") :: l,
       Raise e) /\
    result (ProxyServicer.unary_stream self name request) = pep479 (Raise e) /\
    traffic (trace (ProxyServicer.unary_stream self name request)) = [] ) /\
  ( forall preprocessed,
      pre_request (ProxyServicer.interceptor self) name request
        = (l, Return preprocessed) ->
      ( ProxyServicer.invoke self name preprocessed = Raise e ->
        ProxyServicer.unary_unary self name request
        = ((ProxyServicer.log_prefix self +:+ ": (" +:+ hexify request +:+ ")") :: l,
           Raise e) ) /\
      ( ProxyServicer.invoke_stream self name preprocessed = Raise e ->
        result (ProxyServicer.unary_stream self name request) = pep479 (Raise e) /\
        traffic (trace (ProxyServicer.unary_stream self name request)) = [] ) ) /\
  ( e <> StopIteration -> pep479 (Raise e) = Raise e ) /\
  pep479 (Raise StopIteration)
    = Raise (RuntimeError "generator raised StopIteration").
Proof.
  assert (Hquiet : forall (ls : list string),
             traffic (map (@Logged Item) ls) = []).
  { intros ls. rewrite <- (app_nil_r (map Logged ls)).
    exact (traffic_logged_app ls []). }
  split; [|split; [|split]].
  - intros Hpre. split; [apply unary_unary_pre_raises; exact Hpre|].
    rewrite (unary_stream_not_opened self name request l e (or_introl Hpre)).
    cbn [result trace]. split; [reflexivity | apply Hquiet].
  - intros preprocessed Hpre. split.
    + intros Hinv. exact (unary_unary_invoke_raises self name request _ l e Hpre Hinv).
    + intros Hinv.
      rewrite (unary_stream_not_opened self name request l e
                 (or_intror (ex_intro _ preprocessed (conj Hpre Hinv)))).
      cbn [result trace]. split; [reflexivity | apply Hquiet].
  - intros He. destruct e; (reflexivity || (exfalso; apply He; reflexivity)).
  - reflexivity.
Qed.

(** X10 on two servicers: a unary call to an upstream that refuses it, and a
    streaming call through the discovery interceptor from an unregistered
    peer. *)
Lemma errors_before_the_answer_abort_the_call_witness :
  value_of (@ProxyServicer.unary_unary _ _ _ Demo.render
              Fixtures.unreachable_servicer "Deploy" "request")
    = Raise (RpcError "UNAVAILABLE") /\
  result (@ProxyServicer.unary_stream _ _ _ Demo.render
            Fixtures.kademlia_servicer "StreamLookup" Demo.ping_from_stranger)
    = Raise (KeyError "ab") /\
  traffic (trace (@ProxyServicer.unary_stream _ _ _ Demo.render
                    Fixtures.kademlia_servicer "StreamLookup"
                    Demo.ping_from_stranger))
    = [].
Proof.
  split.
  - rewrite (proj1 (proj1 (proj2 (@errors_before_the_answer_abort_the_call
               string string string Demo.render Fixtures.unreachable_servicer
               "Deploy" "request" ["PRE REQUEST: Deploy(<message>)"]
               (RpcError "UNAVAILABLE")))
               "request" eq_refl) eq_refl).
    reflexivity.
  - apply (proj2 (proj1 (@errors_before_the_answer_abort_the_call
               _ string _ Demo.render Fixtures.kademlia_servicer
               "StreamLookup" Demo.ping_from_stranger
               ["KADEMLIA PRE REQUEST: <= StreamLookup(<message>)"]
               (KeyError "ab")) eq_refl)).
Defined.

(** ** Observe-only proxies *)

Lemma logging_stream_run {Req Item : Type} `{Hexify Req, Str (Stream Item)}
    (name : string) (request : Req) (stream : Stream Item) :
  traffic (trace (LoggingInterceptor.post_request_stream name request stream))
    = one_at_a_time (fun x => x) (items stream) /\
  result (LoggingInterceptor.post_request_stream name request stream)
    = exhausted (ending stream).
Proof.
  destruct (yield_from_run stream) as (Ht & Hr & _).
  unfold LoggingInterceptor.post_request_stream.
  rewrite generator_run, log_then_run. cbn [trace traffic result].
  rewrite Hr, pep479_exhausted. split; [exact Ht | reflexivity].
Qed.

Lemma base_stream_run {Req Item : Type}
    (name : string) (request : Req) (stream : Stream Item) :
  traffic (trace (Interceptor.post_request_stream name request stream))
    = one_at_a_time (fun x => x) (items stream) /\
  result (Interceptor.post_request_stream name request stream)
    = exhausted (ending stream).
Proof.
  destruct (yield_from_run stream) as (Ht & Hr & _).
  unfold Interceptor.post_request_stream.
  rewrite generator_run. cbn [trace result].
  rewrite Hr, pep479_exhausted. split; [exact Ht | reflexivity].
Qed.

(** X11: a servicer bound to the logging interceptor, or to the base
    interceptor, is transparent.  Its unary handler returns exactly what the
    upstream method returns or raises on the request as received, and its
    streaming handler relays the upstream stream element by element, each
    one before the next is pulled, and ends as the upstream ends. *)
Theorem observe_only_servicer_is_transparent
    {Req Resp Item : Type} `{Hexify Req, Hexify Resp, Str (Stream Item)}
    (self : ProxyServicer.t Req Resp Item) (name : string) (request : Req) :
  ProxyServicer.interceptor self = LoggingInterceptor.hooks \/
  ProxyServicer.interceptor self = Interceptor.hooks ->
  value_of (ProxyServicer.unary_unary self name request)
    = ProxyServicer.invoke self name request /\
  ( forall response_stream,
      ProxyServicer.invoke_stream self name request = Return response_stream ->
      traffic (trace (ProxyServicer.unary_stream self name request))
        = one_at_a_time (fun x => x) (items response_stream) /\
      emitted (trace (ProxyServicer.unary_stream self name request))
        = items response_stream /\
      result (ProxyServicer.unary_stream self name request)
        = exhausted (ending response_stream) ).
Proof.
  intros Hhooks.
  assert (Hpre : exists l,
             pre_request (ProxyServicer.interceptor self) name request
             = (l, Return request)).
  { destruct Hhooks as [-> | ->]; eexists; reflexivity. }
  destruct Hpre as [l Hpre]. split.
  - destruct (ProxyServicer.invoke self name request) as [response|e] eqn:Hinv.
    + rewrite (unary_unary_run self name request request l response Hpre Hinv).
      destruct Hhooks as [-> | ->]; reflexivity.
    + rewrite (unary_unary_invoke_raises self name request request l e Hpre Hinv).
      reflexivity.
  - intros response_stream Hinv.
    rewrite (unary_stream_run self name request l request response_stream Hpre Hinv).
    cbn [trace result]. rewrite traffic_logged_app.
    assert (Hrun :
      traffic (trace (post_request_stream (ProxyServicer.interceptor self) name
                        request response_stream))
        = one_at_a_time (fun x => x) (items response_stream) /\
      result (post_request_stream (ProxyServicer.interceptor self) name
                request response_stream)
        = exhausted (ending response_stream)).
    { destruct Hhooks as [-> | ->];
        [apply logging_stream_run | apply base_stream_run]. }
    destruct Hrun as [Ht Hr]. rewrite Hr, pep479_exhausted.
    split; [exact Ht|]. split; [|reflexivity].
    rewrite emitted_logged_app.
    destruct (emitted_of_traffic _ _ _ Ht) as [He _]. rewrite He. apply map_id.
Qed.

(** X11 on a servicer bound to the logging interceptor. *)
Lemma observe_only_servicer_is_transparent_witness :
  value_of (@ProxyServicer.unary_unary _ _ _ Demo.render
              Fixtures.logging_servicer "Deploy" "request")
    = Return "Deploy answered request" /\
  emitted (trace (@ProxyServicer.unary_stream _ _ _ Demo.render
                    Fixtures.logging_servicer "StreamBlockInfos" "request"))
    = ["a"; "b"].
Proof.
  destruct (@observe_only_servicer_is_transparent string string string
              Demo.render Demo.render Demo.show Fixtures.logging_servicer)
    with (name := "Deploy") (request := "request") as [Hunary _];
    [left; reflexivity|].
  destruct (@observe_only_servicer_is_transparent string string string
              Demo.render Demo.render Demo.show Fixtures.logging_servicer)
    with (name := "StreamBlockInfos") (request := "request") as [_ Hstream];
    [left; reflexivity|].
  split.
  - rewrite Hunary. reflexivity.
  - apply (Hstream (mkStream ["a"; "b"] None) eq_refl).
Defined.

(** ** The two operations of the gossip service that are rewritten *)

(** X12: a servicer bound to the gossip interceptor answers the attribute
    "GetBlockChunked" with its streaming handler, and that handler, on an
    upstream answer of two or more chunks that decode into a block the
    interceptor can re-sign, relays exactly the rebuilt header chunk and the
    rebuilt data chunk, leaves every further upstream chunk unpulled and ends
    normally. *)
Theorem block_fetch_through_the_servicer
    `{Proto} `{!consensus.Wire} `{!Lz4Block} `{!Crypto} {Resp : Type}
    `{Hexify gossiping.Request, Hexify Resp,
      Hexify gossiping.ChunkHeader, Hexify gossiping.Chunk}
    (self : DockerNode)
    (servicer : ProxyServicer.t gossiping.Request Resp gossiping.Chunk)
    (request : gossiping.Request) (response : Stream gossiping.Chunk)
    (c1 c2 : gossiping.Chunk) (rest : list gossiping.Chunk) :
  ProxyServicer.interceptor servicer = GossipInterceptor.hooks self ->
  ProxyServicer.invoke_stream servicer "GetBlockChunked" request = Return response ->
  items response = c1 :: c2 :: rest ->
  fetch_succeeds self c1 c2 ->
  exists handler block',
    ProxyServicer.__getattr__ servicer "GetBlockChunked"
      = ProxyServicer.UnaryStream handler /\
    decode_and_resign self c1 c2 = Return block' /\
    emitted (trace (handler request))
      = [new_header_chunk block' c1; new_data_chunk block' c2] /\
    upstream (handler request) = mkStream rest (ending response) /\
    result (handler request) = Return tt.
Proof.
  intros Hhooks Hinv Hitems Hok.
  destruct (decode_and_resign_succeeds self c1 c2 Hok) as [block' Hb].
  exists (ProxyServicer.unary_stream servicer "GetBlockChunked"), block'.
  split; [reflexivity|]. split; [exact Hb|].
  rewrite (unary_stream_run servicer "GetBlockChunked" request
             ["GOSSIP PRE REQUEST: <= " +:+ "GetBlockChunked" +:+ "("
              +:+ hexify request +:+ ")"] request response);
    [| rewrite Hhooks; reflexivity | exact Hinv].
  rewrite Hhooks. cbn [post_request_stream GossipInterceptor.hooks].
  destruct response as [xs e]. cbn [items ending] in *. subst xs.
  rewrite fetch_run, get_block_chunked_outcome, Hb.
  cbn [trace upstream result]. rewrite emitted_logged_app.
  repeat split.
Qed.

(** X12 on the demo network. *)
Lemma block_fetch_through_the_servicer_witness :
  exists handler,
    @ProxyServicer.__getattr__ _ _ _ Demo.render Fixtures.gossip_servicer
      "GetBlockChunked" = ProxyServicer.UnaryStream handler /\
    length (emitted (trace (handler Demo.fetch_request))) = 2%nat /\
    result (handler Demo.fetch_request) = Return tt.
Proof.
  destruct (@block_fetch_through_the_servicer Demo.proto Demo.wire Demo.lz4
              Demo.crypto string Demo.render Demo.render Demo.render Demo.render
              Demo.node Fixtures.gossip_servicer Demo.fetch_request
              Fixtures.two_chunks Demo.header_chunk Demo.data_chunk []
              eq_refl eq_refl eq_refl)
    as (handler & block' & Hattr & _ & Hemitted & _ & Hresult).
  - exists [x01; x02; x03], (Demo.sample_block [x01; x02; x03]), Demo.key, Demo.key.
    repeat split; try reflexivity. discriminate.
  - exists handler. split; [exact Hattr|]. split; [|exact Hresult].
    rewrite Hemitted. reflexivity.
Defined.

(** X13: a servicer bound to the gossip interceptor answers the attribute
    "NewBlocks" with its unary handler.  For a sender registered under an
    entry whose ports fit the port fields, that handler invokes the upstream
    method with the announcement whose sender carries the proxy coordinates
    of the entry and whose block hashes are as received, and returns what the
    upstream answers; when a port of the entry does not fit, it ends in
    [ValueError] whatever the upstream would answer. *)
Theorem announcement_through_the_servicer
    `{Proto} `{!consensus.Wire} `{!Lz4Block} `{!Crypto} {Resp : Type}
    `{Hexify gossiping.Request, Hexify Resp,
      Hexify gossiping.ChunkHeader, Hexify gossiping.Chunk}
    (self : DockerNode)
    (servicer : ProxyServicer.t gossiping.Request Resp gossiping.Chunk)
    (sender : kademlia.Node) (block_hashes : list bytes) (node : NodeEndpoint) :
  ProxyServicer.interceptor servicer = GossipInterceptor.hooks self ->
  endpoint_of self sender = Some node ->
  exists handler,
    ProxyServicer.__getattr__ servicer "NewBlocks"
      = ProxyServicer.UnaryUnary handler /\
    ( fits node = true ->
      value_of (handler (gossiping.NewBlocksRequest sender block_hashes))
      = ProxyServicer.invoke servicer "NewBlocks"
          (gossiping.NewBlocksRequest (patched sender node) block_hashes) ) /\
    ( fits node = false ->
      value_of (handler (gossiping.NewBlocksRequest sender block_hashes))
      = Raise ValueError ).
Proof.
  intros Hhooks Hnode.
  exists (ProxyServicer.unary_unary servicer "NewBlocks").
  split; [reflexivity|]. split.
  - intros Hfits.
    pose proof (gossip_new_blocks_resolved self sender block_hashes node
                  Hnode Hfits) as Hpre.
    destruct (GossipInterceptor.pre_request self "NewBlocks"
                (gossiping.NewBlocksRequest sender block_hashes))
      as [l o] eqn:Hrun.
    cbn [value_of snd] in Hpre. subst o.
    destruct (ProxyServicer.invoke servicer "NewBlocks"
                (gossiping.NewBlocksRequest (patched sender node) block_hashes))
      as [response|e] eqn:Hinv.
    + rewrite (unary_unary_run servicer "NewBlocks" _
                 (gossiping.NewBlocksRequest (patched sender node) block_hashes)
                 l response);
        [| rewrite Hhooks; exact Hrun | exact Hinv].
      rewrite Hhooks. reflexivity.
    + rewrite (unary_unary_invoke_raises servicer "NewBlocks" _
                 (gossiping.NewBlocksRequest (patched sender node) block_hashes)
                 l e);
        [reflexivity | rewrite Hhooks; exact Hrun | exact Hinv].
  - intros Hfits.
    pose proof (gossip_new_blocks_unfit self sender block_hashes node
                  Hnode Hfits) as Hpre.
    destruct (GossipInterceptor.pre_request self "NewBlocks"
                (gossiping.NewBlocksRequest sender block_hashes))
      as [l o] eqn:Hrun.
    cbn [value_of snd] in Hpre. subst o.
    rewrite (unary_unary_pre_raises servicer "NewBlocks" _ l ValueError);
      [reflexivity | rewrite Hhooks; exact Hrun].
Qed.

(** X13 on the demo network: the upstream sees the proxy host of node 1. *)
Lemma announcement_through_the_servicer_witness :
  exists handler,
    @ProxyServicer.__getattr__ _ _ _ Demo.render Fixtures.gossip_servicer
      "NewBlocks" = ProxyServicer.UnaryUnary handler /\
    value_of (handler Demo.announcement) = Return "proxy-1".
Proof.
  destruct (@announcement_through_the_servicer Demo.proto Demo.wire Demo.lz4
              Demo.crypto string Demo.render Demo.render Demo.render Demo.render
              Demo.node Fixtures.gossip_servicer Demo.peer1 [[x0f; x44]]
              (mkNodeEndpoint "proxy-1" 40400 40404) eq_refl)
    as (handler & Hattr & Hvalue & _).
  - vm_compute. reflexivity.
  - exists handler. split; [exact Hattr|].
    unfold Demo.announcement. rewrite (Hvalue eq_refl). reflexivity.
Defined.

(** * The text helpers *)

Section Splitting.
Import Text.
Variable sep : ascii -> bool.

Lemma string_app_assoc (a b c : string) : (a +:+ b) +:+ c = a +:+ (b +:+ c).
Proof.
  induction a as [|x a IH]; [reflexivity|].
  rewrite !append_String, IH. reflexivity.
Qed.

Lemma string_app_nil_r (a : string) : a +:+ EmptyString = a.
Proof.
  induction a as [|x a IH]; [reflexivity|]. rewrite append_String, IH. reflexivity.
Qed.

(** The pieces that survive [filter(None, ...)]. *)
Lemma pieces_after_run (s : string) :
  List.filter nonempty (split_runs sep s None)
  = List.filter nonempty (split_runs sep s (Some EmptyString)).
Proof. destruct s as [|c s]; cbn; [reflexivity|]. destruct (sep c); reflexivity. Qed.

Lemma split_runs_word (w s p : string) :
  all_chars (fun c => negb (sep c)) w = true ->
  split_runs sep (w +:+ s) (Some p) = split_runs sep s (Some (p +:+ w)).
Proof.
  revert p. induction w as [|c w IH]; intros p Hw.
  - rewrite string_app_nil_r. reflexivity.
  - cbn [all_chars] in Hw. apply andb_true_iff in Hw as [Hc Hw].
    apply negb_true_iff in Hc. rewrite append_String. cbn [split_runs].
    rewrite Hc. cbn [default]. rewrite (IH _ Hw), string_app_assoc. reflexivity.
Qed.

Lemma pieces_skip (w s : string) :
  all_chars sep w = true ->
  List.filter nonempty (split_runs sep (w +:+ s) (Some EmptyString))
  = List.filter nonempty (split_runs sep s (Some EmptyString)).
Proof.
  induction w as [|c w IH]; intros Hw; [reflexivity|].
  cbn [all_chars] in Hw. apply andb_true_iff in Hw as [Hc Hw].
  rewrite append_String. cbn [split_runs]. rewrite Hc. cbn [List.filter nonempty].
  rewrite pieces_after_run. exact (IH Hw).
Qed.

Lemma pieces_word (w s : string) :
  all_chars (fun c => negb (sep c)) w = true ->
  nonempty w = true ->
  at_boundary sep s = true ->
  List.filter nonempty (split_runs sep (w +:+ s) (Some EmptyString))
  = w :: List.filter nonempty (split_runs sep s (Some EmptyString)).
Proof.
  intros Hw Hne Hs. rewrite (split_runs_word w s EmptyString Hw).
  change (EmptyString +:+ w) with w.
  destruct s as [|c s]; cbn [at_boundary] in Hs.
  - cbn. rewrite Hne. reflexivity.
  - cbn [split_runs]. rewrite Hs. cbn [List.filter nonempty]. rewrite Hne.
    rewrite pieces_after_run. reflexivity.
Qed.

(** A separator cuts the pieces of what stands before it from the pieces of
    what follows. *)
Lemma split_runs_cut (front s : string) (c : ascii) (st : option string) :
  sep c = true ->
  exists before,
    split_runs sep (front +:+ String c s) st = before ++ split_runs sep s None.
Proof.
  intros Hc. revert st. induction front as [|d front IH]; intros st.
  - change (EmptyString +:+ String c s) with (String c s). cbn [split_runs].
    rewrite Hc. destruct st as [p|]; [exists [p] | exists []]; reflexivity.
  - rewrite append_String. cbn [split_runs]. destruct (sep d).
    + destruct st as [p|].
      * destruct (IH None) as [before Hb]. exists (p :: before).
        rewrite Hb. reflexivity.
      * exact (IH None).
    + exact (IH _).
Qed.

Lemma pieces_of_separators (s : string) :
  all_chars sep s = true ->
  List.filter nonempty (split_runs sep s (Some EmptyString)) = [].
Proof.
  intros Hs. rewrite <- (string_app_nil_r s), (pieces_skip s EmptyString Hs).
  reflexivity.
Qed.

End Splitting.

Lemma substring_prefix (a b : string) :
  substring 0 (String.length a) (a +:+ b) = a.
Proof.
  induction a as [|x a IH].
  - destruct b; reflexivity.
  - rewrite append_String. cbn [String.length substring]. rewrite IH. reflexivity.
Qed.

Lemma string_length_app (a b : string) :
  String.length (a +:+ b) = (String.length a + String.length b)%nat.
Proof.
  induction a as [|x a IH]; [reflexivity|].
  rewrite append_String. cbn [String.length]. rewrite IH. reflexivity.
Qed.

Lemma last_word_of (prefix word tail : string) :
  prefix = EmptyString \/
  (exists front c,
     prefix = front +:+ String c EmptyString /\ Text.is_nonword c = true) ->
  Text.all_chars Text.is_word word = true ->
  Text.nonempty word = true ->
  Text.all_chars Text.is_nonword tail = true ->
  last (List.filter Text.nonempty
          (Text.re_split_nonword (prefix +:+ word +:+ tail)))
  = Some word.
Proof.
  intros Hprefix Hword Hne Htail. unfold Text.re_split_nonword.
  assert (Hw : Text.all_chars (fun c => negb (Text.is_nonword c)) word = true).
  { clear -Hword. induction word as [|c w IH]; [reflexivity|].
    cbn [Text.all_chars] in *. apply andb_true_iff in Hword as [Hc Hw].
    unfold Text.is_nonword at 1. rewrite Hc, (IH Hw). reflexivity. }
  assert (Hb : Text.at_boundary Text.is_nonword tail = true).
  { destruct tail as [|c t]; [reflexivity|]. cbn [Text.all_chars] in Htail.
    apply andb_true_iff in Htail as [Hc _]. exact Hc. }
  assert (Hlast :
    List.filter Text.nonempty
      (Text.split_runs Text.is_nonword (word +:+ tail) (Some EmptyString))
    = [word]).
  { rewrite (pieces_word _ word tail Hw Hne Hb),
      (pieces_of_separators _ tail Htail). reflexivity. }
  destruct Hprefix as [-> | (front & c & -> & Hc)].
  - change (EmptyString +:+ word +:+ tail) with (word +:+ tail).
    rewrite Hlast. reflexivity.
  - rewrite string_app_assoc. rewrite append_String.
    change (EmptyString +:+ word +:+ tail) with (word +:+ tail).
    destruct (split_runs_cut Text.is_nonword front (word +:+ tail) c
                (Some EmptyString) Hc) as [before ->].
    rewrite List.filter_app, pieces_after_run, Hlast, last_app. reflexivity.
Qed.

(** X14: [stub_name] returns the last word of the object's text without its
    last eleven characters.  When the text ends, up to non-word characters,
    in a word [name ++ "ServiceStub"] that follows a non-word character or
    starts the text, the result is [name]; the removed characters are not
    compared with "ServiceStub", and a last word of eleven characters or
    fewer gives the empty string. *)
Theorem stub_name_of_last_word {A : Type} `{Str A} (o : A)
    (prefix word tail : string) :
  str o = prefix +:+ word +:+ tail ->
  prefix = EmptyString \/
  (exists front c,
     prefix = front +:+ String c EmptyString /\ Text.is_nonword c = true) ->
  Text.all_chars Text.is_word word = true ->
  Text.nonempty word = true ->
  Text.all_chars Text.is_nonword tail = true ->
  stub_name o = Return (Text.drop_right 11 word) /\
  ( forall name, word = name +:+ "ServiceStub" -> stub_name o = Return name ) /\
  ( forall name removed,
      word = name +:+ removed -> String.length removed = 11%nat ->
      stub_name o = Return name ) /\
  ( (String.length word <= 11)%nat -> stub_name o = Return EmptyString ).
Proof.
  intros Hstr Hprefix Hword Hne Htail.
  assert (Hrun : stub_name o = Return (Text.drop_right 11 word)).
  { unfold stub_name. rewrite Hstr, (last_word_of prefix word tail); auto. }
  assert (Hremoved : forall name removed,
            word = name +:+ removed -> String.length removed = 11%nat ->
            Text.drop_right 11 word = name).
  { intros name removed -> Hlen. unfold Text.drop_right.
    rewrite string_length_app, Hlen.
    replace (String.length name + 11 - 11)%nat with (String.length name) by lia.
    apply substring_prefix. }
  split; [exact Hrun|]. split; [|split].
  - intros name Hname. rewrite Hrun. f_equal.
    apply (Hremoved name "ServiceStub" Hname). reflexivity.
  - intros name removed Hname Hlen. rewrite Hrun. f_equal.
    exact (Hremoved name removed Hname Hlen).
  - intros Hshort. rewrite Hrun. f_equal. unfold Text.drop_right.
    replace (String.length word - 11)%nat with 0%nat by lia.
    destruct word; reflexivity.
Qed.

(** X14 on the three stub classes the factories bind. *)
Lemma stub_name_of_last_word_witness :
  stub_name Runtime.CasperServiceStub = Return "Casper" /\
  stub_name Runtime.GossipServiceStub = Return "Gossip" /\
  stub_name Runtime.KademliaServiceStub = Return "Kademlia".
Proof.
  split; [|split].
  - apply (proj1 (proj2 (@stub_name_of_last_word _ Runtime.ServiceStub_str
             Runtime.CasperServiceStub
             "<class 'casperlabs_client.casper_pb2_grpc." "CasperServiceStub" "'>"
             eq_refl
             (or_intror (ex_intro _ "<class 'casperlabs_client.casper_pb2_grpc"
                (ex_intro _ "."%char (conj eq_refl eq_refl))))
             eq_refl eq_refl eq_refl))).
    reflexivity.
  - apply (proj1 (proj2 (@stub_name_of_last_word _ Runtime.ServiceStub_str
             Runtime.GossipServiceStub
             "<class 'casperlabs_client.gossiping_pb2_grpc." "GossipServiceStub" "'>"
             eq_refl
             (or_intror (ex_intro _ "<class 'casperlabs_client.gossiping_pb2_grpc"
                (ex_intro _ "."%char (conj eq_refl eq_refl))))
             eq_refl eq_refl eq_refl))).
    reflexivity.
  - apply (proj1 (proj2 (@stub_name_of_last_word _ Runtime.ServiceStub_str
             Runtime.KademliaServiceStub
             "<class 'casperlabs_client.kademlia_pb2_grpc." "KademliaServiceStub" "'>"
             eq_refl
             (or_intror (ex_intro _ "<class 'casperlabs_client.kademlia_pb2_grpc"
                (ex_intro _ "."%char (conj eq_refl eq_refl))))
             eq_refl eq_refl eq_refl))).
    reflexivity.
Defined.

Lemma split_two_tokens (w0 t1 w1 t2 rest : string) :
  Text.all_chars Text.isspace w0 = true ->
  Text.all_chars (fun c => negb (Text.isspace c)) t1 = true ->
  Text.nonempty t1 = true ->
  Text.all_chars Text.isspace w1 = true ->
  Text.nonempty w1 = true ->
  Text.all_chars (fun c => negb (Text.isspace c)) t2 = true ->
  Text.nonempty t2 = true ->
  Text.at_boundary Text.isspace rest = true ->
  exists more, Text.split (w0 +:+ t1 +:+ w1 +:+ t2 +:+ rest) = t1 :: t2 :: more.
Proof.
  intros Hw0 Ht1 Hn1 Hw1 Hnw1 Ht2 Hn2 Hrest. unfold Text.split.
  assert (Hb : Text.at_boundary Text.isspace (w1 +:+ t2 +:+ rest) = true).
  { destruct w1 as [|c w1]; [discriminate|]. rewrite append_String.
    cbn [Text.all_chars] in Hw1. apply andb_true_iff in Hw1 as [Hc _]. exact Hc. }
  rewrite (pieces_skip _ w0 _ Hw0), (pieces_word _ t1 _ Ht1 Hn1 Hb),
    (pieces_skip _ w1 _ Hw1), (pieces_word _ t2 _ Ht2 Hn2 Hrest).
  eexists. reflexivity.
Qed.

Lemma split_one_token (w0 t1 w1 : string) :
  Text.all_chars Text.isspace w0 = true ->
  Text.all_chars (fun c => negb (Text.isspace c)) t1 = true ->
  Text.all_chars Text.isspace w1 = true ->
  Text.split (w0 +:+ t1 +:+ w1) !! 1%nat = None.
Proof.
  intros Hw0 Ht1 Hw1. unfold Text.split. rewrite (pieces_skip _ w0 _ Hw0).
  destruct t1 as [|c t1].
  - change (EmptyString +:+ w1) with w1.
    rewrite (pieces_of_separators _ w1 Hw1). reflexivity.
  - assert (Hb : Text.at_boundary Text.isspace w1 = true).
    { destruct w1 as [|d w1]; [reflexivity|]. cbn [Text.all_chars] in Hw1.
      apply andb_true_iff in Hw1 as [Hd _]. exact Hd. }
    rewrite (pieces_word _ (String c t1) w1 Ht1 eq_refl Hb),
      (pieces_of_separators _ w1 Hw1). reflexivity.
Qed.

(** X15: [fun_name] returns the text of a falsy object as it is, and for a
    truthy object the second whitespace-separated token of its text: with
    the text made of optional leading whitespace, a first token, whitespace,
    a second token, and then nothing or whitespace followed by anything, the
    result is that second token. *)
Theorem fun_name_is_the_second_token {A : Type} `{Truthy A, Str A} (o : A)
    (w0 t1 w1 t2 rest : string) :
  str o = w0 +:+ t1 +:+ w1 +:+ t2 +:+ rest ->
  Text.all_chars Text.isspace w0 = true ->
  Text.all_chars (fun c => negb (Text.isspace c)) t1 = true ->
  Text.nonempty t1 = true ->
  Text.all_chars Text.isspace w1 = true ->
  Text.nonempty w1 = true ->
  Text.all_chars (fun c => negb (Text.isspace c)) t2 = true ->
  Text.nonempty t2 = true ->
  Text.at_boundary Text.isspace rest = true ->
  fun_name o = Return (if truthy o then t2 else str o).
Proof.
  intros Hstr Hw0 Ht1 Hn1 Hw1 Hnw1 Ht2 Hn2 Hrest. unfold fun_name.
  destruct (truthy o); cbn [negb]; [|reflexivity].
  rewrite Hstr.
  destruct (split_two_tokens w0 t1 w1 t2 rest Hw0 Ht1 Hn1 Hw1 Hnw1 Ht2 Hn2 Hrest)
    as [more ->].
  reflexivity.
Qed.

(** X15 on the text of a function object. *)
Lemma fun_name_is_the_second_token_witness :
  @fun_name _ Fixtures.PyObject_truthy Fixtures.PyObject_str
    Fixtures.function_object = Return "fun_name".
Proof.
  apply (@fun_name_is_the_second_token _ Fixtures.PyObject_truthy
           Fixtures.PyObject_str Fixtures.function_object
           "" "<function" " " "fun_name" " at 0x7f1323c72a20>");
    reflexivity.
Defined.

(** X16: the two helpers raise [IndexError] on a text that is too poor.
    [stub_name] does so when the text holds no word character at all;
    [fun_name] does so for a truthy object whose text holds fewer than two
    whitespace-separated tokens, while a falsy object is never split. *)
Theorem helpers_raise_on_poor_text {A : Type} `{Truthy A, Str A} (o : A) :
  ( Text.all_chars Text.is_nonword (str o) = true ->
    stub_name o = Raise IndexError ) /\
  ( forall w0 t1 w1,
      truthy o = true ->
      str o = w0 +:+ t1 +:+ w1 ->
      Text.all_chars Text.isspace w0 = true ->
      Text.all_chars (fun c => negb (Text.isspace c)) t1 = true ->
      Text.all_chars Text.isspace w1 = true ->
      fun_name o = Raise IndexError ) /\
  ( truthy o = false -> fun_name o = Return (str o) ).
Proof.
  split; [|split].
  - intros Hstr. unfold stub_name, Text.re_split_nonword.
    rewrite (pieces_of_separators _ (str o) Hstr). reflexivity.
  - intros w0 t1 w1 Htruthy Hstr Hw0 Ht1 Hw1. unfold fun_name.
    rewrite Htruthy, Hstr, (split_one_token w0 t1 w1 Hw0 Ht1 Hw1). reflexivity.
  - intros Hfalsy. unfold fun_name. rewrite Hfalsy. reflexivity.
Qed.

(** X16 on three objects: one whose text is punctuation only, one whose text
    is a single word, and [None]. *)
Lemma helpers_raise_on_poor_text_witness :
  @stub_name _ Fixtures.PyObject_str Fixtures.punctuation_object = Raise IndexError /\
  @fun_name _ Fixtures.PyObject_truthy Fixtures.PyObject_str
    Fixtures.one_word_object = Raise IndexError /\
  @fun_name _ Fixtures.PyObject_truthy Fixtures.PyObject_str
    Fixtures.none_object = Return "None".
Proof.
  split; [|split].
  - apply (proj1 (@helpers_raise_on_poor_text _ Fixtures.PyObject_truthy
                    Fixtures.PyObject_str Fixtures.punctuation_object)).
    reflexivity.
  - apply (proj1 (proj2 (@helpers_raise_on_poor_text _ Fixtures.PyObject_truthy
                    Fixtures.PyObject_str Fixtures.one_word_object))
             " " "interceptor" " "); reflexivity.
  - apply (proj2 (proj2 (@helpers_raise_on_poor_text _ Fixtures.PyObject_truthy
                    Fixtures.PyObject_str Fixtures.none_object))).
    reflexivity.
Defined.

(** * Construction of the runtime *)

Section Construction.
Import Runtime.
Context {Stub Icpt : Type} `{Str Stub, Str Icpt}.

Lemma read_binary_found (fs : FileSystem) (path : string) (content : bytes) :
  fs !! path = Some content -> read_binary fs (Some path) = inr content.
Proof. intros Hf. unfold read_binary. rewrite Hf. reflexivity. Qed.

Lemma read_binary_fails (fs : FileSystem) (file_name : option string) :
  (file_name = None \/ exists path, file_name = Some path /\ fs !! path = None) ->
  exists e, read_binary fs file_name = inl e.
Proof.
  intros [-> | (path & -> & Hf)]; unfold read_binary; [|rewrite Hf];
    eexists; reflexivity.
Qed.

End Construction.

(** X17: a servicer constructed with [encrypted_connection=False] never
    touches the file system.  Whatever files exist and whatever credential
    arguments are passed (also none), construction succeeds as soon as
    [stub_name] does; the object has no credentials, its channel is the
    insecure channel to "host:port", and the one line logged is the log
    prefix "PROXY host:port on proxy_port stub" followed by the interceptor's
    name. *)
Theorem plaintext_servicer_needs_no_file {Stub Icpt : Type} `{Str Stub, Str Icpt}
    (fs : Runtime.FileSystem) (node_host : option string)
    (node_port proxy_port : option Z)
    (certificate_file key_file node_id : option string)
    (service_stub : Stub) (interceptor : Icpt) (short_name : string) :
  stub_name service_stub = Return short_name ->
  exists servicer,
    Runtime.init fs node_host node_port proxy_port false
      certificate_file key_file node_id service_stub interceptor
    = ([Runtime.log_prefix servicer +:+ ", interceptor: " +:+ str interceptor],
       inr servicer) /\
    Runtime.log_prefix servicer
      = "PROXY" +:+ " " +:+ Text.format_str node_host +:+ ":"
        +:+ Text.format_int node_port +:+ " on " +:+ Text.format_int proxy_port
        +:+ " " +:+ short_name /\
    Runtime.encrypted_connection servicer = false /\
    Runtime.channel servicer
      = Runtime.insecure_channel
          (Text.format_str node_host +:+ ":" +:+ Text.format_int node_port).
Proof.
  intros Hstub. unfold Runtime.init. rewrite Hstub.
  exists (Runtime.mkServicer node_host node_port proxy_port certificate_file
            key_file node_id service_stub interceptor
            (Text.format_str node_host +:+ ":" +:+ Text.format_int node_port)
            None
            ("PROXY" +:+ " " +:+ Text.format_str node_host +:+ ":"
             +:+ Text.format_int node_port +:+ " on "
             +:+ Text.format_int proxy_port +:+ " " +:+ short_name)).
  repeat split.
Qed.

(** X17 for the discovery stub and interceptor, on a host without files. *)
Lemma plaintext_servicer_needs_no_file_witness :
  exists servicer,
    snd (Runtime.init ∅ (Some "127.0.0.1") (Some 50404%Z) (Some 40404%Z) false
           None None None Runtime.KademliaServiceStub
           (Runtime.mkInterceptorObject Runtime.Kademlia Demo.node))
      = inr servicer /\
    Runtime.log_prefix servicer = "PROXY 127.0.0.1:50404 on 40404 Kademlia" /\
    Runtime.channel servicer = Runtime.insecure_channel "127.0.0.1:50404".
Proof.
  destruct (@plaintext_servicer_needs_no_file _ _ Runtime.ServiceStub_str
              Runtime.InterceptorObject_str ∅ (Some "127.0.0.1") (Some 50404%Z)
              (Some 40404%Z) None None None Runtime.KademliaServiceStub
              (Runtime.mkInterceptorObject Runtime.Kademlia Demo.node)
              "Kademlia" eq_refl)
    as (servicer & Hinit & Hprefix & _ & Hchannel).
  exists servicer. rewrite Hinit. repeat split; assumption.
Defined.

(** X18: a servicer constructed with [encrypted_connection=True] fails, with
    nothing logged and no object, when the certificate file is not given or
    does not exist, or when the certificate exists and the key file is not
    given or does not exist.  The certificate is read first, so with both
    missing the failure names the certificate; the failure comes before
    [stub_name] is evaluated. *)
Theorem encrypted_servicer_needs_its_files {Stub Icpt : Type} `{Str Stub, Str Icpt}
    (fs : Runtime.FileSystem) (node_host : option string)
    (node_port proxy_port : option Z)
    (certificate_file key_file node_id : option string)
    (service_stub : Stub) (interceptor : Icpt) :
  ( certificate_file = None ->
    Runtime.init fs node_host node_port proxy_port true
      certificate_file key_file node_id service_stub interceptor
    = ([], inl Runtime.TypeError) ) /\
  ( forall path,
      certificate_file = Some path -> fs !! path = None ->
      Runtime.init fs node_host node_port proxy_port true
        certificate_file key_file node_id service_stub interceptor
      = ([], inl (Runtime.FileNotFoundError path)) ) /\
  ( forall path certificate,
      certificate_file = Some path -> fs !! path = Some certificate ->
      ( key_file = None ->
        Runtime.init fs node_host node_port proxy_port true
          certificate_file key_file node_id service_stub interceptor
        = ([], inl Runtime.TypeError) ) /\
      ( forall key_path,
          key_file = Some key_path -> fs !! key_path = None ->
          Runtime.init fs node_host node_port proxy_port true
            certificate_file key_file node_id service_stub interceptor
          = ([], inl (Runtime.FileNotFoundError key_path)) ) ).
Proof.
  split; [|split].
  - intros ->. reflexivity.
  - intros path -> Hf. unfold Runtime.init, Runtime.read_binary. rewrite Hf.
    reflexivity.
  - intros path certificate -> Hf. split.
    + intros ->. unfold Runtime.init, Runtime.read_binary. rewrite Hf. reflexivity.
    + intros key_path -> Hk. unfold Runtime.init, Runtime.read_binary.
      rewrite Hf, Hk. reflexivity.
Qed.

(** X18 on the fixture host: no certificate argument, and a key file that
    does not exist. *)
Lemma encrypted_servicer_needs_its_files_witness :
  Runtime.init Fixtures.files (Some "localhost") (Some 50400%Z) (Some 40400%Z) true
    None None (Some "4c19") Runtime.GossipServiceStub
    (Runtime.mkInterceptorObject Runtime.Gossip Demo.node)
  = ([], inl Runtime.TypeError) /\
  Runtime.init Fixtures.files (Some "localhost") (Some 50400%Z) (Some 40400%Z) true
    (Some "node.certificate.pem") (Some "missing.pem") (Some "4c19")
    Runtime.GossipServiceStub
    (Runtime.mkInterceptorObject Runtime.Gossip Demo.node)
  = ([], inl (Runtime.FileNotFoundError "missing.pem")).
Proof.
  split.
  - apply (proj1 (@encrypted_servicer_needs_its_files _ _ Runtime.ServiceStub_str
                    Runtime.InterceptorObject_str Fixtures.files (Some "localhost")
                    (Some 50400%Z) (Some 40400%Z) None None (Some "4c19")
                    Runtime.GossipServiceStub
                    (Runtime.mkInterceptorObject Runtime.Gossip Demo.node))).
    reflexivity.
  - apply (proj2 (proj2 (proj2 (@encrypted_servicer_needs_its_files _ _
                    Runtime.ServiceStub_str Runtime.InterceptorObject_str
                    Fixtures.files (Some "localhost") (Some 50400%Z) (Some 40400%Z)
                    (Some "node.certificate.pem") (Some "missing.pem") (Some "4c19")
                    Runtime.GossipServiceStub
                    (Runtime.mkInterceptorObject Runtime.Gossip Demo.node)))
                  "node.certificate.pem" [x2d; x43] eq_refl
                  ltac:(vm_compute; reflexivity))
             "missing.pem" eq_refl).
    vm_compute. reflexivity.
Defined.

(** X19: a servicer constructed with [encrypted_connection=True] from files
    that exist opens a secure channel to "host:port" whose root certificates
    and certificate chain are both the content of the certificate file and
    whose private key is the content of the key file.  With a non-empty
    [node_id] the channel overrides the TLS target name and the default
    authority, both with [node_id]; without one it overrides nothing. *)
Theorem encrypted_servicer_channel {Stub Icpt : Type} `{Str Stub, Str Icpt}
    (fs : Runtime.FileSystem) (node_host : option string)
    (node_port proxy_port : option Z)
    (certificate_path key_path : string) (node_id : option string)
    (service_stub : Stub) (interceptor : Icpt)
    (certificate key : bytes) (short_name : string) :
  fs !! certificate_path = Some certificate ->
  fs !! key_path = Some key ->
  stub_name service_stub = Return short_name ->
  exists servicer options,
    snd (Runtime.init fs node_host node_port proxy_port true
           (Some certificate_path) (Some key_path) node_id service_stub interceptor)
      = inr servicer /\
    Runtime.channel servicer
      = Runtime.secure_channel
          (Text.format_str node_host +:+ ":" +:+ Text.format_int node_port)
          (Runtime.mkChannelCredentials certificate key certificate) options /\
    ( forall name,
        node_id = Some name -> name <> EmptyString ->
        options = Runtime.Overrides [("grpc.ssl_target_name_override", name);
                                     ("grpc.default_authority", name)] ) /\
    ( node_id = None \/ node_id = Some EmptyString ->
      options = Runtime.Falsy node_id ).
Proof.
  intros Hc Hk Hstub. unfold Runtime.init, Runtime.read_binary.
  rewrite Hc, Hk, Hstub. cbn [snd].
  eexists _, (Runtime.secure_channel_options_of node_id).
  split; [reflexivity|]. split; [reflexivity|]. split.
  - intros name -> Hname. destruct name; [congruence | reflexivity].
  - intros [-> | ->]; reflexivity.
Qed.

(** X19 on the fixture host. *)
Lemma encrypted_servicer_channel_witness :
  exists servicer,
    snd (Runtime.init Fixtures.files (Some "localhost") (Some 50400%Z)
           (Some 40400%Z) true (Some "node.certificate.pem") (Some "node.key.pem")
           (Some "4c19") Runtime.GossipServiceStub
           (Runtime.mkInterceptorObject Runtime.Gossip Demo.node))
      = inr servicer /\
    Runtime.channel servicer
      = Runtime.secure_channel "localhost:50400"
          (Runtime.mkChannelCredentials [x2d; x43] [x2d; x4b] [x2d; x43])
          (Runtime.Overrides [("grpc.ssl_target_name_override", "4c19");
                              ("grpc.default_authority", "4c19")]).
Proof.
  destruct (@encrypted_servicer_channel _ _ Runtime.ServiceStub_str
              Runtime.InterceptorObject_str Fixtures.files (Some "localhost")
              (Some 50400%Z) (Some 40400%Z) "node.certificate.pem" "node.key.pem"
              (Some "4c19") Runtime.GossipServiceStub
              (Runtime.mkInterceptorObject Runtime.Gossip Demo.node)
              [x2d; x43] [x2d; x4b] "Gossip")
    as (servicer & options & Hinit & Hchannel & Hoptions & _).
  - vm_compute. reflexivity.
  - vm_compute. reflexivity.
  - reflexivity.
  - exists servicer. split; [exact Hinit|].
    rewrite Hchannel, (Hoptions "4c19" eq_refl ltac:(discriminate)). reflexivity.
Defined.

Lemma stub_name_of_kademlia_stub :
  stub_name Runtime.KademliaServiceStub = Return "Kademlia".
Proof. vm_compute. reflexivity. Qed.

(** X20: [proxy_kademlia] constructs its thread without fail and never
    encrypts.  For every file system, every reader of common names and every
    argument, it constructs a thread whose servicer dials the node over an
    insecure channel to "node_host:node_port", and it logs the line "PROXY
    node_host:node_port on proxy_port Kademlia, interceptor: <name>".  The
    thread's [run] reads no file and asks for the insecure port
    "[::]:proxy_port": when the server takes it, [run] logs its line and
    starts a one-worker server on it; when the server raises, [run] ends in
    that exception with nothing logged. *)
Theorem proxy_kademlia_is_always_plaintext
    (extract_common_name :
       Runtime.FileSystem -> option string -> Runtime.failure + string)
    (add_insecure_port : string -> option exn)
    (add_secure_port : string -> bytes -> bytes -> option exn)
    (fs : Runtime.FileSystem) (node : DockerNode)
    (node_port : Z) (node_host : string) (proxy_port : Z)
    (interceptor_class : Runtime.InterceptorClass) :
  exists thread,
    Runtime.proxy_kademlia extract_common_name fs node node_port node_host
      proxy_port interceptor_class
    = (["PROXY" +:+ " " +:+ node_host +:+ ":" +:+ str_int node_port +:+ " on "
        +:+ str_int proxy_port +:+ " " +:+ "Kademlia" +:+ ", interceptor: "
        +:+ Runtime.interceptor_str interceptor_class],
       inr thread) /\
    Runtime.thread_node_id thread = None /\
    Runtime.channel (Runtime.servicer thread)
      = Runtime.insecure_channel (node_host +:+ ":" +:+ str_int node_port) /\
    ( add_insecure_port ("[::]:" +:+ str_int proxy_port) = None ->
      Runtime.run add_insecure_port add_secure_port fs thread
      = (["STARTING PROXY: node=" +:+ node_host +:+ ":" +:+ str_int node_port
          +:+ " proxy_port=" +:+ str_int proxy_port],
         inr (Runtime.mkListener 1 ("[::]:" +:+ str_int proxy_port) None)) ) /\
    ( forall e,
        add_insecure_port ("[::]:" +:+ str_int proxy_port) = Some e ->
        Runtime.run add_insecure_port add_secure_port fs thread
        = ([], inl (Runtime.Uncaught e)) ).
Proof.
  unfold Runtime.proxy_kademlia, Runtime.thread_init, Runtime.init.
  rewrite stub_name_of_kademlia_stub.
  eexists. split.
  - cbn [str Runtime.InterceptorObject_str Runtime.interceptor_class
           Text.format_str Text.format_int default from_option].
    rewrite !string_app_assoc. reflexivity.
  - split; [reflexivity|]. split; [reflexivity|]. split.
    + intros Hport. unfold Runtime.run.
      cbn [Runtime.thread_encrypted_connection Runtime.thread_proxy_port negb].
      rewrite Hport. reflexivity.
    + intros e Hport. unfold Runtime.run.
      cbn [Runtime.thread_encrypted_connection Runtime.thread_proxy_port negb].
      rewrite Hport. reflexivity.
Qed.

(** X20 on the fixture host: the default discovery proxy of the demo node
    starts on port 40404, and one asked to listen on port 9 does not. *)
Lemma proxy_kademlia_is_always_plaintext_witness :
  ( exists thread,
      snd (Runtime.proxy_kademlia_by_default Fixtures.common_name ∅ Demo.node)
        = inr thread /\
      Runtime.run Fixtures.add_insecure_port Fixtures.add_secure_port ∅ thread
        = (["STARTING PROXY: node=127.0.0.1:50404 proxy_port=40404"],
           inr (Runtime.mkListener 1 "[::]:40404" None)) ) /\
  ( exists thread,
      snd (Runtime.proxy_kademlia Fixtures.common_name ∅ Demo.node 50404
             "127.0.0.1" 9 Runtime.Kademlia) = inr thread /\
      Runtime.run Fixtures.add_insecure_port Fixtures.add_secure_port ∅ thread
        = ([], inl (Runtime.Uncaught
                      (RuntimeError "Failed to bind to address [::]:9"))) ).
Proof.
  split.
  - destruct (proxy_kademlia_is_always_plaintext Fixtures.common_name
                Fixtures.add_insecure_port Fixtures.add_secure_port ∅ Demo.node
                50404 "127.0.0.1" 40404 Runtime.Kademlia)
      as (thread & Hmade & _ & _ & Hrun & _).
    exists thread. split.
    + unfold Runtime.proxy_kademlia_by_default. rewrite Hmade. reflexivity.
    + rewrite (Hrun ltac:(vm_compute; reflexivity)). vm_compute. reflexivity.
  - destruct (proxy_kademlia_is_always_plaintext Fixtures.common_name
                Fixtures.add_insecure_port Fixtures.add_secure_port ∅ Demo.node
                50404 "127.0.0.1" 9 Runtime.Kademlia)
      as (thread & Hmade & _ & _ & _ & Hrun).
    exists thread. split.
    + rewrite Hmade. reflexivity.
    + apply Hrun. vm_compute. reflexivity.
Defined.

(** X21: [proxy_client] and [proxy_server] cannot be constructed without a
    client certificate file.  With that argument absent, as it is by default,
    the call fails before anything is logged, whatever the file system holds
    and whatever the reader of common names does with an absent file name:
    either that reader fails, or the servicer fails to open the file. *)
Theorem encrypted_factories_need_a_client_certificate
    (extract_common_name :
       Runtime.FileSystem -> option string -> Runtime.failure + string)
    (fs : Runtime.FileSystem) (node : DockerNode)
    (node_port : Z) (node_host : string) (proxy_port : Z)
    (server_certificate_file server_key_file client_key_file : option string)
    (interceptor_class : Runtime.InterceptorClass) :
  ( exists e,
      Runtime.proxy_client extract_common_name fs node node_port node_host
        proxy_port server_certificate_file server_key_file None client_key_file
        interceptor_class = ([], inl e) ) /\
  ( exists e,
      Runtime.proxy_server extract_common_name fs node node_port node_host
        proxy_port server_certificate_file server_key_file None client_key_file
        interceptor_class = ([], inl e) ) /\
  ( exists e,
      Runtime.proxy_client_by_default extract_common_name fs node = ([], inl e) ) /\
  ( exists e,
      Runtime.proxy_server_by_default extract_common_name fs node = ([], inl e) ).
Proof.
  repeat split;
    unfold Runtime.proxy_client_by_default, Runtime.proxy_server_by_default,
      Runtime.proxy_client, Runtime.proxy_server, Runtime.thread_init;
    destruct (extract_common_name fs None) as [e|common_name];
    eexists; reflexivity.
Qed.

(** X22: the server credentials are read by [run] only, key file first, and
    before the port is added.  On an encrypted thread, [run] fails without
    logging when the server key file does not exist, whatever the certificate
    file and the server are; when both files exist it asks for the secure
    port "[::]:proxy_port" with exactly their contents.  On a plaintext
    thread it reads no file and asks for the insecure port.  In both cases,
    when the server takes the port [run] logs its line and starts a
    one-worker server on it, and when the server raises [run] ends in that
    exception with nothing logged. *)
Theorem run_reads_the_server_credentials {Stub Icpt : Type} `{Str Stub, Str Icpt}
    (add_insecure_port : string -> option exn)
    (add_secure_port : string -> bytes -> bytes -> option exn)
    (fs : Runtime.FileSystem) (thread : @Runtime.ProxyThread Stub Icpt) :
  ( Runtime.thread_encrypted_connection thread = false ->
    ( add_insecure_port ("[::]:" +:+ str_int (Runtime.thread_proxy_port thread))
        = None ->
      Runtime.run add_insecure_port add_secure_port fs thread
      = (["STARTING PROXY: node=" +:+ Runtime.thread_node_host thread +:+ ":"
          +:+ str_int (Runtime.thread_node_port thread) +:+ " proxy_port="
          +:+ str_int (Runtime.thread_proxy_port thread)],
         inr (Runtime.mkListener 1
                ("[::]:" +:+ str_int (Runtime.thread_proxy_port thread)) None)) ) /\
    ( forall e,
        add_insecure_port ("[::]:" +:+ str_int (Runtime.thread_proxy_port thread))
          = Some e ->
        Runtime.run add_insecure_port add_secure_port fs thread
        = ([], inl (Runtime.Uncaught e)) ) ) /\
  ( forall key_path,
      Runtime.thread_encrypted_connection thread = true ->
      Runtime.server_key_file thread = Some key_path ->
      fs !! key_path = None ->
      Runtime.run add_insecure_port add_secure_port fs thread
      = ([], inl (Runtime.FileNotFoundError key_path)) ) /\
  ( forall key_path certificate_path key certificate,
      Runtime.thread_encrypted_connection thread = true ->
      Runtime.server_key_file thread = Some key_path ->
      Runtime.server_certificate_file thread = Some certificate_path ->
      fs !! key_path = Some key ->
      fs !! certificate_path = Some certificate ->
      ( add_secure_port ("[::]:" +:+ str_int (Runtime.thread_proxy_port thread))
          key certificate = None ->
        Runtime.run add_insecure_port add_secure_port fs thread
        = (["STARTING PROXY: node=" +:+ Runtime.thread_node_host thread +:+ ":"
            +:+ str_int (Runtime.thread_node_port thread) +:+ " proxy_port="
            +:+ str_int (Runtime.thread_proxy_port thread)],
           inr (Runtime.mkListener 1
                  ("[::]:" +:+ str_int (Runtime.thread_proxy_port thread))
                  (Some (key, certificate)))) ) /\
      ( forall e,
          add_secure_port ("[::]:" +:+ str_int (Runtime.thread_proxy_port thread))
            key certificate = Some e ->
          Runtime.run add_insecure_port add_secure_port fs thread
          = ([], inl (Runtime.Uncaught e)) ) ).
Proof.
  split; [|split].
  - intros Hplain. split.
    + intros Hport. unfold Runtime.run. rewrite Hplain. cbn [negb].
      rewrite Hport. reflexivity.
    + intros e Hport. unfold Runtime.run. rewrite Hplain. cbn [negb].
      rewrite Hport. reflexivity.
  - intros key_path Henc Hkey Hmissing. unfold Runtime.run, Runtime.read_binary.
    rewrite Henc, Hkey, Hmissing. reflexivity.
  - intros key_path certificate_path key certificate Henc Hkey Hcert Hk Hc.
    split.
    + intros Hport. unfold Runtime.run, Runtime.read_binary.
      rewrite Henc, Hkey, Hcert, Hk, Hc. cbn [negb]. rewrite Hport. reflexivity.
    + intros e Hport. unfold Runtime.run, Runtime.read_binary.
      rewrite Henc, Hkey, Hcert, Hk, Hc. cbn [negb]. rewrite Hport. reflexivity.
Qed.

(** X22 on the fixture host: a gossip proxy constructed from the client files
    of node 1, first with a server key file that does not exist, then with
    the files of node 1 as server credentials. *)
Lemma run_reads_the_server_credentials_witness :
  ( exists thread,
      snd (Runtime.proxy_server Fixtures.common_name Fixtures.files Demo.node
             50400 "localhost" 40400 (Some "server.certificate.pem")
             (Some "server.key.pem") (Some "node.certificate.pem")
             (Some "node.key.pem") Runtime.Gossip) = inr thread /\
      Runtime.run Fixtures.add_insecure_port Fixtures.add_secure_port
        Fixtures.files thread
        = ([], inl (Runtime.FileNotFoundError "server.key.pem")) ) /\
  ( exists thread,
      snd (Runtime.proxy_server Fixtures.common_name Fixtures.files Demo.node
             50400 "localhost" 40400 (Some "node.certificate.pem")
             (Some "node.key.pem") (Some "node.certificate.pem")
             (Some "node.key.pem") Runtime.Gossip) = inr thread /\
      Runtime.run Fixtures.add_insecure_port Fixtures.add_secure_port
        Fixtures.files thread
        = (["STARTING PROXY: node=localhost:50400 proxy_port=40400"],
           inr (Runtime.mkListener 1 "[::]:40400"
                  (Some ([x2d; x4b], [x2d; x43])))) ).
Proof.
  split.
  - eexists. split; [vm_compute; reflexivity|].
    apply (proj1 (proj2 (@run_reads_the_server_credentials _ _
                    Runtime.ServiceStub_str Runtime.InterceptorObject_str
                    Fixtures.add_insecure_port Fixtures.add_secure_port
                    Fixtures.files _)) "server.key.pem");
      vm_compute; reflexivity.
  - eexists. split; [vm_compute; reflexivity|].
    match goal with
    | |- Runtime.run _ _ _ ?t = _ =>
        rewrite (proj1 (proj2 (proj2 (@run_reads_the_server_credentials _ _
                    Runtime.ServiceStub_str Runtime.InterceptorObject_str
                    Fixtures.add_insecure_port Fixtures.add_secure_port
                    Fixtures.files t))
                    "node.key.pem" "node.certificate.pem" [x2d; x4b] [x2d; x43]
                    ltac:(vm_compute; reflexivity) ltac:(vm_compute; reflexivity)
                    ltac:(vm_compute; reflexivity) ltac:(vm_compute; reflexivity)
                    ltac:(vm_compute; reflexivity))
                  ltac:(vm_compute; reflexivity))
    end.
    vm_compute. reflexivity.
Defined.

Lemma stub_name_of_casper_stub :
  stub_name Runtime.CasperServiceStub = Return "Casper".
Proof. vm_compute. reflexivity. Qed.

Lemma stub_name_of_gossip_stub :
  stub_name Runtime.GossipServiceStub = Return "Gossip".
Proof. vm_compute. reflexivity. Qed.

(** X23: [proxy_client] and [proxy_server], given client credential files
    that exist, construct a thread whose [node_id] is the common name read
    from the client certificate and whose servicer dials the node over a
    secure channel to "node_host:node_port" with the client certificate as
    root certificates and certificate chain and the client key as private
    key; with a non-empty common name both the TLS target name and the
    default authority are overridden with it.  The server credential
    arguments play no part. *)
Theorem encrypted_factories_dial_with_the_common_name
    (extract_common_name :
       Runtime.FileSystem -> option string -> Runtime.failure + string)
    (fs : Runtime.FileSystem) (node : DockerNode)
    (node_port : Z) (node_host : string) (proxy_port : Z)
    (server_certificate_file server_key_file : option string)
    (certificate_path key_path : string)
    (interceptor_class : Runtime.InterceptorClass)
    (common_name : string) (certificate key : bytes) :
  extract_common_name fs (Some certificate_path) = inr common_name ->
  common_name <> EmptyString ->
  fs !! certificate_path = Some certificate ->
  fs !! key_path = Some key ->
  ( exists thread,
      snd (Runtime.proxy_client extract_common_name fs node node_port node_host
             proxy_port server_certificate_file server_key_file
             (Some certificate_path) (Some key_path) interceptor_class)
        = inr thread /\
      Runtime.thread_node_id thread = Some common_name /\
      Runtime.channel (Runtime.servicer thread)
        = Runtime.secure_channel (node_host +:+ ":" +:+ str_int node_port)
            (Runtime.mkChannelCredentials certificate key certificate)
            (Runtime.Overrides [("grpc.ssl_target_name_override", common_name);
                                ("grpc.default_authority", common_name)]) ) /\
  ( exists thread,
      snd (Runtime.proxy_server extract_common_name fs node node_port node_host
             proxy_port server_certificate_file server_key_file
             (Some certificate_path) (Some key_path) interceptor_class)
        = inr thread /\
      Runtime.thread_node_id thread = Some common_name /\
      Runtime.channel (Runtime.servicer thread)
        = Runtime.secure_channel (node_host +:+ ":" +:+ str_int node_port)
            (Runtime.mkChannelCredentials certificate key certificate)
            (Runtime.Overrides [("grpc.ssl_target_name_override", common_name);
                                ("grpc.default_authority", common_name)]) ).
Proof.
  intros Hcn Hne Hc Hk.
  assert (Hoptions : Runtime.secure_channel_options_of (Some common_name)
            = Runtime.Overrides [("grpc.ssl_target_name_override", common_name);
                                 ("grpc.default_authority", common_name)]).
  { destruct common_name; [congruence | reflexivity]. }
  split.
  - unfold Runtime.proxy_client, Runtime.thread_init, Runtime.init,
      Runtime.read_binary.
    rewrite Hcn, Hc, Hk, stub_name_of_casper_stub, Hoptions. cbn [snd].
    eexists. split; [reflexivity|]. split; reflexivity.
  - unfold Runtime.proxy_server, Runtime.thread_init, Runtime.init,
      Runtime.read_binary.
    rewrite Hcn, Hc, Hk, stub_name_of_gossip_stub, Hoptions. cbn [snd].
    eexists. split; [reflexivity|]. split; reflexivity.
Qed.

(** X23 on the fixture host. *)
Lemma encrypted_factories_dial_with_the_common_name_witness :
  exists thread,
    snd (Runtime.proxy_server Fixtures.common_name Fixtures.files Demo.node
           50400 "localhost" 40400 None None (Some "node.certificate.pem")
           (Some "node.key.pem") Runtime.Gossip) = inr thread /\
    Runtime.thread_node_id thread = Some "4c19" /\
    Runtime.channel (Runtime.servicer thread)
      = Runtime.secure_channel "localhost:50400"
          (Runtime.mkChannelCredentials [x2d; x43] [x2d; x4b] [x2d; x43])
          (Runtime.Overrides [("grpc.ssl_target_name_override", "4c19");
                              ("grpc.default_authority", "4c19")]).
Proof.
  apply (proj2 (@encrypted_factories_dial_with_the_common_name
                  Fixtures.common_name Fixtures.files Demo.node 50400 "localhost"
                  40400 None None "node.certificate.pem" "node.key.pem"
                  Runtime.Gossip "4c19" [x2d; x43] [x2d; x4b]
                  ltac:(vm_compute; reflexivity) ltac:(discriminate)
                  ltac:(vm_compute; reflexivity) ltac:(vm_compute; reflexivity))).
Defined.
